(** * HetrixTools monitoring agent: the sampling and aggregation loop

    A shallow embedding of [hetrixtools_agent.py].  The script is a straight
    line of top-level statements; each stage becomes a function over an
    explicit state and an explicit record of what the outside world answered
    (command outputs, file contents, clock readings).

    Conventions of the embedding:
    - Python [int] is [Z]; Python [float] is an exact rational [Qc]: the
      rounding of binary64 arithmetic is not modelled, and a statement about
      an integer taken from a float quotient is made where rounding cannot
      change that integer ([int_div_exact] below);
    - Python [str] is [string], read as the UTF-8 bytes of the text;
    - Python [dict] is stdpp's [gmap]; a failed subscript raises [KeyError];
    - an uncaught exception is the [Raise] outcome of [result]. *)

From Stdlib Require Import ZArith QArith Qcanon Ascii String List Lia.
From stdpp Require Import base option list gmap strings.

Local Open Scope Z_scope.
Local Open Scope string_scope.

(** ** Exceptions and the result monad *)

Inductive exn : Set :=
  | IndexError
  | ValueError
  | KeyError
  | ZeroDivisionError
  | NameError
  | TimeoutExpired.

Inductive result (A : Type) : Type :=
  | Ok (a : A)
  | Raise (e : exn).
Arguments Ok {A} a.
Arguments Raise {A} e.

#[global] Instance result_ret : MRet result := fun A a => Ok a.
#[global] Instance result_bind : MBind result := fun A B f m =>
  match m with
  | Ok a => f a
  | Raise e => Raise e
  end.

Definition raises {A} (m : result A) : Prop := exists e, m = Raise e.
Definition returns {A} (m : result A) : Prop := exists a, m = Ok a.

(** ** Python string primitives *)

Module Py.

(** ASCII characters for which [str.isspace] holds: codes 9 to 13 (tab,
    line feed, vertical tab, form feed, carriage return), 28 to 31 (the
    separators) and 32 (space). *)
Definition isspace (c : ascii) : bool :=
  let n := N_of_ascii c in
  ((9 <=? n) && (n <=? 13) || (28 <=? n) && (n <=? 32))%N.

(** The value of an ASCII decimal digit (codes 48 to 57). *)
Definition digit (c : ascii) : option Z :=
  let n := N_of_ascii c in
  if ((48 <=? n) && (n <=? 57))%N then Some (Z.of_N (n - 48)) else None.

Fixpoint rev_onto (s acc : string) : string :=
  match s with
  | "" => acc
  | String c r => rev_onto r (String c acc)
  end.

Definition rev (s : string) : string := rev_onto s "".

(** [s.split()]: maximal runs of non-space characters. [cur] is the word
    being read, reversed. *)
Fixpoint split_go (cur : option string) (s : string) : list string :=
  match s with
  | "" => match cur with Some w => [rev w] | None => [] end
  | String c r =>
      if isspace c
      then match cur with
           | Some w => rev w :: split_go None r
           | None => split_go None r
           end
      else split_go (Some (String c (default "" cur))) r
  end.

Definition split (s : string) : list string := split_go None s.

(** [s.split(sep)] for a one-character separator. *)
Fixpoint split_on (sep : ascii) (s : string) : list string :=
  match s with
  | "" => [""]
  | String c r =>
      if Ascii.eqb c sep then "" :: split_on sep r
      else match split_on sep r with
           | w :: ws => String c w :: ws
           | [] => [String c ""]
           end
  end.

(** [needle in hay]. *)
Fixpoint contains (needle hay : string) : bool :=
  String.prefix needle hay ||
  match hay with
  | "" => false
  | String _ r => contains needle r
  end.

(** [hay.count(needle)]: occurrences that do not overlap, scanning from the
    left. [skip] counts the characters of the last match still to pass. *)
Fixpoint count_go (needle : string) (skip : nat) (hay : string) : Z :=
  match hay with
  | "" => match skip, needle with O, "" => 1 | _, _ => 0 end
  | String _ r =>
      match skip with
      | S k => count_go needle k r
      | O => if String.prefix needle hay
             then 1 + count_go needle (Nat.pred (String.length needle)) r
             else count_go needle 0 r
      end
  end.

Definition count (hay needle : string) : Z := count_go needle 0 hay.

(** [s.lstrip(c)] and [s.strip()]. *)
Fixpoint lstrip_char (c : ascii) (s : string) : string :=
  match s with
  | String d r => if Ascii.eqb d c then lstrip_char c r else s
  | "" => ""
  end.

Fixpoint lstrip (s : string) : string :=
  match s with
  | String d r => if isspace d then lstrip r else s
  | "" => ""
  end.

Definition strip (s : string) : string := rev (lstrip (rev (lstrip s))).

(** [s.replace(c, by)] for a one-character pattern. *)
Fixpoint replace (c : ascii) (by_ : string) (s : string) : string :=
  match s with
  | "" => ""
  | String d r =>
      if Ascii.eqb d c then by_ ++ replace c by_ r
      else String d (replace c by_ r)
  end.

(** The white space [int()] skips around a literal: codes 9 to 13 and 32.
    The separators 28 to 31, which [str.strip] and [str.split] take for
    white space, are not skipped: [int] raises [ValueError] on them. *)
Definition isspace_int (c : ascii) : bool :=
  let n := N_of_ascii c in
  ((9 <=? n) && (n <=? 13) || (n =? 32))%N.

Fixpoint lstrip_int (s : string) : string :=
  match s with
  | String d r => if isspace_int d then lstrip_int r else s
  | "" => ""
  end.

(** [int(s)]: optional surrounding white space, an optional sign, then
    decimal digits, single underscores allowed between digits.  [None] is
    [ValueError].  Digits outside ASCII are not accepted here. *)
Fixpoint digits_go (acc : Z) (after_digit : bool) (s : string) : option Z :=
  match s with
  | "" => if after_digit then Some acc else None
  | String c r =>
      match digit c with
      | Some d => digits_go (10 * acc + d) true r
      | None =>
          if Ascii.eqb c "_" && after_digit then
            match r with
            | "" => None
            | _ => digits_go acc false r
            end
          else None
      end
  end.

Definition int_opt (s : string) : option Z :=
  match rev (lstrip_int (rev (lstrip_int s))) with
  | String "-" r => Z.opp <$> digits_go 0 false r
  | String "+" r => digits_go 0 false r
  | t => digits_go 0 false t
  end.

Definition int (s : string) : result Z :=
  match int_opt s with
  | Some z => Ok z
  | None => Raise ValueError
  end.

(** [l[i]] for a non-negative literal index. *)
Definition item {A} (l : list A) (i : nat) : result A :=
  match l !! i with
  | Some a => Ok a
  | None => Raise IndexError
  end.

(** [d[k]] on a dictionary. *)
Definition getitem {A} (d : gmap string A) (k : string) : result A :=
  match d !! k with
  | Some a => Ok a
  | None => Raise KeyError
  end.

(** [a / b] on floats, and [int(x)] of a float: truncation toward zero. *)
Definition Z2Qc (z : Z) : Qc := Q2Qc (inject_Z z).

Definition is_zero (q : Qc) : bool := Z.eqb (Qnum (this q)) 0.

Definition truediv (a b : Qc) : result Qc :=
  if is_zero b then Raise ZeroDivisionError else Ok (a / b)%Qc.

Definition trunc (q : Qc) : Z := Z.quot (Qnum (this q)) (Zpos (Qden (this q))).

End Py.

(** ** base64 (RFC 4648, as [base64.b64encode] of the Python library) *)

Definition b64_alphabet : string :=
  "ABCDEFGHIJKLMNOPQRSTUVWXYZabcdefghijklmnopqrstuvwxyz0123456789+/".

Definition b64_char (n : N) : ascii :=
  default "="%char (String.get (N.to_nat n) b64_alphabet).

Fixpoint b64encode (s : string) : string :=
  match s with
  | "" => ""
  | String a "" =>
      let x := N_of_ascii a in
      String (b64_char (x / 4))
        (String (b64_char (x mod 4 * 16)) "==")
  | String a (String b "") =>
      let x := N_of_ascii a in
      let y := N_of_ascii b in
      String (b64_char (x / 4))
        (String (b64_char (x mod 4 * 16 + y / 16))
           (String (b64_char (y mod 16 * 4)) "="))
  | String a (String b (String c r)) =>
      let x := N_of_ascii a in
      let y := N_of_ascii b in
      let z := N_of_ascii c in
      String (b64_char (x / 4))
        (String (b64_char (x mod 4 * 16 + y / 16))
           (String (b64_char (y mod 16 * 4 + z / 64))
              (String (b64_char (z mod 64)) (b64encode r))))
  end%N.

(** ** Encoding helpers of the agent *)

Definition base64_prep (s : string) : string :=
  let s := Py.replace "+" "%2B" s in
  let s := Py.replace "/" "%2F" s in
  s.

Section Compress.

(** [gzip.compress] belongs to the Python library; it stays a parameter. *)
Variable gzip_compress : string -> string.

Definition compress_and_encode (data : string) : string :=
  let compressed := gzip_compress data in
  let encoded := b64encode compressed in
  base64_prep encoded.

End Compress.

(** ** Commands with a trace of what was invoked *)

Inductive call : Set :=
  | CallRunCommand (cmd : string)
  | CallPathExists (path : string)
  | CallSubprocessRun (argv : list string).

(** What the host answers. [subprocess_run] gives the return code of the
    child, or the exception [subprocess.run] raised (for instance
    [TimeoutExpired]). *)
Record world : Type := {
  shell_output : string -> string;
  path_present : string -> bool;
  subprocess_run : list string -> result Z
}.

Record io (A : Type) : Type := IO {
  io_trace : list call;
  io_result : result A
}.
Arguments IO {A} _ _.
Arguments io_trace {A} _.
Arguments io_result {A} _.

#[global] Instance io_ret : MRet io := fun A a => IO [] (Ok a).
#[global] Instance io_bind : MBind io := fun A B f m =>
  match io_result m with
  | Ok a => IO (io_trace m ++ io_trace (f a)) (io_result (f a))
  | Raise e => IO (io_trace m) (Raise e)
  end.

Definition lift_result {A} (r : result A) : io A := IO [] r.

(** [run_command] never raises: the [except] clause turns every failure
    into the empty string, and the output is stripped. *)
Definition run_command (w : world) (cmd : string) : io string :=
  IO [CallRunCommand cmd] (Ok (shell_output w cmd)).

Definition os_path_exists (w : world) (path : string) : io bool :=
  IO [CallPathExists path] (Ok (path_present w path)).

Definition subprocess_returncode (w : world) (argv : list string) : io Z :=
  IO [CallSubprocessRun argv] (subprocess_run w argv).

Definition truthy (s : string) : bool :=
  match s with "" => false | _ => true end.

Definition ps_command (service_name : string) : string :=
  "ps -ef | grep -v grep | grep " ++ service_name ++ " | wc -l".

Definition systemctl_argv (service_name : string) : list string :=
  ["systemctl"; "is-active"; "--quiet"; service_name].

Definition service_status (w : world) (service_name : string) : io string :=
  ps_output ← run_command w (ps_command service_name);
  found ← (if truthy ps_output
           then n ← lift_result (Py.int ps_output); mret (0 <? n)%Z
           else mret false);
  if found : bool then
    mret (b64encode service_name ++ ",1")
  else
    e1 ← os_path_exists w "/usr/bin/systemctl";
    e2 ← (if e1 : bool then mret true else os_path_exists w "/bin/systemctl");
    if e2 : bool then
      returncode ← subprocess_returncode w (systemctl_argv service_name);
      if (returncode =? 0)%Z
      then mret (b64encode service_name ++ ",1")
      else mret (b64encode service_name ++ ",0")
    else
      mret (b64encode service_name ++ ",0").

(** ** Swap usage *)

Definition swap_usage (swap_size swap_free : string) : result Qc :=
  size ← Py.int swap_size;
  if (0 <? size)%Z then
    free ← Py.int swap_free;
    size' ← Py.int swap_size;
    ratio ← Py.truediv (Py.Z2Qc free) (Py.Z2Qc size');
    mret (Py.Z2Qc 100 - ratio * Py.Z2Qc 100)%Qc
  else
    mret 0%Qc.

(** ** Settings *)

Definition COLLECT_EVERY_X_SECONDS : Z := 3.
Definition RUNTIME : Z := 60.

(** The two settings the sampling loop reads; both are [""] as shipped. *)
Record settings : Type := {
  NETWORK_INTERFACES : string;
  CONNECTION_PORTS : string
}.

Definition shipped_settings : settings :=
  {| NETWORK_INTERFACES := ""; CONNECTION_PORTS := "" |}.

(** [run_times = RUNTIME // COLLECT_EVERY_X_SECONDS] *)
Definition run_times : Z := RUNTIME `div` COLLECT_EVERY_X_SECONDS.

(** ** What the host answers during one run *)

(** Readings taken before the loop. *)
Record setup_env : Type := {
  boot_time : Qc;           (* time.time() under "Start timers" *)
  boot_minute : string;     (* time.strftime('%M') *)
  ip_output : string;       (* run_command("ip a | grep BROADCAST | ...") *)
  boot_net_dev : string;    (* open('/proc/net/dev').read() *)
  boot_netstat : string;    (* run_command("netstat -ntu | awk '{print $4}'") *)
  boot_diskstats : string   (* open('/proc/diskstats').read() *)
}.

(** Readings taken by one pass of the loop body, in program order. *)
Record tick_env : Type := {
  vmstat_output : string;   (* run_command("vmstat 3 2 | tail -1") *)
  memtotal_output : string; (* run_command("grep MemTotal /proc/meminfo | ...") *)
  net_dev : string;         (* open('/proc/net/dev').read() *)
  end_time : Qc;            (* end_time = time.time() *)
  restart_time : Qc;        (* start_time = time.time() *)
  netstat_output : string;  (* run_command("netstat -ntu | awk '{print $4}'") *)
  minute : string           (* time.strftime('%M') *)
}.

(** ** State of the script *)

(** The four per-interface dictionaries. *)
Record nic_state : Type := {
  a_rx : gmap string Z;
  a_tx : gmap string Z;
  t_rx : gmap string Z;
  t_tx : gmap string Z
}.

(** Names bound before the loop and only read afterwards. *)
Record window : Type := {
  M : Z;
  network_interfaces_array : list string;
  connection_ports_array : list string;
  iops_read : gmap string Z;
  iops_write : gmap string Z
}.

(** Names the loop assigns. [X] is [None] while the loop variable is
    unbound. *)
Record state : Type := {
  X : option Z;
  start_time : Qc;
  t_time_diff : Qc;
  nics : nic_state;
  connections : gmap string Z;
  t_cpu : Z;
  t_iow : Z;
  t_ram : Qc
}.

(** The values one pass computes in its local names [cpu], [iow], [ram],
    [time_diff], [rx]/[tx] per interface line met and [count] per port.
    The script keeps only their sums; the loop below also returns the list
    of samples as a ghost trace. *)
Record sample : Type := {
  s_cpu : Z;
  s_iow : Z;
  s_ram : Qc;
  s_time_diff : Qc;
  s_rates : list (string * (Z * Z));
  s_counts : list (string * Z)
}.

(** ** Parsing helpers *)

(** [int(parts[i])] *)
Definition field (parts : list string) (i : nat) : result Z :=
  s ← Py.item parts i; Py.int s.

(** The line picked by [for line in text.split('\n'): if needle in line: ... break] *)
Definition find_line (needle text : string) : option string :=
  List.find (Py.contains needle) (Py.split_on "010" text).

(** [int(time.strftime('%M').lstrip('0') or 0)] *)
Definition minute_of (strftime_M : string) : result Z :=
  match Py.lstrip_char "0" strftime_M with
  | "" => Ok 0
  | s => Py.int s
  end.

(** [netstat_output.count(f':{c_port}\n')] *)
Definition port_count (netstat : string) (c_port : string) : Z :=
  Py.count netstat (":" ++ c_port ++ String "010" "").

(** ** Before the loop *)

Definition detect_interfaces (cfg : settings) (env : setup_env) : list string :=
  if truthy (NETWORK_INTERFACES cfg) then Py.split_on "," (NETWORK_INTERFACES cfg)
  else if truthy (ip_output env) then Py.split_on "010" (ip_output env)
  else [].

Definition init_nic (text : string) (ns : nic_state) (nic : string)
  : result nic_state :=
  match find_line (nic ++ ":") text with
  | None => Ok ns
  | Some line =>
      let parts := Py.split line in
      rx0 ← field parts 1;
      tx0 ← field parts 9;
      mret {| a_rx := <[nic := rx0]> (a_rx ns);
              a_tx := <[nic := tx0]> (a_tx ns);
              t_rx := <[nic := 0]> (t_rx ns);
              t_tx := <[nic := 0]> (t_tx ns) |}
  end.

Fixpoint init_nics (text : string) (ns : nic_state) (l : list string)
  : result nic_state :=
  match l with
  | [] => Ok ns
  | nic :: l' => ns' ← init_nic text ns nic; init_nics text ns' l'
  end.

Definition init_connections (netstat : string) (ports : list string)
  : gmap string Z :=
  fold_left (fun d c_port => <[c_port := port_count netstat c_port]> d) ports ∅.

(** Hard-coded in the script. *)
Definition v_disks : list (string * string) :=
  [("/", "sda1"); ("/volume1", "sda3")].

Definition init_disk (text : string) (rw : gmap string Z * gmap string Z)
    (md : string * string) : result (gmap string Z * gmap string Z) :=
  let '(mount_point, disk) := md in
  match find_line disk text with
  | None => Ok rw
  | Some line =>
      let parts := Py.split line in
      r0 ← field parts 5;
      w0 ← field parts 9;
      mret (<[mount_point := r0]> (fst rw), <[mount_point := w0]> (snd rw))
  end.

Fixpoint init_disks (text : string) (rw : gmap string Z * gmap string Z)
    (l : list (string * string)) : result (gmap string Z * gmap string Z) :=
  match l with
  | [] => Ok rw
  | md :: l' => rw' ← init_disk text rw md; init_disks text rw' l'
  end.

Definition setup (cfg : settings) (env : setup_env) : result (window * state) :=
  m ← minute_of (boot_minute env);
  let nia := detect_interfaces cfg env in
  ns ← init_nics (boot_net_dev env) {| a_rx := ∅; a_tx := ∅; t_rx := ∅; t_tx := ∅ |} nia;
  let ports := if truthy (CONNECTION_PORTS cfg)
               then Py.split_on "," (CONNECTION_PORTS cfg) else [] in
  let conns := init_connections (boot_netstat env) ports in
  rw ← init_disks (boot_diskstats env) (∅, ∅) v_disks;
  mret ({| M := m; network_interfaces_array := nia;
           connection_ports_array := ports;
           iops_read := fst rw; iops_write := snd rw |},
        {| X := None; start_time := boot_time env; t_time_diff := 0%Qc;
           nics := ns; connections := conns;
           t_cpu := 0; t_iow := 0; t_ram := 0%Qc |}).

(** ** The loop body *)

(** The per-tick rate of a counter: [int((current - previous) / time_diff)] *)
Definition rate (current previous : Z) (time_diff : Qc) : result Z :=
  q ← Py.truediv (Py.Z2Qc (current - previous)) time_diff;
  mret (Py.trunc q).

(** One interface in one pass. *)
Definition nic_step (text : string) (time_diff : Qc) (ns : nic_state)
    (nic : string) : result (nic_state * option (Z * Z)) :=
  match find_line (nic ++ ":") text with
  | None => Ok (ns, None)
  | Some line =>
      let parts := Py.split line in
      cur_rx ← field parts 1;
      prev_rx ← Py.getitem (a_rx ns) nic;
      rx ← rate cur_rx prev_rx time_diff;
      sum_rx ← Py.getitem (t_rx ns) nic;
      cur_tx ← field parts 9;
      prev_tx ← Py.getitem (a_tx ns) nic;
      tx ← rate cur_tx prev_tx time_diff;
      sum_tx ← Py.getitem (t_tx ns) nic;
      mret ({| a_rx := <[nic := cur_rx]> (a_rx ns);
               a_tx := <[nic := cur_tx]> (a_tx ns);
               t_rx := <[nic := sum_rx + rx]> (t_rx ns);
               t_tx := <[nic := sum_tx + tx]> (t_tx ns) |},
            Some (rx, tx))
  end.

Fixpoint nic_steps (text : string) (time_diff : Qc) (ns : nic_state)
    (l : list string) : result (nic_state * list (string * (Z * Z))) :=
  match l with
  | [] => Ok (ns, [])
  | nic :: l' =>
      '(ns1, r) ← nic_step text time_diff ns nic;
      '(ns2, rs) ← nic_steps text time_diff ns1 l';
      mret (ns2, match r with Some v => (nic, v) :: rs | None => rs end)
  end.

(** One port in one pass: [connections[c_port] += count] *)
Definition port_step (netstat : string) (d : gmap string Z) (c_port : string)
  : result (gmap string Z * Z) :=
  let count := port_count netstat c_port in
  old ← Py.getitem d c_port;
  mret (<[c_port := old + count]> d, count).

Fixpoint port_steps (netstat : string) (d : gmap string Z) (l : list string)
  : result (gmap string Z * list (string * Z)) :=
  match l with
  | [] => Ok (d, [])
  | c_port :: l' =>
      '(d1, c) ← port_step netstat d c_port;
      '(d2, cs) ← port_steps netstat d1 l';
      mret (d2, (c_port, c) :: cs)
  end.

(** The body of [for X in range(1, run_times + 1)] for the value [i] of [X].
    The boolean tells whether [break] was reached. *)
Definition tick (cfg : settings) (w : window) (env : tick_env) (i : Z)
    (st : state) : result (state * sample * bool) :=
  let vmstat_parts := Py.split (vmstat_output env) in
  idle ← field vmstat_parts 14;
  let cpu := 100 - idle in
  iow ← field vmstat_parts 15;
  free ← field vmstat_parts 3;
  buff ← field vmstat_parts 4;
  cache ← field vmstat_parts 5;
  let a_ram := free + buff + cache in
  mem_total ← Py.int (memtotal_output env);
  share ← Py.truediv (Py.Z2Qc (a_ram * 100)) (Py.Z2Qc mem_total);
  let ram := (Py.Z2Qc 100 - share)%Qc in
  let time_diff := (end_time env - start_time st)%Qc in
  '(ns, rates) ← nic_steps (net_dev env) time_diff (nics st)
                   (network_interfaces_array w);
  '(conns, counts) ← (if truthy (CONNECTION_PORTS cfg)
                      then port_steps (netstat_output env) (connections st)
                             (connection_ports_array w)
                      else Ok (connections st, []));
  MM ← minute_of (minute env);
  mret ({| X := Some i;
           start_time := restart_time env;
           t_time_diff := (t_time_diff st + time_diff)%Qc;
           nics := ns;
           connections := conns;
           t_cpu := t_cpu st + cpu;
           t_iow := t_iow st + iow;
           t_ram := (t_ram st + ram)%Qc |},
        {| s_cpu := cpu; s_iow := iow; s_ram := ram;
           s_time_diff := time_diff; s_rates := rates; s_counts := counts |},
        (M w <? MM)%Z).

(** [for X in range(1, run_times + 1): ...; if MM > M: break], with [n]
    values of [X] left, the next one being [i]. [envs i] is what the host
    answers during the pass with [X = i]. *)
Fixpoint collect_loop (cfg : settings) (w : window) (envs : Z -> tick_env)
    (n : nat) (i : Z) (st : state) : result (state * list sample) :=
  match n with
  | O => Ok (st, [])
  | S n' =>
      '(st1, smp, stop) ← tick cfg w (envs i) i st;
      if stop : bool then Ok (st1, [smp])
      else
        '(st2, smps) ← collect_loop cfg w envs n' (i + 1) st1;
        mret (st2, smp :: smps)
  end.

Definition collect_data (cfg : settings) (w : window) (envs : Z -> tick_env)
    (rt : Z) (st : state) : result (state * list sample) :=
  collect_loop cfg w envs (Z.to_nat rt) 1 st.

(** ** After the loop *)

(** Reading [X] after the loop; unbound if the body never ran. *)
Definition loop_variable (st : state) : result Z :=
  match X st with
  | Some x => Ok x
  | None => Raise NameError
  end.

(** One disk target: the whole-window delta over [t_time_diff]. *)
Definition iops_entry (text : string) (w : window) (st : state)
    (md : string * string) : result (option (string * (Z * Z))) :=
  let '(mount_point, disk) := md in
  match find_line disk text with
  | None => Ok None
  | Some line =>
      let parts := Py.split line in
      r1 ← field parts 5;
      r0 ← Py.getitem (iops_read w) mount_point;
      read_val ← Py.truediv (Py.Z2Qc ((r1 - r0) * 512)) (t_time_diff st);
      w1 ← field parts 9;
      w0 ← Py.getitem (iops_write w) mount_point;
      write_val ← Py.truediv (Py.Z2Qc ((w1 - w0) * 512)) (t_time_diff st);
      mret (Some (mount_point, (Py.trunc read_val, Py.trunc write_val)))
  end.

(** The records of [iops_str], in order. *)
Fixpoint iops_entries (text : string) (w : window) (st : state)
    (l : list (string * string)) : result (list (string * (Z * Z))) :=
  match l with
  | [] => Ok []
  | md :: l' =>
      e ← iops_entry text w st md;
      es ← iops_entries text w st l';
      mret (match e with Some v => v :: es | None => es end)
  end.

Definition iops_str (text : string) (w : window) (st : state)
  : result (list (string * (Z * Z))) :=
  iops_entries text w st v_disks.

Definition cpu_avg (st : state) : result Qc :=
  x ← loop_variable st; Py.truediv (Py.Z2Qc (t_cpu st)) (Py.Z2Qc x).

Definition iow_avg (st : state) : result Qc :=
  x ← loop_variable st; Py.truediv (Py.Z2Qc (t_iow st)) (Py.Z2Qc x).

Definition ram_avg (st : state) : result Qc :=
  x ← loop_variable st; Py.truediv (t_ram st) (Py.Z2Qc x).

(** [int(total[key] / X)] *)
Definition int_avg (total : gmap string Z) (key : string) (st : state)
  : result Z :=
  sum ← Py.getitem total key;
  x ← loop_variable st;
  q ← Py.truediv (Py.Z2Qc sum) (Py.Z2Qc x);
  mret (Py.trunc q).

Definition rx_avg (st : state) (nic : string) : result Z :=
  int_avg (t_rx (nics st)) nic st.

Definition tx_avg (st : state) (nic : string) : result Z :=
  int_avg (t_tx (nics st)) nic st.

Definition con_avg (st : state) (c_port : string) : result Z :=
  int_avg (connections st) c_port st.

(** The records of [nics_str] and of [conn_str], in order. *)
Fixpoint nics_entries (st : state) (l : list string)
  : result (list (string * (Z * Z))) :=
  match l with
  | [] => Ok []
  | nic :: l' =>
      r ← rx_avg st nic;
      t ← tx_avg st nic;
      es ← nics_entries st l';
      mret ((nic, (r, t)) :: es)
  end.

Definition nics_str (w : window) (st : state) : result (list (string * (Z * Z))) :=
  nics_entries st (network_interfaces_array w).

Fixpoint conn_entries (st : state) (l : list string)
  : result (list (string * Z)) :=
  match l with
  | [] => Ok []
  | c_port :: l' =>
      c ← con_avg st c_port;
      es ← conn_entries st l';
      mret ((c_port, c) :: es)
  end.

Definition conn_str (cfg : settings) (w : window) (st : state)
  : result (list (string * Z)) :=
  if truthy (CONNECTION_PORTS cfg)
  then conn_entries st (connection_ports_array w)
  else Ok [].

(** [os_encoded], [cpu_model_encoded], [cpu_speed_encoded] and [conn_data];
    [render] stands for the f-string that prints [conn_str]. *)
Definition os_encoded (os_info kernel_version : string) (requires_reboot : bool)
  : string :=
  b64encode (os_info ++ "|" ++ kernel_version ++ "|"
             ++ (if requires_reboot then "1" else "0")).

Definition cpu_model_encoded (cpu_model : string) : string :=
  b64encode cpu_model.

Definition cpu_speed_encoded (cpu_speed : string) : string :=
  b64encode cpu_speed.

Definition conn_data (conn_text : string) : string :=
  base64_prep (b64encode conn_text).

(** * Vocabulary of the statements *)

(** ** Service status *)

(** The [ps] pipeline counted at least one matching process. *)
Definition process_found (w : world) (service_name : string) : Prop :=
  exists n : Z,
    Py.int_opt (shell_output w (ps_command service_name)) = Some n /\ 0 < n.

(** The [ps] pipeline gave nothing, or a count that is not positive. *)
Definition process_missing (w : world) (service_name : string) : Prop :=
  shell_output w (ps_command service_name) = "" \/
  exists n : Z,
    Py.int_opt (shell_output w (ps_command service_name)) = Some n /\ n <= 0.

Definition systemctl_present (w : world) : Prop :=
  path_present w "/usr/bin/systemctl" = true \/
  path_present w "/bin/systemctl" = true.

Definition invoked_systemctl (t : list call) : Prop :=
  exists argv, In (CallSubprocessRun argv) t.

Definition world_running : world :=
  {| shell_output := fun _ => "2";
     path_present := fun _ => true;
     subprocess_run := fun _ => Ok 3 |}.

Definition world_systemd : world :=
  {| shell_output := fun _ => "0";
     path_present := fun p => String.eqb p "/bin/systemctl";
     subprocess_run := fun _ => Ok 0 |}.

Definition world_bare : world :=
  {| shell_output := fun _ => "";
     path_present := fun _ => false;
     subprocess_run := fun _ => Raise TimeoutExpired |}.

(** ** Sums over the trace of samples *)

Fixpoint sum_Z (l : list Z) : Z :=
  match l with
  | [] => 0
  | x :: r => x + sum_Z r
  end.

Fixpoint sum_Qc (l : list Qc) : Qc :=
  match l with
  | [] => 0%Qc
  | x :: r => (x + sum_Qc r)%Qc
  end.

(** What one pass added for [nic] (several entries if the interface is
    listed more than once). *)
Fixpoint rx_total (nic : string) (rates : list (string * (Z * Z))) : Z :=
  match rates with
  | [] => 0
  | (n, (rx, _)) :: r => (if decide (n = nic) then rx else 0) + rx_total nic r
  end.

Fixpoint tx_total (nic : string) (rates : list (string * (Z * Z))) : Z :=
  match rates with
  | [] => 0
  | (n, (_, tx)) :: r => (if decide (n = nic) then tx else 0) + tx_total nic r
  end.

Fixpoint count_total (c_port : string) (counts : list (string * Z)) : Z :=
  match counts with
  | [] => 0
  | (p, c) :: r => (if decide (p = c_port) then c else 0) + count_total c_port r
  end.

Definition log_rx (nic : string) (log : list sample) : Z :=
  sum_Z (map (fun s => rx_total nic (s_rates s)) log).

Definition log_tx (nic : string) (log : list sample) : Z :=
  sum_Z (map (fun s => tx_total nic (s_rates s)) log).

Definition log_count (c_port : string) (log : list sample) : Z :=
  sum_Z (map (fun s => count_total c_port (s_counts s)) log).

(** [o] with [d] added, when [o] is bound. *)
Definition bump (d : Z) (o : option Z) : option Z := (fun v => v + d) <$> o.

(** What a pass that returns has done to the state. *)
Record tick_effect (env : tick_env) (i : Z) (st st' : state) (smp : sample)
  : Prop := {
  te_X : X st' = Some i;
  te_start : start_time st' = restart_time env;
  te_diff : s_time_diff smp = (end_time env - start_time st)%Qc;
  te_time : t_time_diff st' = (t_time_diff st + s_time_diff smp)%Qc;
  te_cpu : t_cpu st' = t_cpu st + s_cpu smp;
  te_iow : t_iow st' = t_iow st + s_iow smp;
  te_ram : t_ram st' = (t_ram st + s_ram smp)%Qc;
  te_rx : forall k, t_rx (nics st') !! k
                    = bump (rx_total k (s_rates smp)) (t_rx (nics st) !! k);
  te_tx : forall k, t_tx (nics st') !! k
                    = bump (tx_total k (s_rates smp)) (t_tx (nics st) !! k);
  te_conn : forall k, connections st' !! k
                      = bump (count_total k (s_counts smp)) (connections st !! k)
}.

(** ** Loop invariant: the state is the start state plus the samples *)

Record loop_effect (n : nat) (i : Z) (st st' : state) (log : list sample)
  : Prop := {
  le_len : (length log <= n)%nat;
  le_ran : n <> O -> log <> [];
  le_nil : log = [] -> st' = st;
  le_X : log <> [] -> X st' = Some (i + Z.of_nat (length log) - 1);
  le_time : t_time_diff st'
            = (t_time_diff st + sum_Qc (map s_time_diff log))%Qc;
  le_cpu : t_cpu st' = t_cpu st + sum_Z (map s_cpu log);
  le_iow : t_iow st' = t_iow st + sum_Z (map s_iow log);
  le_ram : t_ram st' = (t_ram st + sum_Qc (map s_ram log))%Qc;
  le_rx : forall k, t_rx (nics st') !! k
                    = bump (log_rx k log) (t_rx (nics st) !! k);
  le_tx : forall k, t_tx (nics st') !! k
                    = bump (log_tx k log) (t_tx (nics st) !! k);
  le_conn : forall k, connections st' !! k
                      = bump (log_count k log) (connections st !! k)
}.

(** ** What [setup] hands to the loop *)

Definition all_zero (d : gmap string Z) : Prop :=
  forall k v, d !! k = Some v -> v = 0.

Record pristine (st : state) : Prop := {
  fr_X : X st = None;
  fr_time : t_time_diff st = 0%Qc;
  fr_cpu : t_cpu st = 0;
  fr_iow : t_iow st = 0;
  fr_ram : t_ram st = 0%Qc;
  fr_rx : all_zero (t_rx (nics st));
  fr_tx : all_zero (t_tx (nics st))
}.

(** An interface is monitored when the first read of /proc/net/dev found
    its line, that is, when its dictionaries are bound. *)
Definition monitored (st : state) (nic : string) : Prop :=
  is_Some (t_rx (nics st) !! nic) /\ is_Some (t_tx (nics st) !! nic).

(** ** A concrete host *)

Definition nl : string := String "010" "".

(** /proc/net/dev with one Ethernet interface whose byte counters read
    [rx] and [tx]. *)
Definition proc_net_dev (rx tx : string) : string :=
  "Inter-|   Receive                |  Transmit" ++ nl ++
  " face |bytes    packets errs drop|bytes    packets errs drop" ++ nl ++
  "    lo: 5 1 0 0 0 0 0 0 5 1 0 0 0 0 0 0" ++ nl ++
  "  eth0: " ++ rx ++ " 10 0 0 0 0 0 0 " ++ tx ++ " 20 0 0 0 0 0 0" ++ nl.

(** The last line of [vmstat 3 2]: 95% idle, 1% io-wait. *)
Definition vmstat_line : string :=
  "1  0      0 2000  1000 1000    0    0     5    10  100  200  3  1 95  1  0".

Definition proc_diskstats (r1 w1 r3 w3 : string) : string :=
  "   8       0 sda 90 0 7000 40 60 0 5000 30 0 50 70" ++ nl ++
  "   8       1 sda1 40 0 " ++ r1 ++ " 20 30 0 " ++ w1 ++ " 15 0 25 35" ++ nl ++
  "   8       3 sda3 50 0 " ++ r3 ++ " 20 30 0 " ++ w3 ++ " 15 0 25 35" ++ nl.

(** An agent started at second 0 of minute 7; eth0 has received 1000 bytes. *)
Definition host_boot : setup_env :=
  {| boot_time := 0%Qc;
     boot_minute := "07";
     ip_output := "eth0";
     boot_net_dev := proc_net_dev "1000" "0";
     boot_netstat := "";
     boot_diskstats := proc_diskstats "1000" "2000" "0" "0" |}.

(** Pass [i] ends at second [3 i]; eth0 has received 1500 bytes from the
    first pass on; the minute changes during pass [last]. *)
Definition host_tick (last : Z) (i : Z) : tick_env :=
  {| vmstat_output := vmstat_line;
     memtotal_output := "8000";
     net_dev := proc_net_dev "1500" "0";
     end_time := Py.Z2Qc (3 * i);
     restart_time := Py.Z2Qc (3 * i);
     netstat_output := "";
     minute := if (i <? last)%Z then "07" else "08" |}.

(** ** Network rates *)

(** The four dictionary entries of one interface:
    previous readings and running sums, received then transmitted. *)
Definition nic_view (ns : nic_state) (nic : string)
  : option Z * option Z * option Z * option Z :=
  (a_rx ns !! nic, a_tx ns !! nic, t_rx ns !! nic, t_tx ns !! nic).

(** ** Float quotients turned into integers *)

(** [Some k] when [p] is [2^k]. *)
Fixpoint log2_exact (p : positive) : option Z :=
  match p with
  | xH => Some 0
  | xO p' => Z.succ <$> log2_exact p'
  | xI _ => None
  end.

(** A sufficient test for [q] being a binary64 number, that is, a value a
    Python float holds: in lowest terms [q] is [n / 2^k] with [|n| < 2^53]
    and [k <= 1074].  The binary64 numbers it leaves out are integers of
    magnitude [2^53] and more. *)
Definition binary64 (q : Qc) : bool :=
  match log2_exact (Qden (this q)) with
  | Some k => (Z.abs (Qnum (this q)) <? 2 ^ 53)%Z && (k <=? 1074)%Z
  | None => false
  end.

(** Where [int(n / t)], for an int [n] and a float [t], is the same in
    binary64 as over the rationals.  The script converts [n] to a float,
    rounds the quotient to the nearest binary64 number and truncates.  None
    of the three steps changes the integer when [|n| < 2^53] (the
    conversion is exact), [t] is a binary64 number, and the exact quotient
    [q] keeps one part in [2^53] away from the next integer in its
    direction: [|q| <= (|trunc q| + 1) (1 - 2^-53)].  Rounding to nearest
    cannot reach that integer [m], because [m <= 2^53] and the binary64
    numbers just below [m] are less than [m / 2^52] apart: [q] lies below
    the midpoint of the last two.  The test holds for every whole number of
    seconds [t] ([int_div_exact_whole]); it fails for 1 over the float 0.1
    ([int_div_exact_not_tenth]), where the script gets 10 and the exact
    quotient truncates to 9. *)
Definition int_div_exact (n : Z) (t : Qc) : bool :=
  let q := (Py.Z2Qc n / t)%Qc in
  (Z.abs n <? 2 ^ 53)%Z && binary64 t &&
  (Z.abs (Qnum (this q)) * 2 ^ 53
   <=? (Z.abs (Py.trunc q) + 1) * (2 ^ 53 - 1) * Zpos (Qden (this q)))%Z.

(** The float [0.1]: the binary64 number nearest to one tenth. *)
Definition float_tenth : Qc := Q2Qc (3602879701896397 # 36028797018963968).

(** Adding the terms of [l] to [acc] one by one rounds nowhere in binary64:
    every term and every running sum is a binary64 number. *)
Fixpoint sums_exact (acc : Qc) (l : list Qc) : bool :=
  match l with
  | [] => true
  | t :: l' => binary64 t && binary64 (acc + t)%Qc && sums_exact (acc + t)%Qc l'
  end.

(** ** Further hosts *)

(** [netstat -ntu | awk '{print $4}'] with two sockets on port 443 and one
    on port 22, as [run_command] returns it (stripped). *)
Definition netstat_two_on_443 : string :=
  "(w/o" ++ nl ++ "Local" ++ nl ++
  "10.0.0.5:443" ++ nl ++ "10.0.0.6:443" ++ nl ++ "10.0.0.5:22".

Definition watch_443 : settings :=
  {| NETWORK_INTERFACES := ""; CONNECTION_PORTS := "443" |}.

Definition port_boot : setup_env :=
  {| boot_time := 0%Qc;
     boot_minute := "07";
     ip_output := "eth0";
     boot_net_dev := proc_net_dev "1000" "0";
     boot_netstat := netstat_two_on_443;
     boot_diskstats := "" |}.

Definition port_tick (last : Z) (i : Z) : tick_env :=
  {| vmstat_output := vmstat_line;
     memtotal_output := "8000";
     net_dev := proc_net_dev "1500" "0";
     end_time := Py.Z2Qc (3 * i);
     restart_time := Py.Z2Qc (3 * i);
     netstat_output := netstat_two_on_443;
     minute := if (i <? last)%Z then "07" else "08" |}.

(** An agent started at second 0 of minute 59; the hour turns during
    pass 5. *)
Definition late_boot : setup_env :=
  {| boot_time := 0%Qc;
     boot_minute := "59";
     ip_output := "eth0";
     boot_net_dev := proc_net_dev "1000" "0";
     boot_netstat := "";
     boot_diskstats := "" |}.

Definition late_tick (i : Z) : tick_env :=
  {| vmstat_output := vmstat_line;
     memtotal_output := "8000";
     net_dev := proc_net_dev "1500" "0";
     end_time := Py.Z2Qc (3 * i);
     restart_time := Py.Z2Qc (3 * i);
     netstat_output := "";
     minute := if (i <? 5)%Z then "59" else "00" |}.

(** ** Failed reads inside a pass *)

Definition with_netstat (s : string) (env : tick_env) : tick_env :=
  {| vmstat_output := vmstat_output env;
     memtotal_output := memtotal_output env;
     net_dev := net_dev env;
     end_time := end_time env;
     restart_time := restart_time env;
     netstat_output := s;
     minute := minute env |}.

Definition with_connections (d : gmap string Z) (st : state) : state :=
  {| X := X st;
     start_time := start_time st;
     t_time_diff := t_time_diff st;
     nics := nics st;
     connections := d;
     t_cpu := t_cpu st;
     t_iow := t_iow st;
     t_ram := t_ram st |}.

(** The host of [host_tick 5], except that [vmstat] gives nothing during
    pass 3 ([run_command] returns the empty string). *)
Definition flaky_tick (i : Z) : tick_env :=
  {| vmstat_output := if (i =? 3)%Z then "" else vmstat_line;
     memtotal_output := "8000";
     net_dev := proc_net_dev "1500" "0";
     end_time := Py.Z2Qc (3 * i);
     restart_time := Py.Z2Qc (3 * i);
     netstat_output := "";
     minute := if (i <? 5)%Z then "07" else "08" |}.

(** ** Escaping of base64 text *)

(** [s] has no occurrence of the character [c]. *)
Fixpoint lacks (c : ascii) (s : string) : Prop :=
  match s with
  | "" => True
  | String d r => d <> c /\ lacks c r
  end.

(** ** The collector's side: decoding a field *)

(** Modelled from the spec: the decoder of the remote collector, which is
    not part of the agent.  It follows the wire format alone (RFC 4648
    base64, [%2B] for [+], [%2F] for [/]) and serves to state that what the
    agent encodes can be read back. *)
Definition b64_index (c : ascii) : option N :=
  let n := N_of_ascii c in
  if ((65 <=? n) && (n <=? 90))%N then Some (n - 65)%N
  else if ((97 <=? n) && (n <=? 122))%N then Some (n - 71)%N
  else if ((48 <=? n) && (n <=? 57))%N then Some (n + 4)%N
  else if (n =? 43)%N then Some 62%N
  else if (n =? 47)%N then Some 63%N
  else None.

Definition is_pad (c : ascii) : bool := Ascii.eqb c "=".

(** Modelled from the spec: base64 decoding, four characters at a time. *)
Fixpoint b64decode (s : string) : option string :=
  match s with
  | "" => Some ""
  | String a (String b (String c (String d r))) =>
      i1 ← b64_index a;
      i2 ← b64_index b;
      let byte1 := ascii_of_N (i1 * 4 + i2 / 16) in
      if is_pad c && is_pad d then
        match r with "" => Some (String byte1 "") | _ => None end
      else
        i3 ← b64_index c;
        let byte2 := ascii_of_N (i2 mod 16 * 16 + i3 / 4) in
        if is_pad d then
          match r with
          | "" => Some (String byte1 (String byte2 ""))
          | _ => None
          end
        else
          i4 ← b64_index d;
          let byte3 := ascii_of_N (i3 mod 4 * 64 + i4) in
          rest ← b64decode r;
          Some (String byte1 (String byte2 (String byte3 rest)))
  | _ => None
  end%N.

(** Modelled from the spec: undoing the percent-escaping of
    [base64_prep]. *)
Fixpoint unescape (s : string) : string :=
  match s with
  | "" => ""
  | String c r =>
      if Ascii.eqb c "%" then
        match r with
        | String d (String e r') =>
            if Ascii.eqb d "2" && Ascii.eqb e "B" then String "+" (unescape r')
            else if Ascii.eqb d "2" && Ascii.eqb e "F" then String "/" (unescape r')
            else String c (unescape r)
        | _ => String c (unescape r)
        end
      else String c (unescape r)
  end.

(** Modelled from the spec: reading a gzip field back by undoing the
    percent-escaping, base64-decoding, then gunzipping; [gzip_decompress]
    stands for the inverse of [gzip.compress] in the Python library. *)
Definition decode_field (gzip_decompress : string -> string) (text : string)
  : option string :=
  gzip_decompress <$> b64decode (unescape text).

(** * The rest of the script *)

(** ** Housekeeping before the timers *)

(** [try: ... except Exception: pass] around a block that returns nothing:
    what was invoked stays invoked, the exception is dropped. *)
Definition try_pass (m : io unit) : io unit := IO (io_trace m) (Ok tt).

Definition lingering_ps_command : string :=
  "ps -eo user= | sort | uniq -c | grep hetrixtools".

Definition lingering_kill_command : string :=
  "ps aux | grep -ie hetrixtools_agent | awk '{print $2}' | xargs kill -9".

Definition kill_lingering_processes (w : world) : io unit :=
  try_pass
    (ps_output ← run_command w lingering_ps_command;
     if truthy ps_output then
       first ← lift_result (Py.item (Py.split ps_output) 0);
       count ← lift_result (Py.int first);
       if (300 <? count)%Z
       then _ ← run_command w lingering_kill_command; mret tt
       else mret tt
     else mret tt).

(** A host on which 301 processes of the agent's user are running. *)
Definition world_crowded : world :=
  {| shell_output := fun _ => "301 hetrixtools";
     path_present := fun _ => false;
     subprocess_run := fun _ => Ok 0 |}.

(** ** Services field *)

(** [for service in check_services_array:
       service_status_string += service_status(service) + ";"] *)
Fixpoint check_services_loop (w : world) (acc : string) (l : list string)
  : io string :=
  match l with
  | [] => mret acc
  | service :: l' =>
      r ← service_status w service;
      check_services_loop w (acc ++ (r ++ ";")) l'
  end.

Definition service_status_string (w : world) (CHECK_SERVICES : string)
  : io string :=
  if truthy CHECK_SERVICES
  then check_services_loop w "" (Py.split_on "," CHECK_SERVICES)
  else mret "".

(** ** Running processes *)

(** The [RUNNING_PROCESSES] block. [file] is the content of
    running_proc.txt ([None] when the file does not exist), [ps_output]
    what [run_command("ps -Ao ...")] returns; the result is [rps1], [rps2]
    and the file as the block leaves it. *)
Definition running_processes (gzip_compress : string -> string)
    (RUNNING_PROCESSES : Z) (file : option string) (ps_output : string)
  : string * string * option string :=
  if (0 <? RUNNING_PROCESSES)%Z then
    let rps1 := match file with
                | Some text => Py.strip text
                | None => ""
                end in
    let rps2 := compress_and_encode gzip_compress ps_output in
    (rps1, rps2, Some rps2)
  else ("", "", file).

(** [s] has no white space. *)
Fixpoint spaceless (s : string) : Prop :=
  match s with
  | "" => True
  | String c r => Py.isspace c = false /\ spaceless r
  end.

(** The four dictionaries all hold [nic], or none does. *)
Definition nic_bound (ns : nic_state) (nic : string) : Prop :=
  exists prev_rx prev_tx sum_rx sum_tx,
    nic_view ns nic = (Some prev_rx, Some prev_tx, Some sum_rx, Some sum_tx).

Definition nic_unbound (ns : nic_state) (nic : string) : Prop :=
  nic_view ns nic = (None, None, None, None).

(** The first read of /proc/net/dev has a line for a listed interface. *)
Definition seen_at_boot (senv : setup_env) (w : window) (nic : string) : Prop :=
  In nic (network_interfaces_array w) /\
  find_line (nic ++ ":") (boot_net_dev senv) <> None.
(** An agent told to watch eth0 and a second interface that the host does
    not have. *)
Definition two_nics : settings :=
  {| NETWORK_INTERFACES := "eth0,eth7"; CONNECTION_PORTS := "" |}.

(** ** Operating system and reboot flag *)

Definition needs_restarting_command : string :=
  "needs-restarting -r 2>/dev/null | grep 'Reboot is required'".

(** The block "Check if system requires reboot" / "Get Operating System and
    Kernel": [os_info], [kernel_version] and [requires_reboot].
    [file_text path] is [open(path).read()] for a file that exists. *)
Definition os_facts (w : world) (file_text : string -> string)
  : io (string * string * bool) :=
  requires_reboot ← os_path_exists w "/var/run/reboot-required";
  lsb ← os_path_exists w "/usr/bin/lsb_release";
  '(os_info, requires_reboot) ←
    (if lsb : bool then
       os_info ← run_command w "lsb_release -s -d";
       mret (os_info, requires_reboot)
     else
       deb ← os_path_exists w "/etc/debian_version";
       if deb : bool then
         let debian_version := Py.strip (file_text "/etc/debian_version") in
         mret ("Debian " ++ debian_version, requires_reboot)
       else
         rh ← os_path_exists w "/etc/redhat-release";
         if rh : bool then
           let os_info := Py.strip (file_text "/etc/redhat-release") in
           needs_restart ← run_command w needs_restarting_command;
           mret (os_info, if truthy needs_restart then true else requires_reboot)
         else
           sysname ← run_command w "uname -s";
           release ← run_command w "uname -r";
           mret (sysname ++ " " ++ release, requires_reboot));
  kernel_version ← run_command w "uname -r";
  mret (os_info, kernel_version, requires_reboot).

Definition os_field (w : world) (file_text : string -> string) : io string :=
  '(os_info, kernel_version, requires_reboot) ← os_facts w file_text;
  mret (os_encoded os_info kernel_version requires_reboot).

(** A Red Hat host with the [lsb_release] tool installed and packages
    waiting for a reboot. *)
Definition world_redhat_lsb : world :=
  {| shell_output := fun cmd =>
       if String.eqb cmd needs_restarting_command then "Reboot is required"
       else if String.eqb cmd "lsb_release -s -d" then "Rocky Linux 9.3"
       else "5.14.0-362.el9.x86_64";
     path_present := fun p =>
       String.eqb p "/usr/bin/lsb_release" || String.eqb p "/etc/redhat-release";
     subprocess_run := fun _ => Ok 0 |}.

(** ** Lines of netstat output *)

Definition newline : ascii := "010".

(** [l] ends with [a]: [l.endswith(a)]. *)
Fixpoint ends_with (a l : string) : bool :=
  String.eqb a l ||
  match l with
  | "" => false
  | String _ r => ends_with a r
  end.

(** The text whose lines are [lines] followed by [last]: each line of
    [lines] is followed by a newline, [last] is not. *)
Fixpoint lines_then (lines : list string) (last : string) : string :=
  match lines with
  | [] => last
  | l :: ls => l ++ String "010" (lines_then ls last)
  end.

(** How many of [lines] end with [a]. *)
Fixpoint count_ending (a : string) (lines : list string) : Z :=
  match lines with
  | [] => 0
  | l :: ls => (if ends_with a l then 1 else 0) + count_ending a ls
  end.

(** [time.strftime('%M')] for minute [m]: two decimal digits. *)
Definition strftime_M (m : Z) : string :=
  String (ascii_of_N (48 + Z.to_N (m / 10)))
    (String (ascii_of_N (48 + Z.to_N (m mod 10))) "").

(** A host whose disks are NVMe only. *)
Definition nvme_diskstats : string :=
  " 259       0 nvme0n1 90 0 7000 40 60 0 5000 30 0 50 70" ++ nl ++
  " 259       1 nvme0n1p1 40 0 1000 20 30 0 2000 15 0 25 35" ++ nl.

(** * Properties *)

(** ** Reasoning about [result] *)

Lemma bind_Ok {A B} (m : result A) (f : A -> result B) (b : B) :
  m ≫= f = Ok b -> exists a, m = Ok a /\ f a = Ok b.
Proof. destruct m as [a|e]; simpl; [eauto | discriminate]. Qed.

Lemma bind_Raise {A B} (m : result A) (f : A -> result B) (e : exn) :
  m = Raise e -> m ≫= f = Raise e.
Proof. intros ->. reflexivity. Qed.

Lemma bind_Ok_l {A B} (m : result A) (f : A -> result B) (a : A) :
  m = Ok a -> m ≫= f = f a.
Proof. intros ->. reflexivity. Qed.

Lemma mret_Ok {A} (a b : A) : (mret a : result A) = Ok b -> a = b.
Proof. intros H; injection H; auto. Qed.

(** Splits a variable of a product type into its components. *)
Ltac split_pair a :=
  lazymatch type of a with
  | (_ * _)%type =>
      let a1 := fresh "u" in
      let a2 := fresh "u" in
      destruct a as [a1 a2]; try split_pair a1
  | _ => idtac
  end.

(** Peels the binds off a hypothesis [... = Ok _]. *)
Ltac ok_inv H :=
  repeat first
    [ let a := fresh "u" in
      let E := fresh "E" in
      apply bind_Ok in H; destruct H as (a & E & H);
      split_pair a
    | apply mret_Ok in H ].

(** ** Rationals *)

Lemma Z2Qc_this (z : Z) : this (Py.Z2Qc z) = inject_Z z.
Proof.
  unfold Py.Z2Qc; simpl. apply Qred_identity. simpl. apply Z.gcd_1_r.
Qed.

Lemma is_zero_Z2Qc (z : Z) : Py.is_zero (Py.Z2Qc z) = (z =? 0)%Z.
Proof. unfold Py.is_zero. rewrite Z2Qc_this. reflexivity. Qed.

Lemma truediv_Z2Qc (a : Qc) (z : Z) :
  z <> 0 -> Py.truediv a (Py.Z2Qc z) = Ok (a / Py.Z2Qc z)%Qc.
Proof.
  intros Hz. unfold Py.truediv. rewrite is_zero_Z2Qc.
  destruct (Z.eqb_spec z 0); [contradiction | reflexivity].
Qed.

Lemma truediv_not_zero_division (a : Qc) (z : Z) :
  z <> 0 -> Py.truediv a (Py.Z2Qc z) <> Raise ZeroDivisionError.
Proof. intros Hz. rewrite truediv_Z2Qc by assumption. discriminate. Qed.

(** ** Swap usage *)

Lemma int_of_int_opt (s : string) (z : Z) : Py.int_opt s = Some z -> Py.int s = Ok z.
Proof. unfold Py.int. intros ->. reflexivity. Qed.

(** C8. When the system reports a total swap size of 0 the swap usage is 0,
    whatever the free-swap reading is (nothing is divided, nothing raised);
    for any other size the usage is 100 - (swap_free / swap_size) * 100. *)
Theorem swap_usage_zero_or_ratio (swap_size swap_free : string) (size : Z) :
  Py.int_opt swap_size = Some size ->
  0 <= size ->
  (size = 0 -> swap_usage swap_size swap_free = Ok 0%Qc) /\
  (size <> 0 -> forall free : Z,
     Py.int_opt swap_free = Some free ->
     swap_usage swap_size swap_free
     = Ok (Py.Z2Qc 100 - (Py.Z2Qc free / Py.Z2Qc size) * Py.Z2Qc 100)%Qc).
Proof.
  intros Hsize Hnn. unfold swap_usage.
  rewrite (int_of_int_opt _ _ Hsize). simpl. split.
  - intros ->. reflexivity.
  - intros Hne free Hfree.
    destruct (Z.ltb_spec 0 size) as [_|Hle]; [|lia].
    rewrite (int_of_int_opt _ _ Hfree). simpl.
    rewrite truediv_Z2Qc by assumption. reflexivity.
Qed.

Lemma swap_usage_zero_or_ratio_witness :
  swap_usage "0" "" = Ok 0%Qc /\
  swap_usage "2097148" "1048574"
  = Ok (Py.Z2Qc 100 - (Py.Z2Qc 1048574 / Py.Z2Qc 2097148) * Py.Z2Qc 100)%Qc.
Proof.
  split.
  - apply (swap_usage_zero_or_ratio "0" "" 0); [reflexivity | lia | reflexivity].
  - apply (swap_usage_zero_or_ratio "2097148" "1048574" 2097148);
      [reflexivity | lia | lia | reflexivity].
Defined.

(** ** Service status *)

Lemma service_status_found (w : world) (service_name : string) :
  process_found w service_name ->
  service_status w service_name
  = IO [CallRunCommand (ps_command service_name)]
       (Ok (b64encode service_name ++ ",1")).
Proof.
  intros (n & Hint & Hpos). unfold service_status, run_command.
  unfold mbind, io_bind at 1. cbn [io_result io_trace].
  destruct (shell_output w (ps_command service_name)) as [|c s] eqn:Hout.
  { vm_compute in Hint. discriminate. }
  cbn [truthy]. rewrite (int_of_int_opt _ _ Hint).
  unfold mbind, io_bind, mret, io_ret, lift_result. cbn [io_result io_trace].
  destruct (Z.ltb_spec 0 n) as [_|Hle]; [|lia].
  reflexivity.
Qed.

Lemma service_status_missing (w : world) (service_name : string) :
  process_missing w service_name ->
  service_status w service_name
  = IO [CallRunCommand (ps_command service_name)] (Ok false) ≫= fun _ =>
      e1 ← os_path_exists w "/usr/bin/systemctl";
      e2 ← (if e1 : bool then mret true else os_path_exists w "/bin/systemctl");
      if e2 : bool then
        returncode ← subprocess_returncode w (systemctl_argv service_name);
        if (returncode =? 0)%Z
        then mret (b64encode service_name ++ ",1")
        else mret (b64encode service_name ++ ",0")
      else
        mret (b64encode service_name ++ ",0").
Proof.
  intros Hmiss. unfold service_status, run_command.
  unfold mbind, io_bind at 1. cbn [io_result io_trace].
  destruct Hmiss as [Hout | (n & Hint & Hle)].
  - rewrite Hout. reflexivity.
  - destruct (shell_output w (ps_command service_name)) as [|c s] eqn:Hout;
      [reflexivity|].
    cbn [truthy]. rewrite (int_of_int_opt _ _ Hint).
    unfold mbind, io_bind, mret, io_ret, lift_result. cbn [io_result io_trace].
    destruct (Z.ltb_spec 0 n) as [Hlt|_]; [lia|].
    reflexivity.
Qed.

(** C9. A positive process count reports status 1 and the trace holds no
    [systemctl] invocation; with no process found and [systemctl] present
    on the host, the return code of [systemctl is-active] decides; with
    neither, status 0 is reported, again without invoking [systemctl]. *)
Theorem service_status_decision (w : world) (service_name : string) :
  (process_found w service_name ->
     io_result (service_status w service_name)
     = Ok (b64encode service_name ++ ",1") /\
     ~ invoked_systemctl (io_trace (service_status w service_name))) /\
  (process_missing w service_name -> systemctl_present w ->
     forall returncode : Z,
       subprocess_run w (systemctl_argv service_name) = Ok returncode ->
       io_result (service_status w service_name)
       = Ok (b64encode service_name
             ++ (if (returncode =? 0)%Z then ",1" else ",0")) /\
       invoked_systemctl (io_trace (service_status w service_name))) /\
  (process_missing w service_name -> ~ systemctl_present w ->
     io_result (service_status w service_name)
     = Ok (b64encode service_name ++ ",0") /\
     ~ invoked_systemctl (io_trace (service_status w service_name))).
Proof.
  split; [|split].
  - intros Hfound. rewrite (service_status_found _ _ Hfound).
    split; [reflexivity|].
    intros (argv & [Heq|[]]). discriminate.
  - intros Hmiss Hsys rc Hrc. rewrite (service_status_missing _ _ Hmiss).
    unfold os_path_exists, subprocess_returncode, systemctl_present in *.
    unfold mbind, io_bind, mret, io_ret. cbn [io_result io_trace].
    destruct (path_present w "/usr/bin/systemctl") eqn:E1;
      cbn [io_result io_trace].
    + rewrite Hrc. cbn [io_result io_trace].
      split.
      * destruct (rc =? 0)%Z; reflexivity.
      * exists (systemctl_argv service_name).
        destruct (rc =? 0)%Z; cbn; auto.
    + destruct Hsys as [Hsys|Hsys]; [discriminate|]. rewrite Hsys.
      cbn [io_result io_trace]. rewrite Hrc. cbn [io_result io_trace].
      split.
      * destruct (rc =? 0)%Z; reflexivity.
      * exists (systemctl_argv service_name).
        destruct (rc =? 0)%Z; cbn; auto.
  - intros Hmiss Hsys. rewrite (service_status_missing _ _ Hmiss).
    unfold os_path_exists, subprocess_returncode, systemctl_present in *.
    unfold mbind, io_bind, mret, io_ret. cbn [io_result io_trace].
    destruct (path_present w "/usr/bin/systemctl") eqn:E1;
      [exfalso; auto|].
    cbn [io_result io_trace].
    destruct (path_present w "/bin/systemctl") eqn:E2;
      [exfalso; auto|].
    cbn [io_result io_trace]. split; [reflexivity|].
    intros (argv & Hin). cbn in Hin.
    destruct Hin as [H|[H|[H|[]]]]; discriminate.
Qed.

Lemma service_status_decision_witness :
  io_result (service_status world_running "nginx") = Ok "bmdpbng=,1" /\
  io_result (service_status world_systemd "nginx") = Ok "bmdpbng=,1" /\
  io_result (service_status world_bare "nginx") = Ok "bmdpbng=,0".
Proof.
  split; [|split].
  - apply (proj1 (service_status_decision world_running "nginx")).
    exists 2. split; [reflexivity | lia].
  - apply (proj1 (proj2 (service_status_decision world_systemd "nginx")))
      with (returncode := 0).
    + right. exists 0. split; [reflexivity | lia].
    + right. reflexivity.
    + reflexivity.
  - apply (proj2 (proj2 (service_status_decision world_bare "nginx"))).
    + left. reflexivity.
    + intros [H|H]; discriminate H.
Defined.

(** ** Dictionaries and sums *)

Lemma bump_0 (o : option Z) : bump 0 o = o.
Proof. destruct o; simpl; [f_equal; lia | reflexivity]. Qed.

Lemma bump_bump (a b : Z) (o : option Z) : bump b (bump a o) = bump (a + b) o.
Proof. destruct o; simpl; [f_equal; lia | reflexivity]. Qed.

Lemma getitem_Ok {A} (d : gmap string A) (k : string) (a : A) :
  Py.getitem d k = Ok a -> d !! k = Some a.
Proof. unfold Py.getitem. destruct (d !! k); intros H; inversion H; auto. Qed.

Lemma getitem_Some {A} (d : gmap string A) (k : string) (a : A) :
  d !! k = Some a -> Py.getitem d k = Ok a.
Proof. unfold Py.getitem. intros ->. reflexivity. Qed.

Lemma lookup_add (d : gmap string Z) (k k' : string) (old x : Z) :
  d !! k = Some old ->
  <[k := old + x]> d !! k' = bump (if decide (k = k') then x else 0) (d !! k').
Proof.
  intros Hk. destruct (decide (k = k')) as [->|Hne].
  - rewrite lookup_insert_eq, Hk. reflexivity.
  - rewrite lookup_insert_ne by assumption. symmetry. apply bump_0.
Qed.

(** ** Effect of one pass on the running sums *)

Lemma nic_step_sums text td ns nic ns' r :
  nic_step text td ns nic = Ok (ns', r) ->
  forall k,
    t_rx ns' !! k
    = bump (rx_total k (match r with Some v => [(nic, v)] | None => [] end))
        (t_rx ns !! k) /\
    t_tx ns' !! k
    = bump (tx_total k (match r with Some v => [(nic, v)] | None => [] end))
        (t_tx ns !! k).
Proof.
  unfold nic_step. intros H k.
  destruct (find_line (nic ++ ":") text) as [line|].
  - ok_inv H. injection H as <- <-. cbn [t_rx t_tx rx_total tx_total].
    rewrite !Z.add_0_r.
    split; apply lookup_add; apply getitem_Ok; assumption.
  - injection H as <- <-. simpl. rewrite !bump_0. auto.
Qed.

Lemma nic_steps_sums text td l : forall ns ns' rates,
  nic_steps text td ns l = Ok (ns', rates) ->
  forall k,
    t_rx ns' !! k = bump (rx_total k rates) (t_rx ns !! k) /\
    t_tx ns' !! k = bump (tx_total k rates) (t_tx ns !! k).
Proof.
  induction l as [|nic l IH]; intros ns ns' rates H k.
  - injection H as <- <-. simpl. rewrite !bump_0. auto.
  - cbn [nic_steps] in H. ok_inv H. injection H as <- <-.
    match goal with
    | E1 : nic_step _ _ _ _ = Ok _, E2 : nic_steps _ _ _ _ = Ok _ |- _ =>
        destruct (nic_step_sums _ _ _ _ _ _ E1 k) as [Hr Ht];
        destruct (IH _ _ _ E2 k) as [Hr' Ht']
    end.
    rewrite Hr', Ht', Hr, Ht, !bump_bump.
    match goal with |- context [match ?o with Some _ => _ | None => _ end] =>
      destruct o as [[rx tx]|] end; cbn [rx_total tx_total];
      split; f_equal; lia.
Qed.

Lemma port_steps_sums netstat l : forall d d' counts,
  port_steps netstat d l = Ok (d', counts) ->
  forall k, d' !! k = bump (count_total k counts) (d !! k).
Proof.
  induction l as [|p l IH]; intros d d' counts H k.
  - injection H as <- <-. simpl. rewrite bump_0. auto.
  - cbn [port_steps] in H. ok_inv H. injection H as <- <-.
    match goal with
    | E1 : port_step _ _ _ = Ok _, E2 : port_steps _ _ _ = Ok _ |- _ =>
        rewrite (IH _ _ _ E2 k); unfold port_step in E1; ok_inv E1;
        injection E1 as <- <-
    end.
    erewrite lookup_add by (apply getitem_Ok; eassumption).
    rewrite bump_bump. reflexivity.
Qed.

Lemma tick_Ok_effect cfg w env i st st' smp stop :
  tick cfg w env i st = Ok (st', smp, stop) ->
  tick_effect env i st st' smp.
Proof.
  unfold tick. intros H. ok_inv H. injection H as <- <- <-.
  match goal with
  | E : nic_steps _ _ _ _ = Ok _ |- _ => pose proof (nic_steps_sums _ _ _ _ _ _ E) as Hn
  end.
  constructor; cbn; try reflexivity.
  - intros k. apply Hn.
  - intros k. apply Hn.
  - intros k.
    match goal with
    | E : (if truthy _ then _ else _) = Ok _ |- _ =>
        destruct (truthy (CONNECTION_PORTS cfg));
        [ apply (port_steps_sums _ _ _ _ _ E)
        | injection E as <- <-; simpl; symmetry; apply bump_0 ]
    end.
Qed.

(** ** Loop invariant: the state is the start state plus the samples *)

Lemma collect_loop_effect cfg w envs n : forall i st st' log,
  collect_loop cfg w envs n i st = Ok (st', log) ->
  loop_effect n i st st' log.
Proof.
  induction n as [|n IH]; intros i st st' log H.
  - cbn in H. injection H as <- <-.
    constructor; cbn; try reflexivity; try congruence; try lia;
      try (intros; symmetry; apply bump_0); try ring.
  - cbn [collect_loop] in H. apply bind_Ok in H.
    destruct H as ([[st1 smp] stop] & Et & H).
    pose proof (tick_Ok_effect _ _ _ _ _ _ _ _ Et) as T.
    destruct stop.
    + injection H as <- <-.
      constructor; cbn [length map sum_Z sum_Qc]; try congruence; try lia.
      * intros _. rewrite (te_X _ _ _ _ _ T). f_equal. lia.
      * rewrite (te_time _ _ _ _ _ T). ring.
      * rewrite (te_cpu _ _ _ _ _ T). lia.
      * rewrite (te_iow _ _ _ _ _ T). lia.
      * rewrite (te_ram _ _ _ _ _ T). ring.
      * intros k. rewrite (te_rx _ _ _ _ _ T). unfold log_rx. cbn.
        f_equal. lia.
      * intros k. rewrite (te_tx _ _ _ _ _ T). unfold log_tx. cbn.
        f_equal. lia.
      * intros k. rewrite (te_conn _ _ _ _ _ T). unfold log_count. cbn.
        f_equal. lia.
    + apply bind_Ok in H. destruct H as ([st2 smps] & El & H).
      injection H as <- <-.
      pose proof (IH _ _ _ _ El) as L.
      constructor; cbn [length map sum_Z sum_Qc]; try congruence.
      * pose proof (le_len _ _ _ _ _ L). lia.
      * intros _. destruct smps as [|s smps].
        -- rewrite (le_nil _ _ _ _ _ L eq_refl).
           rewrite (te_X _ _ _ _ _ T). f_equal. cbn. lia.
        -- rewrite (le_X _ _ _ _ _ L) by discriminate. f_equal.
           cbn [length]. lia.
      * rewrite (le_time _ _ _ _ _ L), (te_time _ _ _ _ _ T). ring.
      * rewrite (le_cpu _ _ _ _ _ L), (te_cpu _ _ _ _ _ T). lia.
      * rewrite (le_iow _ _ _ _ _ L), (te_iow _ _ _ _ _ T). lia.
      * rewrite (le_ram _ _ _ _ _ L), (te_ram _ _ _ _ _ T). ring.
      * intros k. rewrite (le_rx _ _ _ _ _ L), (te_rx _ _ _ _ _ T), bump_bump.
        reflexivity.
      * intros k. rewrite (le_tx _ _ _ _ _ L), (te_tx _ _ _ _ _ T), bump_bump.
        reflexivity.
      * intros k. rewrite (le_conn _ _ _ _ _ L), (te_conn _ _ _ _ _ T), bump_bump.
        reflexivity.
Qed.

(** ** What [setup] hands to the loop *)

Lemma init_nics_zero text l : forall ns ns',
  init_nics text ns l = Ok ns' ->
  all_zero (t_rx ns) /\ all_zero (t_tx ns) ->
  all_zero (t_rx ns') /\ all_zero (t_tx ns').
Proof.
  induction l as [|nic l IH]; intros ns ns' H Hz.
  - injection H as <-. assumption.
  - cbn [init_nics] in H. ok_inv H. apply (IH _ _ H).
    match goal with E : init_nic _ _ _ = Ok _ |- _ =>
      unfold init_nic in E; destruct (find_line (nic ++ ":") text);
      [ ok_inv E; subst | injection E as <-; assumption ]
    end.
    simpl. destruct Hz as [Hr Ht].
    split; intros k v; rewrite lookup_insert; case_decide; intros Hk;
      [ congruence | eauto | congruence | eauto ].
Qed.

Lemma setup_pristine cfg senv w st0 :
  setup cfg senv = Ok (w, st0) -> pristine st0.
Proof.
  unfold setup. intros H. ok_inv H. injection H as <- <-.
  match goal with E : init_nics _ _ _ = Ok _ |- _ =>
    destruct (init_nics_zero _ _ _ _ E) as [Hr Ht];
    [ split; intros k v; cbn; rewrite lookup_empty; discriminate | ]
  end.
  constructor; cbn; auto.
Qed.

(** ** The divisor *)

Lemma collect_data_ticks cfg w envs rt st0 st log :
  0 < rt ->
  collect_data cfg w envs rt st0 = Ok (st, log) ->
  1 <= Z.of_nat (length log) <= rt /\
  X st = Some (Z.of_nat (length log)) /\
  loop_variable st = Ok (Z.of_nat (length log)).
Proof.
  unfold collect_data. intros Hrt H.
  pose proof (collect_loop_effect _ _ _ _ _ _ _ _ H) as L.
  assert (Hne : log <> []) by (apply (le_ran _ _ _ _ _ L); lia).
  pose proof (le_len _ _ _ _ _ L) as Hlen.
  pose proof (le_X _ _ _ _ _ L Hne) as HX.
  assert (Hpos : (0 < length log)%nat) by (destruct log; [congruence | cbn; lia]).
  replace (1 + Z.of_nat (length log) - 1) with (Z.of_nat (length log)) in HX by lia.
  split; [lia|]. split; [assumption|].
  unfold loop_variable. rewrite HX. reflexivity.
Qed.

Lemma int_avg_Ok (total : gmap string Z) key st sum x :
  total !! key = Some sum ->
  loop_variable st = Ok x ->
  x <> 0 ->
  int_avg total key st = Ok (Py.trunc (Py.Z2Qc sum / Py.Z2Qc x)%Qc).
Proof.
  intros Hk Hx Hne. unfold int_avg.
  rewrite (getitem_Some _ _ _ Hk). cbn. rewrite Hx. cbn.
  rewrite truediv_Z2Qc by assumption. reflexivity.
Qed.

Lemma int_avg_no_zero_division (total : gmap string Z) key st x :
  loop_variable st = Ok x ->
  x <> 0 ->
  int_avg total key st <> Raise ZeroDivisionError.
Proof.
  intros Hx Hne. unfold int_avg, Py.getitem.
  destruct (total !! key); cbn; [|discriminate].
  rewrite Hx. cbn. rewrite truediv_Z2Qc by assumption. discriminate.
Qed.

Lemma avg_Z_Ok st x (total : Z) :
  loop_variable st = Ok x -> x <> 0 ->
  (x' ← loop_variable st; Py.truediv (Py.Z2Qc total) (Py.Z2Qc x'))
  = Ok (Py.Z2Qc total / Py.Z2Qc x)%Qc.
Proof.
  intros Hx Hne. rewrite Hx. cbn. apply truediv_Z2Qc. assumption.
Qed.

Lemma bump_fresh (d : gmap string Z) (k : string) (x : Z) :
  all_zero d -> is_Some (d !! k) -> bump x (d !! k) = Some x.
Proof.
  intros Hz [v Hv]. rewrite Hv. rewrite (Hz _ _ Hv). reflexivity.
Qed.

(** Averages of a run that started from [setup] and whose loop returned. *)
Lemma averages_of_run cfg w envs rt st0 st log :
  pristine st0 ->
  0 < rt ->
  collect_data cfg w envs rt st0 = Ok (st, log) ->
  cpu_avg st
  = Ok (Py.Z2Qc (sum_Z (map s_cpu log)) / Py.Z2Qc (Z.of_nat (length log)))%Qc /\
  iow_avg st
  = Ok (Py.Z2Qc (sum_Z (map s_iow log)) / Py.Z2Qc (Z.of_nat (length log)))%Qc /\
  ram_avg st
  = Ok (sum_Qc (map s_ram log) / Py.Z2Qc (Z.of_nat (length log)))%Qc /\
  forall nic, monitored st0 nic ->
    rx_avg st nic
    = Ok (Py.trunc (Py.Z2Qc (log_rx nic log)
                    / Py.Z2Qc (Z.of_nat (length log)))%Qc) /\
    tx_avg st nic
    = Ok (Py.trunc (Py.Z2Qc (log_tx nic log)
                    / Py.Z2Qc (Z.of_nat (length log)))%Qc).
Proof.
  intros F Hrt H.
  destruct (collect_data_ticks _ _ _ _ _ _ _ Hrt H) as (Hn & HX & Hlv).
  pose proof (collect_loop_effect _ _ _ _ _ _ _ _ H) as L.
  assert (Hne : Z.of_nat (length log) <> 0) by lia.
  unfold cpu_avg, iow_avg, ram_avg.
  rewrite (le_cpu _ _ _ _ _ L), (le_iow _ _ _ _ _ L), (le_ram _ _ _ _ _ L).
  rewrite (fr_cpu _ F), (fr_iow _ F), (fr_ram _ F).
  cbn [Z.add]. rewrite Qcplus_0_l.
  split; [apply avg_Z_Ok; assumption|].
  split; [apply avg_Z_Ok; assumption|].
  split; [rewrite Hlv; cbn; apply truediv_Z2Qc; assumption|].
  intros nic [Hrx Htx]. split.
  - unfold rx_avg. apply int_avg_Ok; [|assumption..].
    rewrite (le_rx _ _ _ _ _ L). apply bump_fresh; [apply F | exact Hrx].
  - unfold tx_avg. apply int_avg_Ok; [|assumption..].
    rewrite (le_tx _ _ _ _ _ L). apply bump_fresh; [apply F | exact Htx].
Qed.

(** C1. For a run whose loop returns, [X] at loop exit is the number of
    passes executed, and every reported average is the sum of the per-pass
    values over the passes executed divided by that number (never by the
    configured [run_times]): exactly for [cpu_avg], [iow_avg] and [ram_avg],
    and through [int( )] for each interface's [rx_avg] and [tx_avg]. *)
Theorem averages_divide_by_ticks_executed
    cfg senv envs rt w st0 st log :
  setup cfg senv = Ok (w, st0) ->
  0 < rt ->
  collect_data cfg w envs rt st0 = Ok (st, log) ->
  let n := Z.of_nat (length log) in
  1 <= n <= rt /\
  X st = Some n /\
  cpu_avg st = Ok (Py.Z2Qc (sum_Z (map s_cpu log)) / Py.Z2Qc n)%Qc /\
  iow_avg st = Ok (Py.Z2Qc (sum_Z (map s_iow log)) / Py.Z2Qc n)%Qc /\
  ram_avg st = Ok (sum_Qc (map s_ram log) / Py.Z2Qc n)%Qc /\
  forall nic, monitored st0 nic ->
    rx_avg st nic = Ok (Py.trunc (Py.Z2Qc (log_rx nic log) / Py.Z2Qc n)%Qc) /\
    tx_avg st nic = Ok (Py.trunc (Py.Z2Qc (log_tx nic log) / Py.Z2Qc n)%Qc).
Proof.
  intros Hs Hrt H n.
  destruct (collect_data_ticks _ _ _ _ _ _ _ Hrt H) as (Hn & HX & _).
  split; [exact Hn|]. split; [exact HX|].
  apply (averages_of_run cfg w envs rt st0 st log); auto.
  apply (setup_pristine _ _ _ _ Hs).
Qed.

(** C10. [run_times] is 20, the loop body runs at least once, [X] is at
    least 1 when the loop is left, and no average divides by zero. *)
Theorem tick_count_at_least_one :
  run_times = 20 /\
  forall cfg w envs st0 st log,
    collect_data cfg w envs run_times st0 = Ok (st, log) ->
    log <> [] /\
    (exists x, X st = Some x /\ x = Z.of_nat (length log) /\ 1 <= x <= run_times) /\
    returns (cpu_avg st) /\ returns (iow_avg st) /\ returns (ram_avg st) /\
    forall key,
      rx_avg st key <> Raise ZeroDivisionError /\
      tx_avg st key <> Raise ZeroDivisionError /\
      con_avg st key <> Raise ZeroDivisionError.
Proof.
  split; [reflexivity|].
  intros cfg w envs st0 st log H.
  assert (Hrt : 0 < run_times) by reflexivity.
  destruct (collect_data_ticks _ _ _ _ _ _ _ Hrt H) as (Hn & HX & Hlv).
  assert (Hne : Z.of_nat (length log) <> 0) by lia.
  split; [destruct log; [cbn in Hn; lia | discriminate]|].
  split; [eauto|].
  unfold cpu_avg, iow_avg, ram_avg, returns.
  rewrite !Hlv. cbn. rewrite !truediv_Z2Qc by assumption.
  repeat split; eauto;
    unfold rx_avg, tx_avg, con_avg;
    apply int_avg_no_zero_division with (x := Z.of_nat (length log)); assumption.
Qed.

(** ** Runs on the concrete host *)

(** The loop on this host, with the minute changing during pass 5. *)
Lemma host_run_five :
  exists w st0 st log,
    setup shipped_settings host_boot = Ok (w, st0) /\
    collect_data shipped_settings w (host_tick 5) run_times st0 = Ok (st, log) /\
    length log = 5%nat /\
    map s_cpu log = [5; 5; 5; 5; 5] /\
    monitored st0 "eth0".
Proof.
  eexists _, _, _, _.
  split; [vm_compute; reflexivity|].
  split; [vm_compute; reflexivity|].
  split; [vm_compute; reflexivity|].
  split; [vm_compute; reflexivity|].
  split; vm_compute; eauto.
Qed.

Lemma averages_divide_by_ticks_executed_witness :
  exists w st0 st log,
    setup shipped_settings host_boot = Ok (w, st0) /\
    collect_data shipped_settings w (host_tick 5) run_times st0 = Ok (st, log) /\
    X st = Some 5 /\
    cpu_avg st = Ok (Py.Z2Qc 25 / Py.Z2Qc 5)%Qc.
Proof.
  destruct host_run_five as (w & st0 & st & log & Hs & Hc & Hlen & Hcpu & _).
  exists w, st0, st, log.
  split; [exact Hs|]. split; [exact Hc|].
  pose proof (averages_divide_by_ticks_executed shipped_settings host_boot
                (host_tick 5) run_times w st0 st log Hs eq_refl Hc) as H.
  cbv zeta in H. rewrite Hlen, Hcpu in H.
  destruct H as (_ & HX & Havg & _).
  split; [exact HX | exact Havg].
Defined.

Lemma tick_count_at_least_one_witness :
  exists w st0 st log,
    setup shipped_settings host_boot = Ok (w, st0) /\
    collect_data shipped_settings w (host_tick 5) run_times st0 = Ok (st, log) /\
    log <> [] /\ returns (cpu_avg st).
Proof.
  destruct host_run_five as (w & st0 & st & log & Hs & Hc & _).
  exists w, st0, st, log.
  split; [exact Hs|]. split; [exact Hc|].
  pose proof (proj2 tick_count_at_least_one _ _ _ _ _ _ Hc)
    as (Hne & _ & Hcpu & _).
  split; assumption.
Defined.

(** ** Network rates *)

Lemma rate_Ok current previous td r :
  rate current previous td = Ok r ->
  Py.is_zero td = false /\
  r = Py.trunc (Py.Z2Qc (current - previous) / td)%Qc.
Proof.
  unfold rate, Py.truediv. destruct (Py.is_zero td); cbn; [discriminate|].
  intros H. injection H as <-. auto.
Qed.

Lemma rate_same c td r : rate c c td = Ok r -> r = 0.
Proof.
  intros H. apply rate_Ok in H as [_ ->].
  rewrite Z.sub_diag.
  replace (Py.Z2Qc 0) with 0%Qc by (apply Qc_is_canon; reflexivity).
  unfold Qcdiv. rewrite Qcmult_0_l. reflexivity.
Qed.

Lemma nic_step_hit text td ns nic line cur_rx cur_tx ns' r :
  find_line (nic ++ ":") text = Some line ->
  field (Py.split line) 1 = Ok cur_rx ->
  field (Py.split line) 9 = Ok cur_tx ->
  nic_step text td ns nic = Ok (ns', r) ->
  exists prev_rx prev_tx sum_rx sum_tx rx tx,
    nic_view ns nic = (Some prev_rx, Some prev_tx, Some sum_rx, Some sum_tx) /\
    rate cur_rx prev_rx td = Ok rx /\
    rate cur_tx prev_tx td = Ok tx /\
    r = Some (rx, tx) /\
    nic_view ns' nic
    = (Some cur_rx, Some cur_tx, Some (sum_rx + rx), Some (sum_tx + tx)).
Proof.
  intros Hl Hrx Htx H. unfold nic_step in H. rewrite Hl, Hrx in H.
  cbn [mbind result_bind] in H. ok_inv H. rewrite Htx in *.
  repeat match goal with
  | E : Ok _ = Ok _ |- _ => injection E as ?; subst
  | E : Py.getitem _ _ = Ok _ |- _ => apply getitem_Ok in E
  end.
  injection H as <- <-.
  do 6 eexists. unfold nic_view. cbn. rewrite !lookup_insert_eq.
  repeat match goal with E : _ !! _ = Some _ |- _ => rewrite E; clear E end.
  repeat split; eassumption.
Qed.

Lemma nic_step_other text td ns nic' ns' r nic :
  nic_step text td ns nic' = Ok (ns', r) ->
  nic' <> nic ->
  nic_view ns' nic = nic_view ns nic.
Proof.
  intros H Hne. unfold nic_step in H.
  destruct (find_line (nic' ++ ":") text).
  - ok_inv H. injection H as <- <-. unfold nic_view. cbn.
    rewrite !lookup_insert_ne by assumption. reflexivity.
  - injection H as <- <-. reflexivity.
Qed.

(** All the passes over the interface list, seen from one interface whose
    line is in [text]. *)
Lemma nic_steps_track text td nic line cur_rx cur_tx l :
  find_line (nic ++ ":") text = Some line ->
  field (Py.split line) 1 = Ok cur_rx ->
  field (Py.split line) 9 = Ok cur_tx ->
  forall ns ns' rates,
    nic_steps text td ns l = Ok (ns', rates) ->
    (In nic l ->
     exists prev_rx prev_tx sum_rx sum_tx rx tx,
       nic_view ns nic = (Some prev_rx, Some prev_tx, Some sum_rx, Some sum_tx) /\
       rate cur_rx prev_rx td = Ok rx /\
       rate cur_tx prev_tx td = Ok tx /\
       nic_view ns' nic
       = (Some cur_rx, Some cur_tx, Some (sum_rx + rx), Some (sum_tx + tx))) /\
    (~ In nic l -> nic_view ns' nic = nic_view ns nic).
Proof.
  intros Hl Hrx Htx.
  induction l as [|nic' l IH]; intros ns ns' rates H.
  - injection H as <- <-. split; [intros []|reflexivity].
  - cbn [nic_steps] in H. ok_inv H. injection H as <- <-.
    match goal with
    | E1 : nic_step _ _ _ _ = Ok (?n1, _), E2 : nic_steps _ _ _ _ = Ok _ |- _ =>
        rename E1 into Hstep; rename n1 into ns1;
        destruct (IH _ _ _ E2) as [IHin IHout]
    end.
    destruct (decide (nic' = nic)) as [->|Hne].
    + destruct (nic_step_hit _ _ _ _ _ _ _ _ _ Hl Hrx Htx Hstep)
        as (prx & ptx & srx & stx & rx & tx & Hv & Hr & Ht & _ & Hv1).
      split; [|intros Hn; exfalso; apply Hn; left; reflexivity].
      intros _. exists prx, ptx, srx, stx, rx, tx.
      repeat split; try assumption.
      destruct (in_dec string_dec nic l) as [Hin|Hout].
      * destruct (IHin Hin)
          as (prx' & ptx' & srx' & stx' & rx' & tx' & Hv' & Hr' & Ht' & Hv2).
        rewrite Hv1 in Hv'. injection Hv' as <- <- <- <-.
        apply rate_same in Hr'. apply rate_same in Ht'. subst rx' tx'.
        rewrite Hv2, !Z.add_0_r. reflexivity.
      * rewrite (IHout Hout). assumption.
    + rewrite <- (nic_step_other _ _ _ _ _ _ nic Hstep Hne).
      split.
      * intros [Heq|Hin]; [contradiction|]. apply IHin. assumption.
      * intros Hn. apply IHout. intros Hin. apply Hn. right. assumption.
Qed.

(** [Py.trunc] rounds toward zero: on a quotient of integers it is [Z.quot]. *)
Lemma quot_Qeq (p q : Q) :
  p == q -> Qnum p ÷ Zpos (Qden p) = Qnum q ÷ Zpos (Qden q).
Proof.
  destruct p as [n1 d1], q as [n2 d2]. unfold Qeq. cbn. intros H.
  rewrite <- (Z.quot_mul_cancel_r n1 (Zpos d1) (Zpos d2)) by lia.
  rewrite <- (Z.quot_mul_cancel_r n2 (Zpos d2) (Zpos d1)) by lia.
  rewrite H. f_equal. lia.
Qed.

Lemma trunc_Z2Qc_div (a b : Z) :
  b <> 0 -> Py.trunc (Py.Z2Qc a / Py.Z2Qc b)%Qc = a ÷ b.
Proof.
  intros Hb. unfold Py.trunc.
  assert (E : this (Py.Z2Qc a / Py.Z2Qc b)%Qc == inject_Z a / inject_Z b).
  { unfold Qcdiv, Qcmult, Qcinv. cbn [this Q2Qc].
    rewrite !Qred_correct, !Z2Qc_this. reflexivity. }
  rewrite (quot_Qeq _ _ E).
  unfold Qdiv, Qinv, Qmult, inject_Z. cbn [Qnum Qden].
  destruct b as [|b|b]; [contradiction| |]; cbn [Qnum Qden].
  - rewrite Z.mul_1_r, Pos.mul_1_l. reflexivity.
  - rewrite Pos.mul_1_l.
    replace (a * Z.neg 1) with (- a) by lia.
    replace (Z.neg b) with (- Z.pos b) by lia.
    rewrite Z.quot_opp_l, Z.quot_opp_r by lia. lia.
Qed.

(** The loop on the same host, with the minute changing during pass 2:
    eth0 reads 1000, 1500, 1500 bytes at seconds 0, 3, 6. *)
Lemma host_run_two :
  exists w st0 st log,
    setup shipped_settings host_boot = Ok (w, st0) /\
    collect_data shipped_settings w (host_tick 2) run_times st0 = Ok (st, log) /\
    map s_rates log = [[("eth0", (166, 0))]; [("eth0", (0, 0))]] /\
    map s_time_diff log = [Py.Z2Qc 3; Py.Z2Qc 3] /\
    rx_avg st "eth0" = Ok 83.
Proof.
  eexists _, _, _, _.
  split; [vm_compute; reflexivity|].
  split; [vm_compute; reflexivity|].
  split; [vm_compute; reflexivity|].
  split; vm_compute; reflexivity.
Qed.

(** Over a whole number of seconds the integer is the same in binary64 as
    over the rationals, for any counter difference below [2^53]. *)
Lemma int_div_exact_whole (n d : Z) :
  Z.abs n < 2 ^ 53 -> d <> 0 -> Z.abs d < 2 ^ 53 ->
  int_div_exact n (Py.Z2Qc d) = true.
Proof.
  intros Hn Hd Hd'. unfold int_div_exact. cbv zeta.
  rewrite trunc_Z2Qc_div by assumption.
  assert (Hb : binary64 (Py.Z2Qc d) = true).
  { unfold binary64. rewrite Z2Qc_this. cbn [Qden Qnum inject_Z log2_exact].
    apply andb_true_intro. split; [apply Z.ltb_lt; assumption | reflexivity]. }
  rewrite Hb, andb_true_r.
  apply andb_true_intro. split; [apply Z.ltb_lt; assumption|].
  apply Z.leb_le.
  assert (E : this (Py.Z2Qc n / Py.Z2Qc d)%Qc == inject_Z n / inject_Z d).
  { unfold Qcdiv, Qcmult, Qcinv. cbn [this Q2Qc].
    rewrite !Qred_correct, !Z2Qc_this. reflexivity. }
  destruct (this (Py.Z2Qc n / Py.Z2Qc d)%Qc) as [a b]. cbn [Qnum Qden].
  assert (Hab : a * d = n * Zpos b).
  { revert E. unfold Qeq, Qdiv, Qmult, Qinv, inject_Z. cbn [Qnum Qden].
    destruct d as [|d|d]; [contradiction| |]; cbn [Qnum Qden]; lia. }
  assert (Habs : Z.abs a * Z.abs d = Z.abs n * Zpos b).
  { rewrite <- Z.abs_mul, Hab, Z.abs_mul. f_equal. }
  rewrite <- (Z.quot_abs n d) by assumption.
  assert (HD : 0 < Z.abs d) by lia.
  pose proof (Z.quot_rem' (Z.abs n) (Z.abs d)) as Hq.
  pose proof (Z.rem_bound_pos (Z.abs n) (Z.abs d) (Z.abs_nonneg n) HD) as Hr.
  set (N := Z.abs n) in *. set (D := Z.abs d) in *. set (A := Z.abs a) in *.
  set (K := N ÷ D) in *. set (R := Z.rem N D) in *.
  clearbody K R N D A.
  apply (proj2 (Z.mul_le_mono_pos_r _ _ D HD)).
  replace (A * 2 ^ 53 * D) with (A * D * 2 ^ 53) by ring.
  rewrite Habs.
  replace (N * Z.pos b * 2 ^ 53) with (N * 2 ^ 53 * Z.pos b) by ring.
  replace ((K + 1) * (2 ^ 53 - 1) * Z.pos b * D)
    with ((K + 1) * (2 ^ 53 - 1) * D * Z.pos b) by ring.
  apply Z.mul_le_mono_nonneg_r; [lia|].
  assert (E2 : (K + 1) * (2 ^ 53 - 1) * D - N * 2 ^ 53
               = (2 ^ 53 - 1) * (D - R) - N) by (rewrite Hq; ring).
  assert (2 ^ 53 - 1 <= (2 ^ 53 - 1) * (D - R)) by nia.
  lia.
Qed.

(** A quotient left out: a counter that moved by 1 in a tenth of a second.
    The exact quotient is just below 10 and truncates to 9; the binary64
    quotient is 10. *)
Lemma int_div_exact_not_tenth :
  binary64 float_tenth = true /\
  int_div_exact (1001 - 1000) float_tenth = false /\
  rate 1001 1000 float_tenth = Ok 9.
Proof. repeat split; vm_compute; reflexivity. Qed.

(** C3. In a pass that returns, the elapsed time is measured from the clock
    reading stored by the previous pass (the new reading is stored for the
    next one); for every listed interface whose line is in /proc/net/dev the
    current reading becomes the stored one, and the rate added to the
    interface's running sum is (current - previous) / elapsed truncated
    toward zero.  The rate is stated where the binary64 quotient the script
    truncates gives the same integer as the exact one ([int_div_exact]).
    Counters 1000, 1500, 1500 read at seconds 0, 3, 6 give the rates 166
    and 0 and the average 83 over 2 passes. *)
Theorem network_rate_per_tick :
  (forall cfg w env i st st' smp stop,
     tick cfg w env i st = Ok (st', smp, stop) ->
     s_time_diff smp = (end_time env - start_time st)%Qc /\
     start_time st' = restart_time env /\
     forall nic line cur_rx cur_tx,
       In nic (network_interfaces_array w) ->
       find_line (nic ++ ":") (net_dev env) = Some line ->
       field (Py.split line) 1 = Ok cur_rx ->
       field (Py.split line) 9 = Ok cur_tx ->
       exists prev_rx prev_tx sum_rx sum_tx,
         nic_view (nics st) nic
         = (Some prev_rx, Some prev_tx, Some sum_rx, Some sum_tx) /\
         Py.is_zero (s_time_diff smp) = false /\
         a_rx (nics st') !! nic = Some cur_rx /\
         a_tx (nics st') !! nic = Some cur_tx /\
         (int_div_exact (cur_rx - prev_rx) (s_time_diff smp) = true ->
          t_rx (nics st') !! nic
          = Some (sum_rx
                  + Py.trunc (Py.Z2Qc (cur_rx - prev_rx) / s_time_diff smp)%Qc)) /\
         (int_div_exact (cur_tx - prev_tx) (s_time_diff smp) = true ->
          t_tx (nics st') !! nic
          = Some (sum_tx
                  + Py.trunc (Py.Z2Qc (cur_tx - prev_tx) / s_time_diff smp)%Qc))) /\
  (exists w st0 st log,
     setup shipped_settings host_boot = Ok (w, st0) /\
     collect_data shipped_settings w (host_tick 2) run_times st0 = Ok (st, log) /\
     map s_rates log = [[("eth0", (166, 0))]; [("eth0", (0, 0))]] /\
     map s_time_diff log = [Py.Z2Qc 3; Py.Z2Qc 3] /\
     rx_avg st "eth0" = Ok 83).
Proof.
  split; [|exact host_run_two].
  intros cfg w env i st st' smp stop H.
  pose proof (tick_Ok_effect _ _ _ _ _ _ _ _ H) as T.
  split; [apply T|]. split; [apply T|].
  intros nic line cur_rx cur_tx Hin Hl Hrx Htx.
  rewrite (te_diff _ _ _ _ _ T).
  unfold tick in H. ok_inv H. injection H as <- <- <-. cbn [nics].
  match goal with E : nic_steps _ _ _ _ = Ok _ |- _ =>
    destruct (proj1 (nic_steps_track _ _ _ _ _ _ _ Hl Hrx Htx _ _ _ E) Hin)
      as (prx & ptx & srx & stx & rx & tx & Hv & Hr & Ht & Hv')
  end.
  apply rate_Ok in Hr as [Hz ->]. apply rate_Ok in Ht as [_ ->].
  unfold nic_view in Hv'. injection Hv' as Harx Hatx Htrx Httx.
  exists prx, ptx, srx, stx. repeat split; auto.
Qed.

Lemma network_rate_per_tick_witness :
  exists w st0 st1 smp stop,
    setup shipped_settings host_boot = Ok (w, st0) /\
    tick shipped_settings w (host_tick 2 1) 1 st0 = Ok (st1, smp, stop) /\
    nic_view (nics st0) "eth0" = (Some 1000, Some 0, Some 0, Some 0) /\
    s_time_diff smp = Py.Z2Qc 3 /\
    int_div_exact (1500 - 1000) (Py.Z2Qc 3) = true /\
    a_rx (nics st1) !! "eth0" = Some 1500 /\
    t_rx (nics st1) !! "eth0" = Some 166.
Proof.
  assert (exists w st0 st1 smp stop,
    setup shipped_settings host_boot = Ok (w, st0) /\
    tick shipped_settings w (host_tick 2 1) 1 st0 = Ok (st1, smp, stop) /\
    network_interfaces_array w = ["eth0"] /\
    nic_view (nics st0) "eth0" = (Some 1000, Some 0, Some 0, Some 0) /\
    (end_time (host_tick 2 1) - start_time st0)%Qc = Py.Z2Qc 3)
    as (w & st0 & st1 & smp & stop & Hs & Ht & Hnia & Hv & Hd).
  { eexists _, _, _, _, _.
    split; [vm_compute; reflexivity|].
    split; [vm_compute; reflexivity|].
    split; [vm_compute; reflexivity|].
    split; vm_compute; reflexivity. }
  exists w, st0, st1, smp, stop.
  split; [exact Hs|]. split; [exact Ht|]. split; [exact Hv|].
  destruct (proj1 network_rate_per_tick _ _ _ _ _ _ _ _ Ht) as (Hdiff & _ & Hnic).
  rewrite Hd in Hdiff. split; [exact Hdiff|].
  assert (Hex : int_div_exact (1500 - 1000) (Py.Z2Qc 3) = true)
    by (apply int_div_exact_whole; [reflexivity | discriminate | reflexivity]).
  split; [exact Hex|].
  destruct (Hnic "eth0" "  eth0: 1500 10 0 0 0 0 0 0 0 20 0 0 0 0 0 0" 1500 0)
    as (prx & ptx & srx & stx & Hv0 & _ & Harx & _ & Hrate & _).
  - rewrite Hnia. left. reflexivity.
  - vm_compute. reflexivity.
  - vm_compute. reflexivity.
  - vm_compute. reflexivity.
  - rewrite Hv in Hv0. injection Hv0 as <- <- <- <-.
    split; [exact Harx|].
    rewrite Hdiff in Hrate. rewrite (Hrate Hex).
    rewrite trunc_Z2Qc_div by discriminate. reflexivity.
Defined.

(** ** Disk IOPS *)

Lemma init_disk_Ok text rw mount_point disk line r0 w0 :
  find_line disk text = Some line ->
  field (Py.split line) 5 = Ok r0 ->
  field (Py.split line) 9 = Ok w0 ->
  init_disk text rw (mount_point, disk)
  = Ok (<[mount_point := r0]> (fst rw), <[mount_point := w0]> (snd rw)).
Proof. intros Hl Hr Hw. unfold init_disk. rewrite Hl, Hr. cbn. rewrite Hw. reflexivity. Qed.

Lemma init_disk_other text rw rw' mount_point disk k :
  init_disk text rw (mount_point, disk) = Ok rw' ->
  mount_point <> k ->
  fst rw' !! k = fst rw !! k /\ snd rw' !! k = snd rw !! k.
Proof.
  unfold init_disk. intros H Hne. destruct (find_line disk text).
  - ok_inv H. subst rw'. cbn. rewrite !lookup_insert_ne by assumption. auto.
  - injection H as <-. auto.
Qed.

(** The readings [setup] stores for a disk target are those of its line in
    the first read of /proc/diskstats. *)
Lemma setup_iops cfg senv w st0 mount_point disk line r0 w0 :
  setup cfg senv = Ok (w, st0) ->
  In (mount_point, disk) v_disks ->
  find_line disk (boot_diskstats senv) = Some line ->
  field (Py.split line) 5 = Ok r0 ->
  field (Py.split line) 9 = Ok w0 ->
  iops_read w !! mount_point = Some r0 /\ iops_write w !! mount_point = Some w0.
Proof.
  unfold setup. intros H Hin Hl Hr Hw. ok_inv H. injection H as <- <-.
  cbn [iops_read iops_write].
  match goal with E : init_disks _ _ _ = Ok _ |- _ =>
    cbn [init_disks v_disks] in E; ok_inv E; injection E as <- <-
  end.
  match goal with
  | E1 : init_disk _ _ ("/", _) = Ok _, E2 : init_disk _ _ ("/volume1", _) = Ok _ |- _ =>
      rename E1 into Hd1; rename E2 into Hd2
  end.
  destruct Hin as [Heq|[Heq|[]]]; injection Heq as <- <-.
  - rewrite (init_disk_Ok _ _ _ _ _ _ _ Hl Hr Hw) in Hd1. injection Hd1 as <- <-.
    destruct (init_disk_other _ _ _ _ _ "/" Hd2) as [H1 H2]; [discriminate|].
    cbn in H1, H2. rewrite H1, H2, !lookup_insert_eq. auto.
  - rewrite (init_disk_Ok _ _ _ _ _ _ _ Hl Hr Hw) in Hd2. injection Hd2 as <- <-.
    rewrite !lookup_insert_eq. auto.
Qed.

Lemma iops_entry_Ok text w st mount_point disk line r0 w0 r1 w1 :
  find_line disk text = Some line ->
  field (Py.split line) 5 = Ok r1 ->
  field (Py.split line) 9 = Ok w1 ->
  iops_read w !! mount_point = Some r0 ->
  iops_write w !! mount_point = Some w0 ->
  Py.is_zero (t_time_diff st) = false ->
  iops_entry text w st (mount_point, disk)
  = Ok (Some (mount_point,
              (Py.trunc (Py.Z2Qc ((r1 - r0) * 512) / t_time_diff st)%Qc,
               Py.trunc (Py.Z2Qc ((w1 - w0) * 512) / t_time_diff st)%Qc))).
Proof.
  intros Hl Hr Hw Hr0 Hw0 Hz. unfold iops_entry.
  rewrite Hl, Hr. cbn. rewrite (getitem_Some _ _ _ Hr0). cbn.
  unfold Py.truediv. rewrite Hz. cbn. rewrite Hw. cbn.
  rewrite (getitem_Some _ _ _ Hw0). reflexivity.
Qed.

(** A counter series on which the two methods disagree: readings 0, 10, 20
    with 1 s then 3 s between them. *)
Lemma methods_disagree :
  exists c0 c1 c2 d1 d2 r1 r2,
    rate c1 c0 d1 = Ok r1 /\
    rate c2 c1 d2 = Ok r2 /\
    Py.trunc (Py.Z2Qc (c2 - c0) / (d1 + d2))%Qc
    <> Py.trunc (Py.Z2Qc (r1 + r2) / Py.Z2Qc 2)%Qc.
Proof.
  exists 0, 10, 20, (Py.Z2Qc 1), (Py.Z2Qc 3), 10, 3.
  split; [vm_compute; reflexivity|].
  split; [vm_compute; reflexivity|].
  vm_compute. discriminate.
Qed.

(** C4. The IOPS value of a disk target is one whole-window delta: the
    reading at window close minus the reading taken before the first pass,
    times 512, over the sum of the per-pass elapsed times; an interface's
    value is the sum of its per-pass rates over the number of passes.  The
    IOPS value is stated where binary64 arithmetic gives the same integer
    as the exact one: the elapsed times add up without rounding
    ([sums_exact]) and the two quotients truncate alike ([int_div_exact]).
    The two methods can give different numbers on the same counter
    series. *)
Theorem iops_whole_window_nics_per_tick
    cfg senv envs rt w st0 st log text :
  setup cfg senv = Ok (w, st0) ->
  0 < rt ->
  collect_data cfg w envs rt st0 = Ok (st, log) ->
  let elapsed := sum_Qc (map s_time_diff log) in
  let n := Z.of_nat (length log) in
  t_time_diff st = elapsed /\
  (forall mount_point disk line0 line1 r0 w0 r1 w1,
     In (mount_point, disk) v_disks ->
     find_line disk (boot_diskstats senv) = Some line0 ->
     field (Py.split line0) 5 = Ok r0 ->
     field (Py.split line0) 9 = Ok w0 ->
     find_line disk text = Some line1 ->
     field (Py.split line1) 5 = Ok r1 ->
     field (Py.split line1) 9 = Ok w1 ->
     Py.is_zero elapsed = false ->
     sums_exact 0 (map s_time_diff log) = true ->
     int_div_exact ((r1 - r0) * 512) elapsed = true ->
     int_div_exact ((w1 - w0) * 512) elapsed = true ->
     iops_entry text w st (mount_point, disk)
     = Ok (Some (mount_point,
                 (Py.trunc (Py.Z2Qc ((r1 - r0) * 512) / elapsed)%Qc,
                  Py.trunc (Py.Z2Qc ((w1 - w0) * 512) / elapsed)%Qc)))) /\
  (forall nic, monitored st0 nic ->
     rx_avg st nic = Ok (Py.trunc (Py.Z2Qc (log_rx nic log) / Py.Z2Qc n)%Qc) /\
     tx_avg st nic = Ok (Py.trunc (Py.Z2Qc (log_tx nic log) / Py.Z2Qc n)%Qc)) /\
  (exists c0 c1 c2 d1 d2 r1 r2,
     rate c1 c0 d1 = Ok r1 /\
     rate c2 c1 d2 = Ok r2 /\
     Py.trunc (Py.Z2Qc (c2 - c0) / (d1 + d2))%Qc
     <> Py.trunc (Py.Z2Qc (r1 + r2) / Py.Z2Qc 2)%Qc).
Proof.
  intros Hs Hrt H elapsed n.
  pose proof (setup_pristine _ _ _ _ Hs) as F.
  pose proof (collect_loop_effect _ _ _ _ _ _ _ _ H) as L.
  assert (Ht : t_time_diff st = elapsed).
  { rewrite (le_time _ _ _ _ _ L), (fr_time _ F). apply Qcplus_0_l. }
  split; [exact Ht|]. split; [|split; [|exact methods_disagree]].
  - intros mp disk line0 line1 r0 w0 r1 w1 Hin Hl0 Hr0 Hw0 Hl1 Hr1 Hw1 Hz _ _ _.
    destruct (setup_iops _ _ _ _ _ _ _ _ _ Hs Hin Hl0 Hr0 Hw0) as [Hir Hiw].
    rewrite <- Ht in *. apply iops_entry_Ok with (line := line1); assumption.
  - apply (averages_of_run cfg w envs rt st0 st log F Hrt H).
Qed.

Lemma iops_whole_window_nics_per_tick_witness :
  exists w st0 st log,
    setup shipped_settings host_boot = Ok (w, st0) /\
    collect_data shipped_settings w (host_tick 5) run_times st0 = Ok (st, log) /\
    t_time_diff st = Py.Z2Qc 15 /\
    sums_exact 0 (map s_time_diff log) = true /\
    int_div_exact ((4000 - 1000) * 512) (Py.Z2Qc 15) = true /\
    int_div_exact ((2750 - 2000) * 512) (Py.Z2Qc 15) = true /\
    iops_entry (proc_diskstats "4000" "2750" "0" "0") w st ("/", "sda1")
    = Ok (Some ("/", (102400, 25600))) /\
    rx_avg st "eth0" = Ok 33.
Proof.
  assert (exists w st0 st log,
    setup shipped_settings host_boot = Ok (w, st0) /\
    collect_data shipped_settings w (host_tick 5) run_times st0 = Ok (st, log) /\
    sum_Qc (map s_time_diff log) = Py.Z2Qc 15 /\
    length log = 5%nat /\
    log_rx "eth0" log = 166 /\
    sums_exact 0 (map s_time_diff log) = true /\
    monitored st0 "eth0")
    as (w & st0 & st & log & Hs & Hc & Hsum & Hlen & Hrx & Hex & Hmon).
  { eexists _, _, _, _.
    split; [vm_compute; reflexivity|].
    split; [vm_compute; reflexivity|].
    split; [vm_compute; reflexivity|].
    split; [vm_compute; reflexivity|].
    split; [vm_compute; reflexivity|].
    split; [vm_compute; reflexivity|].
    split; vm_compute; eauto. }
  exists w, st0, st, log.
  split; [exact Hs|]. split; [exact Hc|].
  pose proof (iops_whole_window_nics_per_tick shipped_settings host_boot
                (host_tick 5) run_times w st0 st log
                (proc_diskstats "4000" "2750" "0" "0") Hs eq_refl Hc) as H.
  cbv zeta in H. rewrite Hsum, Hlen in H.
  destruct H as (Ht & Hiops & Hnic & _).
  split; [exact Ht|]. split; [exact Hex|].
  split; [vm_compute; reflexivity|]. split; [vm_compute; reflexivity|]. split.
  - rewrite (Hiops "/" "sda1"
               "   8       1 sda1 40 0 1000 20 30 0 2000 15 0 25 35"
               "   8       1 sda1 40 0 4000 20 30 0 2750 15 0 25 35"
               1000 2000 4000 2750);
      [ | left; reflexivity
        | first [exact Hex | vm_compute; reflexivity] ..].
    rewrite !trunc_Z2Qc_div by discriminate. reflexivity.
  - destruct (Hnic "eth0" Hmon) as [Hr _]. rewrite Hr, Hrx.
    rewrite trunc_Z2Qc_div by discriminate. reflexivity.
Defined.

(** ** Port connections *)

(** What the script reports for a port whose dictionary entry held [c0]
    when the loop was entered. *)
Lemma con_avg_of_run cfg w envs rt st0 st log c_port c0 :
  0 < rt ->
  collect_data cfg w envs rt st0 = Ok (st, log) ->
  connections st0 !! c_port = Some c0 ->
  con_avg st c_port
  = Ok (Py.trunc (Py.Z2Qc (c0 + log_count c_port log)
                  / Py.Z2Qc (Z.of_nat (length log)))%Qc).
Proof.
  intros Hrt H Hc.
  destruct (collect_data_ticks _ _ _ _ _ _ _ Hrt H) as (Hn & _ & Hlv).
  pose proof (collect_loop_effect _ _ _ _ _ _ _ _ H) as L.
  unfold con_avg. apply int_avg_Ok; [|assumption|lia].
  rewrite (le_conn _ _ _ _ _ L), Hc. reflexivity.
Qed.

(** C7, evaluated. Two sockets on port 443 are open at every read and the
    loop makes 2 passes: each pass counts 2, yet the dictionary entry ends
    at 6, because it was seeded with the count read before the loop, and
    [int(6 / 2) = 3] is reported.  Moreover a socket on the last line of
    the stripped netstat output is not counted, since no newline follows
    it. *)
Theorem port_average_counts_boot_reading :
  (exists w st0 st log,
     setup watch_443 port_boot = Ok (w, st0) /\
     collect_data watch_443 w (port_tick 2) run_times st0 = Ok (st, log) /\
     map s_counts log = [[("443", 2)]; [("443", 2)]] /\
     X st = Some 2 /\
     connections st0 !! "443" = Some 2 /\
     connections st !! "443" = Some 6 /\
     con_avg st "443" = Ok 3) /\
  port_count ("10.0.0.5:22" ++ nl ++ "10.0.0.6:443") "443" = 0.
Proof.
  split; [|vm_compute; reflexivity].
  eexists _, _, _, _.
  split; [vm_compute; reflexivity|].
  split; [vm_compute; reflexivity|].
  split; [vm_compute; reflexivity|].
  split; [vm_compute; reflexivity|].
  split; [vm_compute; reflexivity|].
  split; vm_compute; reflexivity.
Qed.

(** ** Leaving the loop *)

Lemma tick_stop_flag cfg w env i st st' smp stop :
  tick cfg w env i st = Ok (st', smp, stop) ->
  exists MM, minute_of (minute env) = Ok MM /\ stop = (M w <? MM)%Z.
Proof.
  unfold tick. intros H. ok_inv H. injection H as <- <- <-. eauto.
Qed.

(** A loop entered in minute 59 is never left early: no later reading of
    the minute (00 to 59) is greater. *)
Lemma started_in_minute_59 cfg w envs n : forall i st st' log,
  M w = 59 ->
  (forall j MM, minute_of (minute (envs j)) = Ok MM -> MM <= 59) ->
  collect_loop cfg w envs n i st = Ok (st', log) ->
  length log = n.
Proof.
  induction n as [|n IH]; intros i st st' log HM Hmin H.
  - injection H as <- <-. reflexivity.
  - cbn [collect_loop] in H. apply bind_Ok in H.
    destruct H as ([[st1 smp] stop] & Et & H).
    destruct (tick_stop_flag _ _ _ _ _ _ _ _ Et) as (MM & Hmm & ->).
    rewrite HM in H. pose proof (Hmin _ _ Hmm) as Hle.
    destruct (Z.ltb_spec 59 MM) as [Hlt|_]; [lia|].
    ok_inv H. injection H as <- <-. cbn [length]. f_equal.
    eapply IH; eauto.
Qed.

(** C2, evaluated. When the minute changes from 07 to 08 during pass 5 the
    loop makes 5 passes; when it changes from 59 to 00 during pass 5 the
    test [MM > M] stays false and the loop makes all 20 passes. *)
Theorem hour_wrap_runs_all_ticks :
  (exists w st0 st log,
     setup shipped_settings host_boot = Ok (w, st0) /\
     collect_data shipped_settings w (host_tick 5) run_times st0 = Ok (st, log) /\
     length log = 5%nat /\ X st = Some 5) /\
  (exists w st0 st log,
     setup shipped_settings late_boot = Ok (w, st0) /\
     collect_data shipped_settings w late_tick run_times st0 = Ok (st, log) /\
     M w = 59 /\
     minute_of (minute (late_tick 5)) = Ok 0 /\
     length log = 20%nat /\ X st = Some 20).
Proof.
  split.
  - eexists _, _, _, _.
    split; [vm_compute; reflexivity|].
    split; [vm_compute; reflexivity|].
    split; vm_compute; reflexivity.
  - eexists _, _, _, _.
    split; [vm_compute; reflexivity|].
    split; [vm_compute; reflexivity|].
    split; [vm_compute; reflexivity|].
    split; [vm_compute; reflexivity|].
    split; vm_compute; reflexivity.
Qed.

(** ** Failed reads inside a pass *)

Lemma port_steps_keys netstat l : forall d d' cs,
  port_steps netstat d l = Ok (d', cs) ->
  Forall (fun p => is_Some (d !! p)) l.
Proof.
  induction l as [|p l IH]; intros d d' cs H; [constructor|].
  cbn [port_steps] in H. ok_inv H. injection H as <- <-.
  match goal with
  | E1 : port_step _ _ _ = Ok _, E2 : port_steps _ _ _ = Ok _ |- _ =>
      unfold port_step in E1; ok_inv E1; injection E1 as <- <-;
      pose proof (IH _ _ _ E2) as Hl
  end.
  match goal with E : Py.getitem _ _ = Ok _ |- _ =>
    apply getitem_Ok in E; rename E into Hp end.
  constructor; [eauto|].
  eapply Forall_impl; [exact Hl|]. cbn. intros q.
  rewrite lookup_insert. case_decide; [subst; eauto | auto].
Qed.

Lemma port_count_empty c_port : port_count "" c_port = 0.
Proof. reflexivity. Qed.

Lemma port_steps_silent l : forall d,
  Forall (fun p => is_Some (d !! p)) l ->
  port_steps "" d l = Ok (d, map (fun p => (p, 0)) l).
Proof.
  induction l as [|p l IH]; intros d Hl; [reflexivity|].
  inversion Hl as [|? ? [old Hp] Hl']; subst.
  cbn [port_steps map]. unfold port_step.
  rewrite port_count_empty, (getitem_Some _ _ _ Hp). cbn.
  rewrite Z.add_0_r, (insert_id _ _ _ Hp), (IH _ Hl'). reflexivity.
Qed.

Lemma tick_raises_on_vmstat cfg w env i st j e :
  In j [14; 15; 3; 4; 5]%nat ->
  field (Py.split (vmstat_output env)) j = Raise e ->
  raises (tick cfg w env i st).
Proof.
  intros Hj He. unfold tick, raises.
  destruct (field (Py.split (vmstat_output env)) 14) eqn:E14; cbn; [|eauto].
  destruct (field (Py.split (vmstat_output env)) 15) eqn:E15; cbn; [|eauto].
  destruct (field (Py.split (vmstat_output env)) 3) eqn:E3; cbn; [|eauto].
  destruct (field (Py.split (vmstat_output env)) 4) eqn:E4; cbn; [|eauto].
  destruct (field (Py.split (vmstat_output env)) 5) eqn:E5; cbn; [|eauto].
  cbn in Hj. destruct Hj as [<-|[<-|[<-|[<-|[<-|[]]]]]]; congruence.
Qed.

Lemma tick_without_netstat cfg w env i st st' smp stop :
  tick cfg w env i st = Ok (st', smp, stop) ->
  exists smp',
    tick cfg w (with_netstat "" env) i st
    = Ok (with_connections (connections st) st', smp', stop) /\
    forall p c, In (p, c) (s_counts smp') -> c = 0.
Proof.
  unfold tick. intros H. ok_inv H. injection H as <- <- <-.
  cbn [vmstat_output memtotal_output net_dev end_time restart_time
       netstat_output minute with_netstat].
  repeat match goal with
  | E : ?m = Ok _ |- context [?m ≫= _] =>
      rewrite (bind_Ok_l _ _ _ E); cbn beta iota
  end.
  match goal with
  | E : (if truthy _ then _ else _) = Ok _ |- _ => rename E into Hp
  end.
  destruct (truthy (CONNECTION_PORTS cfg)).
  - rewrite (port_steps_silent _ _ (port_steps_keys _ _ _ _ _ Hp)).
    cbn. 
    match goal with E : minute_of _ = Ok _ |- _ => rewrite E end.
    cbn. eexists. split; [reflexivity|].
    cbn. intros p c Hin. apply in_map_iff in Hin as (q & Hq & _).
    injection Hq as _ <-. reflexivity.
  - injection Hp as <- <-. cbn.
    match goal with E : minute_of _ = Ok _ |- _ => rewrite E end.
    cbn. eexists. split; [reflexivity|]. cbn. intros p c [].
Qed.

Lemma tick_vmstat_empty cfg w env i st :
  vmstat_output env = "" -> tick cfg w env i st = Raise IndexError.
Proof. intros H. unfold tick. rewrite H. reflexivity. Qed.

(** [int('')] on the MemTotal reading comes after the five fields of the
    [vmstat] line have been parsed. *)
Lemma tick_memtotal_unread cfg w env env' i st r e :
  tick cfg w env i st = Ok r ->
  vmstat_output env' = vmstat_output env ->
  Py.int (memtotal_output env') = Raise e ->
  tick cfg w env' i st = Raise e.
Proof.
  unfold tick. intros H Hv Hm. rewrite Hv. ok_inv H.
  repeat match goal with
  | E : ?m = Ok _ |- context [?m ≫= _] =>
      rewrite (bind_Ok_l _ _ _ E); cbn beta iota
  end.
  rewrite Hm. reflexivity.
Qed.

(** A counter of a listed interface that [int] cannot parse: the pass
    raises whatever the state (if not at that counter, then before it). *)
Lemma nic_steps_raise text td nic line j e l :
  find_line (nic ++ ":") text = Some line ->
  In j [1; 9]%nat ->
  field (Py.split line) j = Raise e ->
  In nic l ->
  forall ns, raises (nic_steps text td ns l).
Proof.
  intros Hl Hj He. induction l as [|n l IH]; intros Hin ns; [destruct Hin|].
  cbn [nic_steps]. unfold raises.
  destruct (nic_step text td ns n) as [[ns1 r]|e1] eqn:Hstep; cbn; [|eauto].
  destruct (decide (n = nic)) as [->|Hne].
  - exfalso. unfold nic_step in Hstep. rewrite Hl in Hstep. ok_inv Hstep.
    cbn in Hj. destruct Hj as [<-|[<-|[]]]; congruence.
  - destruct Hin as [->|Hin]; [contradiction|].
    destruct (IH Hin ns1) as [e2 He2]. rewrite He2. cbn. eauto.
Qed.

Lemma tick_raises_on_counter cfg w env i st nic line j e :
  In nic (network_interfaces_array w) ->
  find_line (nic ++ ":") (net_dev env) = Some line ->
  In j [1; 9]%nat ->
  field (Py.split line) j = Raise e ->
  raises (tick cfg w env i st).
Proof.
  intros Hin Hl Hj He.
  destruct (tick cfg w env i st) as [[[st' smp] stop]|e'] eqn:Ht;
    [|eexists; reflexivity].
  exfalso. unfold tick in Ht. ok_inv Ht.
  match goal with E : nic_steps ?text ?td ?ns _ = Ok _ |- _ =>
    destruct (nic_steps_raise text td nic line j e _ Hl Hj He Hin ns) as [e2 He2];
    congruence
  end.
Qed.

(** A loop that made pass [i + m] reaches it again on a host that answers
    the same before that pass; an exception raised there is the loop's. *)
Lemma collect_loop_reaches cfg w envs envs' :
  forall n i st st' log (m : nat),
    collect_loop cfg w envs n i st = Ok (st', log) ->
    (m < length log)%nat ->
    (forall j, i <= j < i + Z.of_nat m -> envs' j = envs j) ->
    exists s r,
      tick cfg w (envs (i + Z.of_nat m)) (i + Z.of_nat m) s = Ok r /\
      forall e,
        tick cfg w (envs' (i + Z.of_nat m)) (i + Z.of_nat m) s = Raise e ->
        collect_loop cfg w envs' n i st = Raise e.
Proof.
  induction n as [|n IH]; intros i st st' log m H Hm Hsame.
  - injection H as <- <-. cbn in Hm. lia.
  - cbn [collect_loop] in H.
    destruct (tick cfg w (envs i) i st) as [[[st1 smp] stop]|e0] eqn:Ht;
      [|discriminate].
    cbn in H. destruct m as [|m].
    + rewrite Z.add_0_r. exists st, (st1, smp, stop). split; [exact Ht|].
      intros e He. cbn [collect_loop]. rewrite He. reflexivity.
    + destruct stop.
      { injection H as <- <-. cbn in Hm. lia. }
      ok_inv H. injection H as <- <-. cbn [length] in Hm.
      match goal with E : collect_loop _ _ _ _ _ _ = Ok _ |- _ =>
        destruct (IH _ _ _ _ m E) as (s & r & Hr & Hraise); [lia | |]
      end.
      { intros j Hj. apply Hsame. lia. }
      replace (i + 1 + Z.of_nat m) with (i + Z.of_nat (S m)) in Hr, Hraise by lia.
      exists s, r. split; [exact Hr|].
      intros e He. cbn [collect_loop].
      rewrite (Hsame i) by lia. rewrite Ht. cbn.
      rewrite (Hraise e He). reflexivity.
Qed.

(** C5. The loop has no handler around its reads.  Take a window that
    completes, and a host that answers the same until pass [k], a pass the
    window makes.  If the [vmstat] read of pass [k] fails ([run_command]
    gives the empty string), the run ends there with [IndexError]; a
    [vmstat] line with a missing or non-numeric field ends it too; and so
    do a MemTotal reading that [int] cannot parse and a byte counter of a
    listed interface that [int] cannot parse.  No state and no sample come
    back: the pass adds no zero, and the window does not go on.
    The [netstat] read of the same pass is guarded: had it failed, the pass
    would have returned the same state with a count of 0 for every port and
    the same decision on leaving the loop. *)
Theorem failed_read_aborts_window cfg w envs envs' rt st0 st log k :
  collect_data cfg w envs rt st0 = Ok (st, log) ->
  1 <= k <= Z.of_nat (length log) ->
  (forall j, 1 <= j < k -> envs' j = envs j) ->
  (vmstat_output (envs' k) = "" ->
   collect_data cfg w envs' rt st0 = Raise IndexError) /\
  (forall j e,
     In j [14; 15; 3; 4; 5]%nat ->
     field (Py.split (vmstat_output (envs' k))) j = Raise e ->
     raises (collect_data cfg w envs' rt st0)) /\
  (forall e,
     vmstat_output (envs' k) = vmstat_output (envs k) ->
     Py.int (memtotal_output (envs' k)) = Raise e ->
     collect_data cfg w envs' rt st0 = Raise e) /\
  (forall nic line j e,
     In nic (network_interfaces_array w) ->
     find_line (nic ++ ":") (net_dev (envs' k)) = Some line ->
     In j [1; 9]%nat ->
     field (Py.split line) j = Raise e ->
     raises (collect_data cfg w envs' rt st0)) /\
  (forall s s' smp stop,
     tick cfg w (envs k) k s = Ok (s', smp, stop) ->
     exists smp',
       tick cfg w (with_netstat "" (envs k)) k s
       = Ok (with_connections (connections s) s', smp', stop) /\
       forall p c, In (p, c) (s_counts smp') -> c = 0).
Proof.
  intros H Hk Hsame. unfold collect_data in *.
  destruct (collect_loop_reaches cfg w envs envs' _ _ _ _ _
              (Z.to_nat (k - 1)) H) as (s & r & Hr & Hraise); [lia | |].
  { intros j Hj. apply Hsame. lia. }
  replace (1 + Z.of_nat (Z.to_nat (k - 1))) with k in Hr, Hraise by lia.
  split; [|split; [|split; [|split]]].
  - intros Hv. apply Hraise. apply tick_vmstat_empty. exact Hv.
  - intros j e Hj He.
    destruct (tick_raises_on_vmstat cfg w (envs' k) k s j e Hj He) as [e' He'].
    exists e'. apply Hraise. exact He'.
  - intros e Hv Hm. apply Hraise.
    apply (tick_memtotal_unread cfg w (envs k) (envs' k) k s r e Hr Hv Hm).
  - intros nic line j e Hin Hl Hj He.
    destruct (tick_raises_on_counter cfg w (envs' k) k s nic line j e
                Hin Hl Hj He) as [e' He'].
    exists e'. apply Hraise. exact He'.
  - intros s1 s' smp stop Ht.
    apply (tick_without_netstat _ _ _ _ _ _ _ _ Ht).
Qed.

Lemma failed_read_aborts_window_witness :
  exists w st0 st log,
    setup shipped_settings host_boot = Ok (w, st0) /\
    collect_data shipped_settings w (host_tick 5) run_times st0 = Ok (st, log) /\
    length log = 5%nat /\
    (forall j, j <> 3 -> flaky_tick j = host_tick 5 j) /\
    vmstat_output (flaky_tick 3) = "" /\
    collect_data shipped_settings w flaky_tick run_times st0 = Raise IndexError.
Proof.
  destruct host_run_five as (w & st0 & st & log & Hs & Hc & Hlen & _).
  assert (Hsame : forall j, j <> 3 -> flaky_tick j = host_tick 5 j).
  { intros j Hj. unfold flaky_tick, host_tick.
    destruct (Z.eqb_spec j 3); [contradiction | reflexivity]. }
  exists w, st0, st, log.
  split; [exact Hs|]. split; [exact Hc|]. split; [exact Hlen|].
  split; [exact Hsame|]. split; [reflexivity|].
  assert (Hk : 1 <= 3 <= Z.of_nat (length log))
    by (rewrite Hlen; split; discriminate).
  assert (Hbefore : forall j, 1 <= j < 3 -> flaky_tick j = host_tick 5 j)
    by (intros j Hj; apply Hsame; lia).
  apply (proj1 (failed_read_aborts_window shipped_settings w (host_tick 5)
                  flaky_tick run_times st0 st log 3 Hc Hk Hbefore)).
  reflexivity.
Defined.

(** ** Escaping of base64 text *)

Lemma lacks_app c s t : lacks c s -> lacks c t -> lacks c (s ++ t).
Proof.
  intros Hs Ht. induction s as [|d s IH]; [exact Ht|].
  destruct Hs as [Hd Hs]. change (lacks c (String d (s ++ t))).
  split; auto.
Qed.

Lemma replace_lacks c by_ s : lacks c by_ -> lacks c (Py.replace c by_ s).
Proof.
  intros Hb. induction s as [|d s IH]; cbn; [exact I|].
  destruct (Ascii.eqb_spec d c) as [->|Hne].
  - apply lacks_app; assumption.
  - cbn. auto.
Qed.

Lemma replace_keeps_lacks c d by_ s :
  lacks c s -> lacks c by_ -> lacks c (Py.replace d by_ s).
Proof.
  intros Hs Hb. induction s as [|x s IH]; cbn; [exact I|].
  destruct Hs as [Hx Hs]. destruct (Ascii.eqb_spec x d) as [->|Hne].
  - apply lacks_app; auto.
  - cbn. auto.
Qed.

(** Whatever goes through [base64_prep] leaves without [+] and [/]. *)
Lemma base64_prep_escapes s :
  lacks "+" (base64_prep s) /\ lacks "/" (base64_prep s).
Proof.
  unfold base64_prep. split.
  - apply replace_keeps_lacks.
    + apply replace_lacks. cbn. repeat split; discriminate.
    + cbn. repeat split; discriminate.
  - apply replace_lacks. cbn. repeat split; discriminate.
Qed.

Lemma compress_and_encode_escapes gzip_compress data :
  lacks "+" (compress_and_encode gzip_compress data) /\
  lacks "/" (compress_and_encode gzip_compress data).
Proof. apply base64_prep_escapes. Qed.

Lemma conn_data_escapes conn_text :
  lacks "+" (conn_data conn_text) /\ lacks "/" (conn_data conn_text).
Proof. apply base64_prep_escapes. Qed.

(** C6, evaluated. [os_encoded] is plain base64: for a Debian host whose
    kernel release holds a [~] the field carries a raw [+], which
    [base64_prep] would have turned into [%2B], as it does for
    [conn_data] and for every gzip field. *)
Theorem os_encoded_keeps_raw_plus :
  os_encoded "Debian GNU/Linux 11 (bullseye)" "6.1.0-0.deb11.13~bpo-amd64" false
  = "RGViaWFuIEdOVS9MaW51eCAxMSAoYnVsbHNleWUpfDYuMS4wLTAuZGViMTEuMTN+YnBvLWFtZDY0fDA=" /\
  ~ lacks "+" (os_encoded "Debian GNU/Linux 11 (bullseye)"
                 "6.1.0-0.deb11.13~bpo-amd64" false) /\
  base64_prep (os_encoded "Debian GNU/Linux 11 (bullseye)"
                 "6.1.0-0.deb11.13~bpo-amd64" false)
  = "RGViaWFuIEdOVS9MaW51eCAxMSAoYnVsbHNleWUpfDYuMS4wLTAuZGViMTEuMTN%2BYnBvLWFtZDY0fDA=" /\
  io_result (service_status world_running "a?")
  = Ok "YT8=,1" /\
  io_result (service_status world_running "ab?")
  = Ok "YWI/,1".
Proof.
  split; [vm_compute; reflexivity|].
  split.
  { vm_compute. intuition congruence. }
  split; [vm_compute; reflexivity|].
  split; vm_compute; reflexivity.
Qed.

(** ** Round trip of an encoded field *)

Lemma b64_index_char (n : N) :
  (n < 64)%N ->
  b64_index (b64_char n) = Some n /\
  is_pad (b64_char n) = false /\
  b64_char n <> "%"%char.
Proof.
  intros Hn.
  assert (E : exists k : nat, (k < 64)%nat /\ n = N.of_nat k).
  { exists (N.to_nat n). split; lia. }
  destruct E as (k & Hk & ->). clear Hn.
  do 64 (destruct k as [|k]; [repeat split; discriminate|]).
  lia.
Qed.

(** Strings three characters at a time. *)
Lemma string_by_threes (P : string -> Prop) :
  P "" ->
  (forall a, P (String a "")) ->
  (forall a b, P (String a (String b ""))) ->
  (forall a b c r, P r -> P (String a (String b (String c r)))) ->
  forall s, P s.
Proof.
  intros H0 H1 H2 H3 s.
  enough (P s /\ (forall a, P (String a s)) /\
          (forall a b, P (String a (String b s)))) by tauto.
  induction s as [|c s (IH0 & IH1 & IH2)]; [auto|].
  split; [apply IH1|]. split; [intros a; apply IH2|].
  intros a b. apply H3. exact IH0.
Qed.

Lemma byte_bound (a : ascii) : (N_of_ascii a < 256)%N.
Proof. destruct a as [[] [] [] [] [] [] [] []]; reflexivity. Qed.

Lemma ascii_back (a : ascii) (n : N) : n = N_of_ascii a -> ascii_of_N n = a.
Proof. intros ->. apply ascii_N_embedding. Qed.

(** Linear arithmetic over [N] with division by constants. *)
Ltac n_arith := zify; Z.to_euclidean_division_equations; lia.

Lemma b64decode_b64encode (s : string) : b64decode (b64encode s) = Some s.
Proof.
  induction s as [|a|a b|a b c r IH] using string_by_threes.
  - reflexivity.
  - cbn [b64encode b64decode].
    pose proof (byte_bound a) as Ha.
    destruct (b64_index_char (N_of_ascii a / 4)) as (-> & _ & _); [n_arith|].
    destruct (b64_index_char (N_of_ascii a mod 4 * 16)) as (-> & _ & _);
      [n_arith|].
    cbn. repeat f_equal; apply ascii_back; n_arith.
  - cbn [b64encode b64decode].
    pose proof (byte_bound a) as Ha. pose proof (byte_bound b) as Hb.
    destruct (b64_index_char (N_of_ascii a / 4)) as (-> & _ & _); [n_arith|].
    destruct (b64_index_char (N_of_ascii a mod 4 * 16 + N_of_ascii b / 16))
      as (-> & _ & _); [n_arith|].
    destruct (b64_index_char (N_of_ascii b mod 16 * 4)) as (-> & -> & _);
      [n_arith|].
    cbn. repeat f_equal; apply ascii_back; n_arith.
  - cbn [b64encode b64decode].
    pose proof (byte_bound a) as Ha. pose proof (byte_bound b) as Hb.
    pose proof (byte_bound c) as Hc.
    destruct (b64_index_char (N_of_ascii a / 4)) as (-> & _ & _); [n_arith|].
    destruct (b64_index_char (N_of_ascii a mod 4 * 16 + N_of_ascii b / 16))
      as (-> & _ & _); [n_arith|].
    destruct (b64_index_char (N_of_ascii b mod 16 * 4 + N_of_ascii c / 64))
      as (-> & -> & _); [n_arith|].
    destruct (b64_index_char (N_of_ascii c mod 64)) as (-> & -> & _);
      [n_arith|].
    cbn. rewrite IH. cbn. repeat f_equal; apply ascii_back; n_arith.
Qed.

Lemma base64_prep_cons (c : ascii) (r : string) :
  base64_prep (String c r)
  = if Ascii.eqb c "+" then String "%" (String "2" (String "B" (base64_prep r)))
    else if Ascii.eqb c "/"
         then String "%" (String "2" (String "F" (base64_prep r)))
         else String c (base64_prep r).
Proof.
  unfold base64_prep. cbn [Py.replace].
  destruct (Ascii.eqb_spec c "+") as [->|Hplus].
  - reflexivity.
  - cbn [Py.replace]. destruct (Ascii.eqb c "/"); reflexivity.
Qed.

Lemma unescape_base64_prep (s : string) :
  lacks "%" s -> unescape (base64_prep s) = s.
Proof.
  induction s as [|c r IH]; [reflexivity|].
  intros [Hc Hr]. rewrite base64_prep_cons.
  destruct (Ascii.eqb_spec c "+") as [->|Hplus].
  - cbn. rewrite (IH Hr). reflexivity.
  - destruct (Ascii.eqb_spec c "/") as [->|Hslash].
    + cbn. rewrite (IH Hr). reflexivity.
    + cbn [unescape]. destruct (Ascii.eqb_spec c "%") as [->|_];
        [contradiction|]. rewrite (IH Hr). reflexivity.
Qed.

Lemma b64encode_lacks_percent (s : string) : lacks "%" (b64encode s).
Proof.
  induction s as [|a|a b|a b c r IH] using string_by_threes;
    cbn [b64encode lacks]; [exact I| | |].
  - pose proof (byte_bound a).
    repeat split; try discriminate; apply b64_index_char; n_arith.
  - pose proof (byte_bound a). pose proof (byte_bound b).
    repeat split; try discriminate; apply b64_index_char; n_arith.
  - pose proof (byte_bound a). pose proof (byte_bound b).
    pose proof (byte_bound c).
    repeat split; try exact IH; apply b64_index_char; n_arith.
Qed.

(** [conn_data] read back: unescape, then base64-decode. *)
Lemma conn_data_roundtrip (conn_text : string) :
  b64decode (unescape (conn_data conn_text)) = Some conn_text.
Proof.
  unfold conn_data.
  rewrite unescape_base64_prep by apply b64encode_lacks_percent.
  apply b64decode_b64encode.
Qed.

Section Roundtrip.

Variable gzip_compress : string -> string.

Variable gzip_decompress : string -> string.

Hypothesis gunzip_gzip : forall data, gzip_decompress (gzip_compress data) = data.

Lemma compress_and_encode_roundtrip (data : string) :
  decode_field gzip_decompress (compress_and_encode gzip_compress data)
  = Some data.
Proof.
  unfold decode_field, compress_and_encode.
  rewrite unescape_base64_prep by apply b64encode_lacks_percent.
  rewrite b64decode_b64encode. cbn. f_equal. apply gunzip_gzip.
Qed.

End Roundtrip.

(** The round trip on a field, with a compressor that stores its input. *)
Example stored_field_roundtrip :
  compress_and_encode (fun d => d) ">>>???" = "Pj4%2BPz8%2F" /\
  decode_field (fun d => d) "Pj4%2BPz8%2F" = Some ">>>???".
Proof. split; reflexivity. Qed.

(** * Further properties of the agent *)

(** ** base64 text and the delimiters of the report *)

(** A character outside the base64 alphabet, other than the padding, does
    not occur in base64 text. *)
Lemma b64encode_lacks (ch : ascii) (s : string) :
  b64_index ch = None -> ch <> "="%char -> lacks ch (b64encode s).
Proof.
  intros Hidx Hpad.
  assert (Hchar : forall n, (n < 64)%N -> b64_char n <> ch).
  { intros n Hn Heq. destruct (b64_index_char n Hn) as (Hi & _).
    rewrite Heq, Hidx in Hi. discriminate. }
  assert (Hp : "="%char <> ch) by congruence.
  induction s as [|a|a b|a b c r IH] using string_by_threes;
    cbn [b64encode lacks]; [exact I| | |].
  - pose proof (byte_bound a).
    repeat split; try exact Hp; apply Hchar; n_arith.
  - pose proof (byte_bound a). pose proof (byte_bound b).
    repeat split; try exact Hp; apply Hchar; n_arith.
  - pose proof (byte_bound a). pose proof (byte_bound b).
    pose proof (byte_bound c).
    repeat split; try exact IH; apply Hchar; n_arith.
Qed.

Lemma lacks_app_inv c s t : lacks c (s ++ t) -> lacks c s /\ lacks c t.
Proof.
  induction s as [|d s IH]; [cbn; auto|].
  change (lacks c (String d (s ++ t)) -> lacks c (String d s) /\ lacks c t).
  cbn. intros [Hd Hst]. destruct (IH Hst). auto.
Qed.

(** Every string [service_status] returns is the base64 text of the name,
    a comma and one status digit. *)
Lemma service_status_shape (w : world) (service_name r : string) :
  io_result (service_status w service_name) = Ok r ->
  r = b64encode service_name ++ ",1" \/ r = b64encode service_name ++ ",0".
Proof.
  unfold service_status, run_command, os_path_exists, subprocess_returncode.
  unfold mbind, io_bind, mret, io_ret, lift_result. cbn [io_result io_trace].
  destruct (truthy (shell_output w (ps_command service_name)));
    cbn [io_result io_trace].
  - destruct (Py.int (shell_output w (ps_command service_name))) as [n|e];
      cbn [io_result io_trace]; [|discriminate].
    destruct (0 <? n)%Z; cbn [io_result io_trace].
    + intros H. injection H as <-. auto.
    + destruct (path_present w "/usr/bin/systemctl"); cbn [io_result io_trace];
        [|destruct (path_present w "/bin/systemctl"); cbn [io_result io_trace]];
        try (destruct (subprocess_run w (systemctl_argv service_name)) as [rc|e];
             cbn [io_result io_trace]; [destruct (rc =? 0)%Z|discriminate]);
        cbn [io_result io_trace]; intros H; injection H as <-; auto.
  - destruct (path_present w "/usr/bin/systemctl"); cbn [io_result io_trace];
      [|destruct (path_present w "/bin/systemctl"); cbn [io_result io_trace]];
      try (destruct (subprocess_run w (systemctl_argv service_name)) as [rc|e];
           cbn [io_result io_trace]; [destruct (rc =? 0)%Z|discriminate]);
      cbn [io_result io_trace]; intros H; injection H as <-; auto.
Qed.

(** X1. The base64 fields that are not escaped cannot break the framing of
    the report: [os_encoded], [cpu_model_encoded] and [cpu_speed_encoded]
    hold no [|], and what [service_status] returns holds no [|] and no
    [;], whatever the host names contain. *)
Theorem plain_base64_fields_keep_framing :
  (forall os_info kernel_version requires_reboot,
     lacks "|" (os_encoded os_info kernel_version requires_reboot)) /\
  (forall cpu_model, lacks "|" (cpu_model_encoded cpu_model)) /\
  (forall cpu_speed, lacks "|" (cpu_speed_encoded cpu_speed)) /\
  (forall w service_name r,
     io_result (service_status w service_name) = Ok r ->
     lacks "|" r /\ lacks ";" r).
Proof.
  split; [|split; [|split]].
  - intros. apply b64encode_lacks; [reflexivity | discriminate].
  - intros. apply b64encode_lacks; [reflexivity | discriminate].
  - intros. apply b64encode_lacks; [reflexivity | discriminate].
  - intros w name r H.
    destruct (service_status_shape _ _ _ H) as [-> | ->];
      split; apply lacks_app;
      try (apply b64encode_lacks; [reflexivity | discriminate]);
      cbn; repeat split; discriminate.
Qed.

Lemma plain_base64_fields_keep_framing_witness :
  lacks "|" "YWJ8Y2Q=,1" /\ lacks ";" "YWJ8Y2Q=,1".
Proof.
  apply (proj2 (proj2 (proj2 plain_base64_fields_keep_framing))
           world_running "ab|cd").
  reflexivity.
Defined.

(** X2. [base64_prep] can be undone on text without [%]: replacing [%2B]
    by [+] and [%2F] by [/] gives the text back. *)
Theorem base64_prep_undone (s : string) :
  lacks "%" s -> unescape (base64_prep s) = s.
Proof. apply unescape_base64_prep. Qed.

Lemma base64_prep_undone_witness :
  unescape (base64_prep "a+b/c") = "a+b/c".
Proof.
  apply base64_prep_undone. cbn. repeat split; discriminate.
Defined.

(** X3. Whatever [base64_prep] returns holds neither [+] nor [/]. *)
Theorem base64_prep_output_escaped (s : string) :
  lacks "+" (base64_prep s) /\ lacks "/" (base64_prep s).
Proof. apply base64_prep_escapes. Qed.

(** X4. A field made by [compress_and_encode] is read back by undoing the
    escaping, base64-decoding and decompressing, for any compressor that
    has an inverse; and the field holds neither [+] nor [/]. *)
Theorem compress_and_encode_read_back
    (gzip_compress gzip_decompress : string -> string) (data : string) :
  (forall d, gzip_decompress (gzip_compress d) = d) ->
  decode_field gzip_decompress (compress_and_encode gzip_compress data)
  = Some data /\
  lacks "+" (compress_and_encode gzip_compress data) /\
  lacks "/" (compress_and_encode gzip_compress data).
Proof.
  intros Hinv. split.
  - apply compress_and_encode_roundtrip. exact Hinv.
  - apply compress_and_encode_escapes.
Qed.

Lemma compress_and_encode_read_back_witness :
  decode_field (fun d => d) (compress_and_encode (fun d => d) ">>>???")
  = Some ">>>???".
Proof.
  apply (compress_and_encode_read_back (fun d => d) (fun d => d) ">>>???").
  reflexivity.
Defined.

(** X5. [conn_data] is read back by undoing the escaping and
    base64-decoding, and holds neither [+] nor [/]. *)
Theorem conn_data_read_back (conn_text : string) :
  b64decode (unescape (conn_data conn_text)) = Some conn_text /\
  lacks "+" (conn_data conn_text) /\ lacks "/" (conn_data conn_text).
Proof.
  split; [apply conn_data_roundtrip | apply conn_data_escapes].
Qed.

(** ** Housekeeping before the timers *)

Lemma split_empty : Py.split "" = [].
Proof. reflexivity. Qed.

(** X6. [kill_lingering_processes] never raises, and it runs the kill
    pipeline exactly when the first field of the [ps] summary is an integer
    above 300; an unreadable count kills nothing. *)
Theorem kill_lingering_processes_guarded (w : world) :
  io_result (kill_lingering_processes w) = Ok tt /\
  (In (CallRunCommand lingering_kill_command)
      (io_trace (kill_lingering_processes w)) <->
   exists first rest count,
     Py.split (shell_output w lingering_ps_command) = first :: rest /\
     Py.int_opt first = Some count /\ 300 < count).
Proof.
  split; [reflexivity|].
  unfold kill_lingering_processes, try_pass, run_command.
  unfold mbind, io_bind, mret, io_ret, lift_result. cbn [io_result io_trace].
  destruct (shell_output w lingering_ps_command) as [|c s] eqn:Hout.
  { cbn. split.
    - intros [H|[]]. discriminate.
    - intros (f & r & n & Hs & _). discriminate. }
  cbn [truthy]. unfold Py.item.
  destruct (Py.split (String c s)) as [|f r] eqn:Hs; cbn [lookup list_lookup io_result io_trace app].
  { split.
    - intros [H|[]]. discriminate.
    - intros (f & r & n & Hs' & _). discriminate. }
  unfold Py.int. destruct (Py.int_opt f) as [n|] eqn:Hi; cbn [io_result io_trace app].
  - destruct (Z.ltb_spec 300 n) as [Hlt|Hle]; cbn [io_result io_trace app].
    + split; [|intros _; right; left; reflexivity].
      intros _. exists f, r, n. auto.
    + split.
      * intros [H|[]]. discriminate.
      * intros (f' & r' & n' & Hs' & Hi' & Hlt).
        injection Hs' as <- <-. rewrite Hi in Hi'. injection Hi' as <-. lia.
  - split.
    + intros [H|[]]. discriminate.
    + intros (f' & r' & n' & Hs' & Hi' & _).
      injection Hs' as <- <-. congruence.
Qed.

Lemma kill_lingering_processes_guarded_witness :
  In (CallRunCommand lingering_kill_command)
     (io_trace (kill_lingering_processes world_crowded)) /\
  ~ In (CallRunCommand lingering_kill_command)
       (io_trace (kill_lingering_processes world_running)).
Proof.
  split.
  - apply (proj2 (kill_lingering_processes_guarded world_crowded)).
    exists "301", ["hetrixtools"], 301. repeat split; reflexivity.
  - intros H. apply (proj2 (kill_lingering_processes_guarded world_running)) in H.
    destruct H as (f & r & n & Hs & Hi & Hlt).
    injection Hs as <- <-. injection Hi as <-. discriminate Hlt.
Defined.

(** ** Services field *)

Lemma split_on_nonempty sep s : Py.split_on sep s <> [].
Proof.
  destruct s as [|c s]; cbn; [discriminate|].
  destruct (Ascii.eqb c sep); [discriminate|].
  destruct (Py.split_on sep s); discriminate.
Qed.

Lemma split_on_record sep r :
  lacks sep r -> Py.split_on sep (r ++ String sep "") = [r; ""].
Proof.
  induction r as [|c r IH]; intros Hr.
  - change (Py.split_on sep (String sep "") = [""; ""]).
    cbn [Py.split_on]. rewrite Ascii.eqb_refl. reflexivity.
  - destruct Hr as [Hc Hr].
    change (Py.split_on sep (String c (r ++ String sep "")) = [String c r; ""]).
    cbn [Py.split_on]. destruct (Ascii.eqb_spec c sep) as [->|_];
      [contradiction|]. rewrite (IH Hr). reflexivity.
Qed.

(** Appending one more record to text made of records. *)
Lemma split_on_snoc_record sep r acc : forall recs : list string,
  lacks sep r ->
  Py.split_on sep acc = (recs ++ [""])%list ->
  Py.split_on sep (acc ++ (r ++ String sep "")) = ((recs ++ [r]) ++ [""])%list.
Proof.
  induction acc as [|c a IH]; intros recs Hr Hacc.
  - cbn in Hacc. destruct recs as [|x recs]; [|destruct recs; discriminate].
    change (Py.split_on sep (r ++ String sep "") = [r; ""]).
    apply split_on_record. exact Hr.
  - change (Py.split_on sep (String c (a ++ (r ++ String sep "")))
            = ((recs ++ [r]) ++ [""])%list).
    cbn [Py.split_on] in *. destruct (Ascii.eqb c sep).
    + destruct recs as [|x recs].
      * injection Hacc as Hacc. exfalso. exact (split_on_nonempty _ _ Hacc).
      * injection Hacc as <- Hacc. rewrite (IH recs Hr Hacc). reflexivity.
    + destruct (Py.split_on sep a) as [|w0 ws] eqn:Ha.
      { exfalso. exact (split_on_nonempty _ _ Ha). }
      destruct recs as [|x recs].
      * injection Hacc as Hw _. discriminate.
      * injection Hacc as <- ->.
        rewrite (IH (w0 :: recs) Hr eq_refl). reflexivity.
Qed.

Lemma check_services_loop_records w l : forall acc (recs : list string) out,
  Py.split_on ";" acc = (recs ++ [""])%list ->
  io_result (check_services_loop w acc l) = Ok out ->
  exists news : list string,
    Py.split_on ";" out = ((recs ++ news) ++ [""])%list /\
    Forall2 (fun name r => r = b64encode name ++ ",1"
                           \/ r = b64encode name ++ ",0") l news.
Proof.
  induction l as [|name l IH]; intros acc recs out Hacc H.
  - cbn in H. injection H as <-. exists []. rewrite app_nil_r. auto.
  - cbn [check_services_loop] in H. unfold mbind, io_bind in H.
    destruct (io_result (service_status w name)) as [r|e] eqn:Hr;
      cbn [io_result] in H; [|discriminate].
    assert (Hsemi : lacks ";" r).
    { destruct (service_status_shape _ _ _ Hr) as [-> | ->];
        apply lacks_app;
        try (apply b64encode_lacks; [reflexivity | discriminate]);
        cbn; repeat split; discriminate. }
    destruct (IH _ (recs ++ [r])%list out
                (split_on_snoc_record ";" r acc recs Hsemi Hacc) H)
      as (news & Hout & Hall).
    exists (r :: news). split.
    + rewrite Hout, <- (app_assoc recs [r] news). reflexivity.
    + constructor; [apply (service_status_shape _ _ _ Hr) | exact Hall].
Qed.

(** X7. When every service check returns, the services field splits on [;]
    into exactly one record per configured name, in order, followed by the
    empty tail; each record is the base64 name, a comma and a status digit.
    No limit on the number of names is applied. *)
Theorem services_field_records (w : world) (CHECK_SERVICES out : string) :
  io_result (service_status_string w CHECK_SERVICES) = Ok out ->
  exists records : list string,
    Py.split_on ";" out = (records ++ [""])%list /\
    Forall2 (fun name r => r = b64encode name ++ ",1"
                           \/ r = b64encode name ++ ",0")
      (if truthy CHECK_SERVICES then Py.split_on "," CHECK_SERVICES else [])
      records.
Proof.
  unfold service_status_string. intros H.
  destruct (truthy CHECK_SERVICES).
  - destruct (check_services_loop_records w _ "" [] out eq_refl H)
      as (news & Hout & Hall).
    exists news. auto.
  - injection H as <-. exists []. split; [reflexivity | constructor].
Qed.

Lemma services_field_records_witness :
  exists records : list string,
    Py.split_on ";" "c3No,1;bmdpbng=,1;" = (records ++ [""])%list /\
    length records = 2%nat.
Proof.
  destruct (services_field_records world_running "ssh,nginx"
              "c3No,1;bmdpbng=,1;" eq_refl) as (records & Hs & Hall).
  exists records. split; [exact Hs|].
  apply Forall2_length in Hall. symmetry. exact Hall.
Defined.

(** ** Running processes *)

Lemma rev_onto_spaceless s : forall acc,
  spaceless s -> spaceless acc -> spaceless (Py.rev_onto s acc).
Proof.
  induction s as [|c s IH]; intros acc Hs Ha; [exact Ha|].
  destruct Hs as [Hc Hs]. cbn [Py.rev_onto]. apply IH; [exact Hs|].
  split; assumption.
Qed.

Lemma rev_onto_twice s : forall a b,
  Py.rev_onto (Py.rev_onto s a) b = Py.rev_onto a (s ++ b).
Proof.
  induction s as [|c s IH]; intros a b; [reflexivity|].
  cbn [Py.rev_onto]. rewrite IH. reflexivity.
Qed.

Lemma append_empty_r (s : string) : s ++ "" = s.
Proof.
  induction s as [|c s IH]; [reflexivity|].
  change (String c (s ++ "") = String c s). rewrite IH. reflexivity.
Qed.

Lemma lstrip_spaceless s : spaceless s -> Py.lstrip s = s.
Proof.
  destruct s as [|c s]; [reflexivity|]. intros [Hc _].
  cbn [Py.lstrip]. rewrite Hc. reflexivity.
Qed.

(** Stripping changes nothing in text without white space. *)
Lemma strip_spaceless s : spaceless s -> Py.strip s = s.
Proof.
  intros Hs. unfold Py.strip, Py.rev.
  rewrite (lstrip_spaceless s Hs).
  rewrite lstrip_spaceless by (apply rev_onto_spaceless; [exact Hs | exact I]).
  rewrite rev_onto_twice. cbn [Py.rev_onto]. apply append_empty_r.
Qed.

Lemma spaceless_app s t : spaceless s -> spaceless t -> spaceless (s ++ t).
Proof.
  intros Hs Ht. induction s as [|c s IH]; [exact Ht|].
  destruct Hs as [Hc Hs]. change (spaceless (String c (s ++ t))).
  split; auto.
Qed.

Lemma replace_spaceless c by_ s :
  spaceless by_ -> spaceless s -> spaceless (Py.replace c by_ s).
Proof.
  intros Hb. induction s as [|d s IH]; intros Hs; [exact I|].
  destruct Hs as [Hd Hs]. cbn [Py.replace]. destruct (Ascii.eqb d c).
  - apply spaceless_app; auto.
  - split; auto.
Qed.

Lemma b64_char_spaceless (n : N) : (n < 64)%N -> Py.isspace (b64_char n) = false.
Proof.
  intros Hn.
  assert (E : exists k : nat, (k < 64)%nat /\ n = N.of_nat k).
  { exists (N.to_nat n). split; lia. }
  destruct E as (k & Hk & ->). clear Hn.
  do 64 (destruct k as [|k]; [reflexivity|]).
  lia.
Qed.

Lemma b64encode_spaceless (s : string) : spaceless (b64encode s).
Proof.
  induction s as [|a|a b|a b c r IH] using string_by_threes;
    cbn [b64encode spaceless]; [exact I| | |].
  - pose proof (byte_bound a).
    repeat split; try reflexivity; apply b64_char_spaceless; n_arith.
  - pose proof (byte_bound a). pose proof (byte_bound b).
    repeat split; try reflexivity; apply b64_char_spaceless; n_arith.
  - pose proof (byte_bound a). pose proof (byte_bound b).
    pose proof (byte_bound c).
    repeat split; try exact IH; apply b64_char_spaceless; n_arith.
Qed.

Lemma compress_and_encode_spaceless gzip_compress data :
  spaceless (compress_and_encode gzip_compress data).
Proof.
  unfold compress_and_encode, base64_prep.
  apply replace_spaceless; [cbn; auto|].
  apply replace_spaceless; [cbn; auto|].
  apply b64encode_spaceless.
Qed.

(** X8. With [RUNNING_PROCESSES] on, the snapshot a run reports as current
    is exactly what the next run reports as previous: the file written by
    one run is read back unchanged by the next.  A first run (no file)
    reports an empty previous snapshot; with the setting off nothing is
    reported and the file is left alone. *)
Theorem running_processes_handoff
    (gzip_compress : string -> string) (flag : Z)
    (file : option string) (ps_first ps_next : string) :
  0 < flag ->
  let '(rps1, rps2, file') :=
    running_processes gzip_compress flag file ps_first in
  let '(rps1', rps2', file'') :=
    running_processes gzip_compress flag file' ps_next in
  rps1' = rps2 /\
  file' = Some rps2 /\
  rps2 = compress_and_encode gzip_compress ps_first /\
  (file = None -> rps1 = "") /\
  running_processes gzip_compress 0 file ps_first = ("", "", file).
Proof.
  intros Hflag. unfold running_processes.
  destruct (Z.ltb_spec 0 flag) as [_|Hle]; [|lia].
  split; [apply strip_spaceless, compress_and_encode_spaceless|].
  split; [reflexivity|]. split; [reflexivity|].
  split; [intros ->; reflexivity | reflexivity].
Qed.

Lemma running_processes_handoff_witness :
  let '(rps1, rps2, file') :=
    running_processes (fun d => d) 1 None "1 0 0 root init" in
  let '(rps1', _, _) :=
    running_processes (fun d => d) 1 file' "1 0 0 root init" in
  rps1 = "" /\ rps1' = rps2.
Proof.
  pose proof (running_processes_handoff (fun d => d) 1 None
                "1 0 0 root init" "1 0 0 root init" eq_refl) as H.
  destruct (running_processes (fun d => d) 1 None "1 0 0 root init")
    as [[rps1 rps2] file'].
  destruct (running_processes (fun d => d) 1 file' "1 0 0 root init")
    as [[rps1' rps2'] file''].
  destruct H as (H1 & _ & _ & H4 & _). split; [apply H4; reflexivity | exact H1].
Defined.

(** ** Leaving the loop, in general *)

Lemma collect_loop_stop_law cfg w envs n : forall i st st' log,
  collect_loop cfg w envs n i st = Ok (st', log) ->
  (forall j : nat, (S j < length log)%nat ->
     exists MM, minute_of (minute (envs (i + Z.of_nat j))) = Ok MM /\ MM <= M w) /\
  ((length log < n)%nat ->
     exists MM,
       minute_of (minute (envs (i + Z.of_nat (length log) - 1))) = Ok MM /\
       M w < MM).
Proof.
  induction n as [|n IH]; intros i st st' log H.
  - cbn in H. injection H as <- <-. cbn. split; intros; lia.
  - cbn [collect_loop] in H. apply bind_Ok in H.
    destruct H as ([[st1 smp] stop] & Et & H).
    destruct (tick_stop_flag _ _ _ _ _ _ _ _ Et) as (MM & Hmm & ->).
    destruct (Z.ltb_spec (M w) MM) as [Hlt|Hle].
    + injection H as <- <-. cbn [length]. split; [intros; lia|].
      intros _. exists MM. replace (i + Z.of_nat 1 - 1) with i by lia. auto.
    + apply bind_Ok in H. destruct H as ([st2 smps] & El & H).
      injection H as <- <-. destruct (IH _ _ _ _ El) as [IH1 IH2].
      cbn [length]. split.
      * intros [|j] Hj.
        -- exists MM. replace (i + Z.of_nat 0) with i by lia. auto.
        -- destruct (IH1 j) as (MM' & Hm' & Hle'); [lia|].
           exists MM'. replace (i + Z.of_nat (S j)) with (i + 1 + Z.of_nat j) by lia.
           auto.
      * intros Hlen. destruct IH2 as (MM' & Hm' & Hlt'); [lia|].
        exists MM'.
        replace (i + Z.of_nat (S (length smps)) - 1)
          with (i + 1 + Z.of_nat (length smps) - 1) by lia.
        auto.
Qed.

(** X9. The loop is left at the first pass during which the minute read is
    greater than [M]: in a run that returns, every pass but the last read a
    minute not above [M], and a run of fewer than [run_times] passes ended
    on a pass that read a greater one. *)
Theorem loop_left_at_first_greater_minute cfg w envs rt st0 st log :
  collect_data cfg w envs rt st0 = Ok (st, log) ->
  (forall j : nat, (S j < length log)%nat ->
     exists MM,
       minute_of (minute (envs (1 + Z.of_nat j))) = Ok MM /\ MM <= M w) /\
  (Z.of_nat (length log) < rt ->
     exists MM,
       minute_of (minute (envs (Z.of_nat (length log)))) = Ok MM /\ M w < MM).
Proof.
  unfold collect_data. intros H.
  destruct (collect_loop_stop_law _ _ _ _ _ _ _ _ H) as [H1 H2].
  split; [exact H1|].
  intros Hlt. destruct H2 as (MM & Hm & Hgt); [lia|].
  exists MM. replace (Z.of_nat (length log)) with (1 + Z.of_nat (length log) - 1) by lia.
  auto.
Qed.

Lemma loop_left_at_first_greater_minute_witness :
  exists w st0 st log,
    setup shipped_settings host_boot = Ok (w, st0) /\
    collect_data shipped_settings w (host_tick 5) run_times st0 = Ok (st, log) /\
    exists MM, minute_of (minute (host_tick 5 5)) = Ok MM /\ M w < MM.
Proof.
  destruct host_run_five as (w & st0 & st & log & Hs & Hc & Hlen & _).
  exists w, st0, st, log. split; [exact Hs|]. split; [exact Hc|].
  destruct (loop_left_at_first_greater_minute _ _ _ _ _ _ _ Hc) as [_ H].
  rewrite Hlen in H. apply H. reflexivity.
Defined.

(** X10. A loop entered during minute 59 is never left early: whatever the
    later minute readings (00 to 59), a run that returns made all
    [run_times] passes. *)
Theorem loop_entered_in_minute_59 cfg w envs rt st0 st log :
  M w = 59 ->
  (forall j MM, minute_of (minute (envs j)) = Ok MM -> MM <= 59) ->
  collect_data cfg w envs rt st0 = Ok (st, log) ->
  length log = Z.to_nat rt.
Proof.
  intros HM Hmin H. unfold collect_data in H.
  apply (started_in_minute_59 _ _ _ _ _ _ _ _ HM Hmin H).
Qed.

Lemma late_run_returns :
  exists w st0 st log,
    setup shipped_settings late_boot = Ok (w, st0) /\
    collect_data shipped_settings w late_tick run_times st0 = Ok (st, log) /\
    M w = 59.
Proof.
  eexists _, _, _, _.
  split; [vm_compute; reflexivity|].
  split; vm_compute; reflexivity.
Qed.

Lemma loop_entered_in_minute_59_witness :
  exists w st0 st log,
    setup shipped_settings late_boot = Ok (w, st0) /\
    collect_data shipped_settings w late_tick run_times st0 = Ok (st, log) /\
    length log = 20%nat.
Proof.
  destruct late_run_returns as (w & st0 & st & log & Hs & Hc & HM).
  exists w, st0, st, log. split; [exact Hs|]. split; [exact Hc|].
  apply (loop_entered_in_minute_59 shipped_settings w late_tick run_times
           st0 st log HM); [|exact Hc].
  intros j MM. unfold late_tick. cbn [minute].
  destruct (j <? 5)%Z; vm_compute; intros H; injection H as <-; discriminate.
Defined.

(** ** Elapsed time *)

Lemma collect_loop_clock cfg w envs n : forall i st st' log,
  (forall j, restart_time (envs j) = end_time (envs j)) ->
  collect_loop cfg w envs n i st = Ok (st', log) ->
  log <> [] ->
  start_time st' = end_time (envs (i + Z.of_nat (length log) - 1)) /\
  t_time_diff st'
  = (t_time_diff st
     + (end_time (envs (i + Z.of_nat (length log) - 1)%Z) - start_time st))%Qc.
Proof.
  induction n as [|n IH]; intros i st st' log Hclk H Hne.
  - cbn in H. injection H as <- <-. contradiction.
  - cbn [collect_loop] in H. apply bind_Ok in H.
    destruct H as ([[st1 smp] stop] & Et & H).
    pose proof (tick_Ok_effect _ _ _ _ _ _ _ _ Et) as T.
    assert (Hone : start_time st1 = end_time (envs i) /\
                   t_time_diff st1
                   = (t_time_diff st + (end_time (envs i) - start_time st))%Qc).
    { rewrite (te_start _ _ _ _ _ T), (te_time _ _ _ _ _ T),
        (te_diff _ _ _ _ _ T), Hclk. auto. }
    destruct stop.
    + injection H as <- <-. cbn [length].
      replace (i + Z.of_nat 1 - 1) with i by lia. exact Hone.
    + apply bind_Ok in H. destruct H as ([st2 smps] & El & H).
      injection H as <- <-. cbn [length].
      destruct smps as [|s smps].
      * pose proof (le_nil _ _ _ _ _ (collect_loop_effect _ _ _ _ _ _ _ _ El)
                      eq_refl) as ->.
        cbn [length].
        replace (i + Z.of_nat 1 - 1) with i by lia. exact Hone.
      * destruct (IH _ _ _ _ Hclk El) as [Hs Ht]; [discriminate|].
        replace (i + Z.of_nat (S (length (s :: smps))) - 1)
          with (i + 1 + Z.of_nat (length (s :: smps)) - 1) by lia.
        split; [exact Hs|]. rewrite Ht. destruct Hone as [-> ->]. ring.
Qed.

Lemma setup_clock cfg senv w st0 :
  setup cfg senv = Ok (w, st0) -> start_time st0 = boot_time senv.
Proof.
  unfold setup. intros H. ok_inv H. injection H as <- <-. reflexivity.
Qed.

(** X11. If the two clock reads of every pass agree, the sum of the per-pass
    elapsed times is the time from the start of the script to the last
    pass's read: [t_time_diff] telescopes. *)
Theorem elapsed_time_telescopes cfg senv envs rt w st0 st log :
  setup cfg senv = Ok (w, st0) ->
  0 < rt ->
  (forall j, restart_time (envs j) = end_time (envs j)) ->
  collect_data cfg w envs rt st0 = Ok (st, log) ->
  t_time_diff st
  = (end_time (envs (Z.of_nat (length log))) - boot_time senv)%Qc.
Proof.
  intros Hs Hrt Hclk H.
  destruct (collect_data_ticks _ _ _ _ _ _ _ Hrt H) as (Hn & _ & _).
  unfold collect_data in H.
  destruct (collect_loop_clock _ _ _ _ _ _ _ _ Hclk H) as [_ Ht].
  { destruct log; [cbn in Hn; lia | discriminate]. }
  rewrite Ht, (fr_time _ (setup_pristine _ _ _ _ Hs)), (setup_clock _ _ _ _ Hs).
  replace (1 + Z.of_nat (length log) - 1) with (Z.of_nat (length log)) by lia.
  ring.
Qed.

Lemma elapsed_time_telescopes_witness :
  exists w st0 st log,
    setup shipped_settings host_boot = Ok (w, st0) /\
    collect_data shipped_settings w (host_tick 5) run_times st0 = Ok (st, log) /\
    t_time_diff st = (Py.Z2Qc 15 - 0)%Qc.
Proof.
  destruct host_run_five as (w & st0 & st & log & Hs & Hc & Hlen & _).
  exists w, st0, st, log. split; [exact Hs|]. split; [exact Hc|].
  rewrite (elapsed_time_telescopes shipped_settings host_boot (host_tick 5)
             run_times w st0 st log Hs eq_refl (fun j => eq_refl) Hc).
  rewrite Hlen. reflexivity.
Defined.

(** ** Rates over whole seconds *)



(** ** The set of monitored interfaces *)

Lemma init_nic_view text ns nic ns' k :
  init_nic text ns nic = Ok ns' ->
  (k = nic -> find_line (nic ++ ":") text <> None -> nic_bound ns' k) /\
  (~ (k = nic /\ find_line (nic ++ ":") text <> None) ->
   nic_view ns' k = nic_view ns k).
Proof.
  unfold init_nic. intros H.
  destruct (find_line (nic ++ ":") text) as [line|].
  - ok_inv H. subst ns'. split.
    + intros -> _. unfold nic_bound, nic_view. cbn.
      rewrite !lookup_insert_eq. eauto.
    + intros Hn. assert (Hne : nic <> k).
      { intros ->. apply Hn. split; [reflexivity | discriminate]. }
      unfold nic_view. cbn. rewrite !lookup_insert_ne by assumption.
      reflexivity.
  - injection H as <-. split; [intros _ Hf; contradiction | reflexivity].
Qed.

Lemma init_nics_view text l : forall ns ns' k,
  init_nics text ns l = Ok ns' ->
  (nic_bound ns k \/ (In k l /\ find_line (k ++ ":") text <> None) ->
   nic_bound ns' k) /\
  (nic_unbound ns k ->
   ~ (In k l /\ find_line (k ++ ":") text <> None) ->
   nic_unbound ns' k).
Proof.
  induction l as [|nic l IH]; intros ns ns' k H.
  - injection H as <-. split.
    + intros [Hb|[[] _]]. exact Hb.
    + auto.
  - cbn [init_nics] in H. ok_inv H.
    match goal with E : init_nic _ _ _ = Ok ?n1 |- _ =>
      destruct (init_nic_view _ _ _ _ k E) as [Hhit Hmiss];
      destruct (IH _ _ k H) as [IHb IHu]
    end.
    destruct (decide (k = nic /\ find_line (nic ++ ":") text <> None))
      as [[-> Hf]|Hn].
    + split.
      * intros _. apply IHb. left. apply Hhit; [reflexivity | exact Hf].
      * intros _ Hc. exfalso. apply Hc. split; [left; reflexivity | exact Hf].
    + specialize (Hmiss Hn). split.
      * intros [Hb|[[->|Hin] Hf]].
        -- apply IHb. left. unfold nic_bound in *. rewrite Hmiss. exact Hb.
        -- exfalso. apply Hn. auto.
        -- apply IHb. right. auto.
      * intros Hu Hc. apply IHu.
        -- unfold nic_unbound in *. rewrite Hmiss. exact Hu.
        -- intros [Hin Hf]. apply Hc. split; [right; exact Hin | exact Hf].
Qed.

Lemma nic_step_bound text td ns nic ns' r k :
  nic_step text td ns nic = Ok (ns', r) ->
  (nic_bound ns k -> nic_bound ns' k) /\
  (nic_unbound ns k -> nic_unbound ns' k).
Proof.
  intros H. destruct (decide (nic = k)) as [->|Hne].
  - unfold nic_step in H. destruct (find_line (k ++ ":") text) as [line|].
    + ok_inv H. injection H as <- <-.
      repeat match goal with
      | E : Py.getitem _ _ = Ok _ |- _ => apply getitem_Ok in E
      end.
      split.
      * intros _. unfold nic_bound, nic_view. cbn.
        rewrite !lookup_insert_eq. eauto.
      * unfold nic_unbound, nic_view. intros Hu. injection Hu as Hu _ _ _.
        congruence.
    + injection H as <- <-. auto.
  - unfold nic_bound, nic_unbound.
    rewrite (nic_step_other _ _ _ _ _ _ k H Hne). auto.
Qed.

Lemma nic_steps_bound text td l : forall ns ns' rates k,
  nic_steps text td ns l = Ok (ns', rates) ->
  (nic_bound ns k -> nic_bound ns' k) /\
  (nic_unbound ns k -> nic_unbound ns' k).
Proof.
  induction l as [|nic l IH]; intros ns ns' rates k H.
  - injection H as <- <-. auto.
  - cbn [nic_steps] in H. ok_inv H. injection H as <- <-.
    match goal with
    | E1 : nic_step _ _ _ _ = Ok _, E2 : nic_steps _ _ _ _ = Ok _ |- _ =>
        destruct (nic_step_bound _ _ _ _ _ _ k E1);
        destruct (IH _ _ _ k E2)
    end.
    auto.
Qed.

Lemma tick_bound cfg w env i st st' smp stop k :
  tick cfg w env i st = Ok (st', smp, stop) ->
  (nic_bound (nics st) k -> nic_bound (nics st') k) /\
  (nic_unbound (nics st) k -> nic_unbound (nics st') k).
Proof.
  unfold tick. intros H. ok_inv H. injection H as <- <- <-. cbn [nics].
  match goal with E : nic_steps _ _ _ _ = Ok _ |- _ =>
    apply (nic_steps_bound _ _ _ _ _ _ k E) end.
Qed.

Lemma collect_loop_bound cfg w envs n k : forall i st st' log,
  collect_loop cfg w envs n i st = Ok (st', log) ->
  (nic_bound (nics st) k -> nic_bound (nics st') k) /\
  (nic_unbound (nics st) k -> nic_unbound (nics st') k).
Proof.
  induction n as [|n IH]; intros i st st' log H.
  - cbn in H. injection H as <- <-. auto.
  - cbn [collect_loop] in H. apply bind_Ok in H.
    destruct H as ([[st1 smp] stop] & Et & H).
    destruct (tick_bound _ _ _ _ _ _ _ _ k Et) as [Tb Tu].
    destruct stop.
    + injection H as <- <-. auto.
    + apply bind_Ok in H. destruct H as ([st2 smps] & El & H).
      injection H as <- <-. destruct (IH _ _ _ _ El). auto.
Qed.

Lemma setup_nics cfg senv w st0 k :
  setup cfg senv = Ok (w, st0) ->
  (seen_at_boot senv w k -> nic_bound (nics st0) k) /\
  (~ seen_at_boot senv w k -> nic_unbound (nics st0) k).
Proof.
  unfold setup, seen_at_boot. intros H. ok_inv H. injection H as <- <-.
  cbn [nics network_interfaces_array].
  match goal with E : init_nics _ _ _ = Ok _ |- _ =>
    destruct (init_nics_view _ _ _ _ k E) as [Hb Hu] end.
  split; [intros Hs; apply Hb; right; exact Hs|].
  intros Hn. apply Hu; [|exact Hn].
  unfold nic_unbound, nic_view. cbn. rewrite !lookup_empty. reflexivity.
Qed.

Lemma interfaces_fixed cfg senv envs rt w st0 st log nic :
  setup cfg senv = Ok (w, st0) ->
  collect_data cfg w envs rt st0 = Ok (st, log) ->
  (seen_at_boot senv w nic ->
   nic_bound (nics st0) nic /\ nic_bound (nics st) nic) /\
  (~ seen_at_boot senv w nic ->
   nic_unbound (nics st0) nic /\ nic_unbound (nics st) nic).
Proof.
  intros Hs H. unfold collect_data in H.
  destruct (setup_nics _ _ _ _ nic Hs) as [Sb Su].
  destruct (collect_loop_bound _ _ _ _ nic _ _ _ _ H) as [Lb Lu].
  split; intros Hseen; split; auto.
Qed.

(** X13. The set of monitored interfaces is fixed before the loop: an
    interface has entries in the four dictionaries exactly when it is listed
    and the first read of /proc/net/dev has a line for it, and the loop
    neither adds nor drops an interface. *)
Theorem monitored_interfaces_fixed cfg senv envs rt w st0 st log nic :
  setup cfg senv = Ok (w, st0) ->
  collect_data cfg w envs rt st0 = Ok (st, log) ->
  (seen_at_boot senv w nic ->
   nic_bound (nics st0) nic /\ nic_bound (nics st) nic) /\
  (~ seen_at_boot senv w nic ->
   nic_unbound (nics st0) nic /\ nic_unbound (nics st) nic).
Proof. apply interfaces_fixed. Qed.

Lemma monitored_interfaces_fixed_witness :
  exists w st0 st log,
    setup shipped_settings host_boot = Ok (w, st0) /\
    collect_data shipped_settings w (host_tick 5) run_times st0 = Ok (st, log) /\
    nic_bound (nics st) "eth0" /\ nic_unbound (nics st) "wlan0".
Proof.
  assert (exists w st0 st log,
    setup shipped_settings host_boot = Ok (w, st0) /\
    collect_data shipped_settings w (host_tick 5) run_times st0 = Ok (st, log) /\
    network_interfaces_array w = ["eth0"])
    as (w & st0 & st & log & Hs & Hc & Hnia).
  { eexists _, _, _, _.
    split; [vm_compute; reflexivity|].
    split; vm_compute; reflexivity. }
  exists w, st0, st, log. split; [exact Hs|]. split; [exact Hc|].
  split.
  - apply (proj1 (monitored_interfaces_fixed _ _ _ _ _ _ _ _ "eth0" Hs Hc)).
    split; [rewrite Hnia; left; reflexivity | vm_compute; discriminate].
  - apply (proj2 (monitored_interfaces_fixed _ _ _ _ _ _ _ _ "wlan0" Hs Hc)).
    intros [Hin _]. rewrite Hnia in Hin. destruct Hin as [H|[]]. discriminate.
Defined.

(** ** The interface and port fields after the loop *)

Lemma int_avg_KeyError (total : gmap string Z) key st :
  total !! key = None -> int_avg total key st = Raise KeyError.
Proof. intros H. unfold int_avg, Py.getitem. rewrite H. reflexivity. Qed.

Lemma int_avg_returns (total : gmap string Z) key st x :
  is_Some (total !! key) -> loop_variable st = Ok x -> x <> 0 ->
  returns (int_avg total key st).
Proof.
  intros [v Hv] Hx Hne. eexists. apply int_avg_Ok; eassumption.
Qed.

Lemma seen_at_boot_dec senv w nic :
  seen_at_boot senv w nic \/ ~ seen_at_boot senv w nic.
Proof.
  unfold seen_at_boot.
  destruct (in_dec string_dec nic (network_interfaces_array w)) as [Hin|Hout];
    [|right; tauto].
  destruct (find_line (nic ++ ":") (boot_net_dev senv));
    [left; split; [exact Hin | discriminate] | right; tauto].
Qed.

Lemma nics_entries_outcome st x l :
  loop_variable st = Ok x -> x <> 0 ->
  (forall nic, nic_bound (nics st) nic \/ nic_unbound (nics st) nic) ->
  (Forall (nic_bound (nics st)) l ->
   exists es, nics_entries st l = Ok es /\ map fst es = l) /\
  (Exists (nic_unbound (nics st)) l -> nics_entries st l = Raise KeyError).
Proof.
  intros Hx Hne Hall. induction l as [|nic l [IHb IHu]].
  - split; [intros _; exists []; auto | intros H; inversion H].
  - assert (Hhead : nic_bound (nics st) nic ->
                    exists r t, rx_avg st nic = Ok r /\ tx_avg st nic = Ok t).
    { intros (a & b & c & d & Hv). unfold nic_view in Hv.
      injection Hv as _ _ Hc Hd.
      destruct (int_avg_returns (t_rx (nics st)) nic st x) as [r Hr]; eauto.
      destruct (int_avg_returns (t_tx (nics st)) nic st x) as [t Ht]; eauto. }
    split.
    + intros Hf. inversion Hf as [|? ? Hb Hl]; subst.
      destruct (Hhead Hb) as (r & t & Hr & Ht).
      destruct (IHb Hl) as (es & Hes & Hmap).
      cbn [nics_entries]. rewrite Hr. cbn. rewrite Ht. cbn. rewrite Hes. cbn.
      eexists. split; [reflexivity|]. cbn. rewrite Hmap. reflexivity.
    + intros He. cbn [nics_entries].
      destruct (Hall nic) as [Hb|Hu].
      * destruct (Hhead Hb) as (r & t & Hr & Ht).
        rewrite Hr. cbn. rewrite Ht. cbn.
        inversion He as [? ? Hu|? ? Hl]; subst.
        -- destruct Hb as (a & b & c & d & Hv). unfold nic_unbound in Hu.
           congruence.
        -- rewrite (IHu Hl). reflexivity.
      * unfold nic_unbound, nic_view in Hu. injection Hu as _ _ Hc _.
        unfold rx_avg. rewrite (int_avg_KeyError _ _ _ Hc). reflexivity.
Qed.

(** X14. After a loop that returned, the interface field is built exactly
    when every listed interface had a line in the first read of
    /proc/net/dev, with one record per listed interface, in order; a listed
    interface that was absent then ends the run with [KeyError]. *)
Theorem nics_str_outcome cfg senv envs rt w st0 st log :
  setup cfg senv = Ok (w, st0) ->
  0 < rt ->
  collect_data cfg w envs rt st0 = Ok (st, log) ->
  (Forall (fun nic => find_line (nic ++ ":") (boot_net_dev senv) <> None)
     (network_interfaces_array w) ->
   exists es, nics_str w st = Ok es /\ map fst es = network_interfaces_array w) /\
  (Exists (fun nic => find_line (nic ++ ":") (boot_net_dev senv) = None)
     (network_interfaces_array w) ->
   nics_str w st = Raise KeyError).
Proof.
  intros Hs Hrt H.
  destruct (collect_data_ticks _ _ _ _ _ _ _ Hrt H) as (Hn & _ & Hlv).
  assert (Hne : Z.of_nat (length log) <> 0) by lia.
  assert (Hall : forall nic,
            nic_bound (nics st) nic \/ nic_unbound (nics st) nic).
  { intros nic.
    destruct (interfaces_fixed _ _ _ _ _ _ _ _ nic Hs H) as [Hb Hu].
    destruct (seen_at_boot_dec senv w nic) as [Hd|Hd];
      [left; apply Hb | right; apply Hu]; exact Hd. }
  destruct (nics_entries_outcome st _ (network_interfaces_array w) Hlv Hne Hall)
    as [Ob Ou].
  unfold nics_str. split.
  - intros Hf. apply Ob. rewrite Forall_forall in *. intros nic Hin.
    apply (interfaces_fixed _ _ _ _ _ _ _ _ nic Hs H).
    split; [apply list_elem_of_In; exact Hin | apply Hf; exact Hin].
  - intros He. apply Ou. rewrite Exists_exists in *.
    destruct He as (nic & Hin & Hnone). exists nic. split; [exact Hin|].
    apply (interfaces_fixed _ _ _ _ _ _ _ _ nic Hs H).
    intros [_ Hf]. contradiction.
Qed.

Lemma nics_str_outcome_witness :
  exists w st0 st log,
    setup two_nics host_boot = Ok (w, st0) /\
    collect_data two_nics w (host_tick 5) run_times st0 = Ok (st, log) /\
    nics_str w st = Raise KeyError.
Proof.
  assert (exists w st0 st log,
    setup two_nics host_boot = Ok (w, st0) /\
    collect_data two_nics w (host_tick 5) run_times st0 = Ok (st, log) /\
    network_interfaces_array w = ["eth0"; "eth7"])
    as (w & st0 & st & log & Hs & Hc & Hnia).
  { eexists _, _, _, _.
    split; [vm_compute; reflexivity|].
    split; vm_compute; reflexivity. }
  exists w, st0, st, log. split; [exact Hs|]. split; [exact Hc|].
  apply (proj2 (nics_str_outcome two_nics host_boot (host_tick 5) run_times
                  w st0 st log Hs eq_refl Hc)).
  rewrite Hnia. apply Exists_cons_tl, Exists_cons_hd. vm_compute. reflexivity.
Defined.

Lemma init_connections_fold netstat l : forall (d : gmap string Z) p,
  (In p l ->
   fold_left (fun d c_port => <[c_port := port_count netstat c_port]> d) l d !! p
   = Some (port_count netstat p)) /\
  (~ In p l ->
   fold_left (fun d c_port => <[c_port := port_count netstat c_port]> d) l d !! p
   = d !! p).
Proof.
  induction l as [|q l IH]; intros d p.
  - split; [intros [] | reflexivity].
  - cbn [fold_left].
    destruct (IH (<[q := port_count netstat q]> d) p) as [IHin IHout].
    split.
    + intros [->|Hin].
      * destruct (in_dec string_dec p l) as [Hl|Hl]; [apply IHin, Hl|].
        rewrite (IHout Hl). apply lookup_insert_eq.
      * apply IHin, Hin.
    + intros Hn. rewrite IHout by (intros Hl; apply Hn; right; exact Hl).
      apply lookup_insert_ne. intros ->. apply Hn. left. reflexivity.
Qed.

Lemma setup_connections cfg senv w st0 :
  setup cfg senv = Ok (w, st0) ->
  connection_ports_array w
  = (if truthy (CONNECTION_PORTS cfg)
     then Py.split_on "," (CONNECTION_PORTS cfg) else []) /\
  forall p, In p (connection_ports_array w) ->
            connections st0 !! p = Some (port_count (boot_netstat senv) p).
Proof.
  unfold setup. intros H. ok_inv H. injection H as <- <-.
  cbn [connection_ports_array connections]. split; [reflexivity|].
  intros p Hin. unfold init_connections.
  apply (init_connections_fold _ _ ∅ p). exact Hin.
Qed.

Lemma conn_entries_Ok st x (value : string -> Z) l :
  loop_variable st = Ok x -> x <> 0 ->
  (forall p, In p l -> connections st !! p = Some (value p)) ->
  conn_entries st l
  = Ok (map (fun p => (p, Py.trunc (Py.Z2Qc (value p) / Py.Z2Qc x)%Qc)) l).
Proof.
  intros Hx Hne. induction l as [|p l IH]; intros Hl; [reflexivity|].
  cbn [conn_entries map]. unfold con_avg.
  rewrite (int_avg_Ok _ _ _ _ _ (Hl p (or_introl eq_refl)) Hx Hne). cbn.
  rewrite IH by (intros q Hq; apply Hl; right; exact Hq). reflexivity.
Qed.

(** X15. After a loop that returned, the port field is always built: one
    record per configured port, in order, whose value is the count read
    before the loop plus the counts of the passes, over the number of
    passes, truncated. *)
Theorem conn_str_outcome cfg senv envs rt w st0 st log :
  setup cfg senv = Ok (w, st0) ->
  0 < rt ->
  collect_data cfg w envs rt st0 = Ok (st, log) ->
  conn_str cfg w st
  = Ok (map (fun p =>
               (p, Py.trunc (Py.Z2Qc (port_count (boot_netstat senv) p
                                      + log_count p log)
                             / Py.Z2Qc (Z.of_nat (length log)))%Qc))
          (connection_ports_array w)).
Proof.
  intros Hs Hrt H.
  destruct (collect_data_ticks _ _ _ _ _ _ _ Hrt H) as (Hn & _ & Hlv).
  destruct (setup_connections _ _ _ _ Hs) as [Hports Hboot].
  pose proof (collect_loop_effect _ _ _ _ _ _ _ _ H) as L.
  assert (E : conn_str cfg w st = conn_entries st (connection_ports_array w)).
  { unfold conn_str. rewrite Hports.
    destruct (truthy (CONNECTION_PORTS cfg)); reflexivity. }
  rewrite E. apply conn_entries_Ok; [exact Hlv | lia |].
  intros p Hin. rewrite (le_conn _ _ _ _ _ L), (Hboot p Hin). reflexivity.
Qed.

Lemma conn_str_outcome_witness :
  exists w st0 st log,
    setup watch_443 port_boot = Ok (w, st0) /\
    collect_data watch_443 w (port_tick 2) run_times st0 = Ok (st, log) /\
    conn_str watch_443 w st = Ok [("443", 3)].
Proof.
  assert (exists w st0 st log,
    setup watch_443 port_boot = Ok (w, st0) /\
    collect_data watch_443 w (port_tick 2) run_times st0 = Ok (st, log) /\
    connection_ports_array w = ["443"] /\
    length log = 2%nat /\ log_count "443" log = 4)
    as (w & st0 & st & log & Hs & Hc & Hp & Hlen & Hcount).
  { eexists _, _, _, _.
    split; [vm_compute; reflexivity|].
    split; [vm_compute; reflexivity|].
    split; [vm_compute; reflexivity|].
    split; vm_compute; reflexivity. }
  exists w, st0, st, log. split; [exact Hs|]. split; [exact Hc|].
  rewrite (conn_str_outcome watch_443 port_boot (port_tick 2) run_times
             w st0 st log Hs eq_refl Hc).
  rewrite Hp, Hlen. cbn [map]. rewrite Hcount.
  replace (port_count (boot_netstat port_boot) "443") with 2
    by (vm_compute; reflexivity).
  rewrite trunc_Z2Qc_div by discriminate. reflexivity.
Defined.

(** ** Averages stay percentages *)

Lemma Z2Qc_div_this (a b : Z) :
  this (Py.Z2Qc a / Py.Z2Qc b)%Qc == inject_Z a / inject_Z b.
Proof.
  unfold Qcdiv, Qcmult, Qcinv. cbn [this Q2Qc].
  rewrite !Qred_correct, !Z2Qc_this. reflexivity.
Qed.

(** A mean of [n] integers lies between any bounds of their sum over [n]. *)
Lemma mean_between (s n lo hi : Z) :
  0 < n -> lo * n <= s <= hi * n ->
  (Py.Z2Qc lo <= Py.Z2Qc s / Py.Z2Qc n)%Qc /\
  (Py.Z2Qc s / Py.Z2Qc n <= Py.Z2Qc hi)%Qc.
Proof.
  intros Hn [Hlo Hhi]. unfold Qcle.
  rewrite Z2Qc_div_this, !Z2Qc_this.
  assert (Hpos : (0 < inject_Z n)%Q) by (unfold Qlt, inject_Z; cbn; lia).
  split.
  - apply Qle_shift_div_l; [exact Hpos|].
    rewrite <- inject_Z_mult, <- Zle_Qle. exact Hlo.
  - apply Qle_shift_div_r; [exact Hpos|].
    rewrite <- inject_Z_mult, <- Zle_Qle. exact Hhi.
Qed.

Lemma sum_Z_between (l : list Z) (lo hi : Z) :
  Forall (fun x => lo <= x <= hi) l ->
  lo * Z.of_nat (length l) <= sum_Z l <= hi * Z.of_nat (length l).
Proof.
  induction 1 as [|x l Hx _ IH]; cbn [sum_Z length]; lia.
Qed.

(** Every sample of the trace was computed by a pass that returned, on the
    readings of that pass. *)
Lemma collect_loop_samples cfg w envs n : forall i st st' log,
  collect_loop cfg w envs n i st = Ok (st', log) ->
  Forall (fun smp => exists j sa sb stop,
            tick cfg w (envs j) j sa = Ok (sb, smp, stop)) log.
Proof.
  induction n as [|n IH]; intros i st st' log H.
  - cbn in H. injection H as <- <-. constructor.
  - cbn [collect_loop] in H. apply bind_Ok in H.
    destruct H as ([[st1 smp] stop] & Et & H).
    destruct stop.
    + injection H as <- <-. constructor; [eauto | constructor].
    + apply bind_Ok in H. destruct H as ([st2 smps] & El & H).
      injection H as <- <-. constructor; [eauto | eapply IH; eauto].
Qed.

Lemma tick_vmstat_sample cfg w env i st st' smp stop :
  tick cfg w env i st = Ok (st', smp, stop) ->
  exists idle wa,
    field (Py.split (vmstat_output env)) 14 = Ok idle /\
    field (Py.split (vmstat_output env)) 15 = Ok wa /\
    s_cpu smp = 100 - idle /\ s_iow smp = wa.
Proof.
  unfold tick. intros H. ok_inv H. injection H as <- <- <-.
  cbn [s_cpu s_iow]. do 2 eexists.
  split; [eassumption|]. split; [eassumption|]. split; reflexivity.
Qed.

(** X16. If every [vmstat] line read during the window reports idle and
    io-wait shares between 0 and 100, then [cpu_avg] and [iow_avg] are
    defined and lie between 0 and 100. *)
Theorem cpu_and_iow_averages_are_percentages
    cfg senv envs rt w st0 st log :
  setup cfg senv = Ok (w, st0) ->
  0 < rt ->
  collect_data cfg w envs rt st0 = Ok (st, log) ->
  (forall j idle,
     field (Py.split (vmstat_output (envs j))) 14 = Ok idle -> 0 <= idle <= 100) ->
  (forall j wa,
     field (Py.split (vmstat_output (envs j))) 15 = Ok wa -> 0 <= wa <= 100) ->
  exists c io,
    cpu_avg st = Ok c /\ iow_avg st = Ok io /\
    (0 <= c)%Qc /\ (c <= Py.Z2Qc 100)%Qc /\
    (0 <= io)%Qc /\ (io <= Py.Z2Qc 100)%Qc.
Proof.
  intros Hs Hrt H Hidle Hwa.
  destruct (collect_data_ticks _ _ _ _ _ _ _ Hrt H) as (Hn & _ & _).
  destruct (averages_of_run cfg w envs rt st0 st log
              (setup_pristine _ _ _ _ Hs) Hrt H) as (Hc & Hi & _).
  pose proof (collect_loop_samples _ _ _ _ _ _ _ _ H) as Hlog.
  assert (Hcs : Forall (fun x => 0 <= x <= 100) (map s_cpu log)).
  { apply Forall_map. eapply Forall_impl; [exact Hlog|]. cbn.
    intros smp (j & sa & sb & stop & Ht).
    destruct (tick_vmstat_sample _ _ _ _ _ _ _ _ Ht) as (idle & wa & E14 & _ & -> & _).
    specialize (Hidle _ _ E14). lia. }
  assert (His : Forall (fun x => 0 <= x <= 100) (map s_iow log)).
  { apply Forall_map. eapply Forall_impl; [exact Hlog|]. cbn.
    intros smp (j & sa & sb & stop & Ht).
    destruct (tick_vmstat_sample _ _ _ _ _ _ _ _ Ht) as (idle & wa & _ & E15 & _ & ->).
    exact (Hwa _ _ E15). }
  apply sum_Z_between in Hcs. apply sum_Z_between in His.
  rewrite length_map in Hcs, His.
  destruct (mean_between (sum_Z (map s_cpu log)) (Z.of_nat (length log)) 0 100)
    as [Hc0 Hc1]; [lia | lia |].
  destruct (mean_between (sum_Z (map s_iow log)) (Z.of_nat (length log)) 0 100)
    as [Hi0 Hi1]; [lia | lia |].
  eexists _, _. split; [exact Hc|]. split; [exact Hi|].
  replace 0%Qc with (Py.Z2Qc 0) by (apply Qc_is_canon; reflexivity).
  auto.
Qed.

Lemma cpu_and_iow_averages_are_percentages_witness :
  exists w st0 st log c,
    setup shipped_settings host_boot = Ok (w, st0) /\
    collect_data shipped_settings w (host_tick 5) run_times st0 = Ok (st, log) /\
    cpu_avg st = Ok c /\ (0 <= c)%Qc /\ (c <= Py.Z2Qc 100)%Qc.
Proof.
  destruct host_run_five as (w & st0 & st & log & Hs & Hc & _).
  destruct (cpu_and_iow_averages_are_percentages shipped_settings host_boot
              (host_tick 5) run_times w st0 st log Hs eq_refl Hc)
    as (c & io & Hcpu & _ & H0 & H1 & _).
  - intros j idle. unfold host_tick. cbn [vmstat_output]. vm_compute.
    intros E. injection E as <-. split; discriminate.
  - intros j wa. unfold host_tick. cbn [vmstat_output]. vm_compute.
    intros E. injection E as <-. split; discriminate.
  - exists w, st0, st, log, c. auto.
Defined.

(** ** Swap usage, further *)

Lemma swap_usage_zero_or_ratio_aux swap_size swap_free size free :
  Py.int_opt swap_size = Some size -> Py.int_opt swap_free = Some free ->
  0 < size ->
  exists u, swap_usage swap_size swap_free = Ok u /\
            u = (Py.Z2Qc 100 - Py.Z2Qc free / Py.Z2Qc size * Py.Z2Qc 100)%Qc.
Proof.
  intros Hsize Hfree Hpos. unfold swap_usage.
  rewrite (int_of_int_opt _ _ Hsize). cbn.
  destruct (Z.ltb_spec 0 size) as [_|Hle]; [|lia].
  rewrite (int_of_int_opt _ _ Hfree). cbn.
  rewrite truediv_Z2Qc by lia. eauto.
Qed.

(** X17. [swap_usage] never divides by zero, whatever the two readings are;
    a size that is not positive gives 0 without reading the free amount,
    and a free amount between 0 and a positive size gives a usage between 0
    and 100. *)
Theorem swap_usage_is_percentage (swap_size swap_free : string) :
  swap_usage swap_size swap_free <> Raise ZeroDivisionError /\
  (forall size, Py.int_opt swap_size = Some size -> size <= 0 ->
     swap_usage swap_size swap_free = Ok 0%Qc) /\
  (forall size free,
     Py.int_opt swap_size = Some size -> Py.int_opt swap_free = Some free ->
     0 <= free <= size -> 0 < size ->
     exists u, swap_usage swap_size swap_free = Ok u /\
               (0 <= u)%Qc /\ (u <= Py.Z2Qc 100)%Qc).
Proof.
  split; [|split].
  - unfold swap_usage, Py.int.
    destruct (Py.int_opt swap_size) as [size|]; cbn; [|discriminate].
    destruct (Z.ltb_spec 0 size) as [Hpos|_]; [|discriminate].
    destruct (Py.int_opt swap_free) as [free|]; cbn; [|discriminate].
    rewrite truediv_Z2Qc by lia. discriminate.
  - intros size Hsize Hle. unfold swap_usage.
    rewrite (int_of_int_opt _ _ Hsize). cbn.
    destruct (Z.ltb_spec 0 size) as [Hpos|_]; [lia | reflexivity].
  - intros size free Hsize Hfree Hrange Hpos.
    destruct (swap_usage_zero_or_ratio_aux swap_size swap_free size free
                Hsize Hfree Hpos) as [u [Hu Heq]].
    exists u. split; [exact Hu|].
    destruct (mean_between free size 0 1) as [H0 H1]; [lia | lia |].
    subst u. unfold Qcle in *. rewrite Z2Qc_this in H0, H1.
    assert (E : this (Py.Z2Qc 100 - Py.Z2Qc free / Py.Z2Qc size * Py.Z2Qc 100)%Qc
                == inject_Z 100
                   - this (Py.Z2Qc free / Py.Z2Qc size)%Qc * inject_Z 100).
    { unfold Qcminus, Qcplus, Qcopp, Qcmult. cbn [this Q2Qc].
      rewrite !Qred_correct, !Z2Qc_this. reflexivity. }
    rewrite E, Z2Qc_this.
    set (q := this (Py.Z2Qc free / Py.Z2Qc size)%Qc) in *.
    change (this 0%Qc) with (inject_Z 0).
    split.
    + apply (Qle_trans _ (inject_Z 100 - inject_Z 1 * inject_Z 100)).
      * vm_compute. discriminate.
      * unfold Qminus. apply Qplus_le_r, Qopp_le_compat, Qmult_le_compat_r;
          [exact H1 | vm_compute; discriminate].
    + apply (Qle_trans _ (inject_Z 100 - inject_Z 0 * inject_Z 100)).
      * unfold Qminus. apply Qplus_le_r, Qopp_le_compat, Qmult_le_compat_r;
          [exact H0 | vm_compute; discriminate].
      * vm_compute. discriminate.
Qed.

(** ** Operating system and reboot flag *)

(** X18. The reboot flag is set when /var/run/reboot-required exists, or when
    the Red Hat branch is taken and [needs-restarting] reports something.
    That branch is taken, and [needs-restarting] run, only on a host with
    neither /usr/bin/lsb_release nor /etc/debian_version: where
    [lsb_release] is installed the tool is never consulted. *)
Theorem reboot_flag_sources (w : world) (file_text : string -> string) :
  let redhat_branch :=
    negb (path_present w "/usr/bin/lsb_release")
    && negb (path_present w "/etc/debian_version")
    && path_present w "/etc/redhat-release" in
  (exists os_info kernel_version,
     io_result (os_facts w file_text)
     = Ok (os_info, kernel_version,
           path_present w "/var/run/reboot-required"
           || redhat_branch
              && truthy (shell_output w needs_restarting_command))) /\
  (In (CallRunCommand needs_restarting_command)
      (io_trace (os_facts w file_text)) <-> redhat_branch = true).
Proof.
  unfold os_facts, os_path_exists, run_command.
  unfold mbind, io_bind, mret, io_ret. cbn [io_result io_trace].
  destruct (path_present w "/var/run/reboot-required");
    destruct (path_present w "/usr/bin/lsb_release");
    cbn [io_result io_trace negb andb orb app];
    try (split; [eauto | split; [intros H; cbn in H; intuition discriminate
                                | discriminate]]);
    destruct (path_present w "/etc/debian_version");
    cbn [io_result io_trace negb andb orb app];
    try (split; [eauto | split; [intros H; cbn in H; intuition discriminate
                                | discriminate]]);
    destruct (path_present w "/etc/redhat-release");
    cbn [io_result io_trace negb andb orb app];
    try (split; [eauto | split; [intros H; cbn in H; intuition discriminate
                                | discriminate]]);
    (split; [destruct (truthy (shell_output w needs_restarting_command)); eauto
            | split; [reflexivity | intros _; cbn; auto 10]]).
Qed.

Lemma reboot_flag_sources_witness :
  ~ In (CallRunCommand needs_restarting_command)
       (io_trace (os_facts world_redhat_lsb (fun _ => "Rocky Linux release 9.3"))).
Proof.
  intros H.
  apply (proj2 (reboot_flag_sources world_redhat_lsb
                  (fun _ => "Rocky Linux release 9.3"))) in H.
  discriminate H.
Defined.

(** X19. The operating-system field is plain base64 of the three parts joined
    by [|]: base64-decoding it gives them back. *)
Theorem os_encoded_read_back (os_info kernel_version : string)
    (requires_reboot : bool) :
  b64decode (os_encoded os_info kernel_version requires_reboot)
  = Some (os_info ++ "|" ++ kernel_version ++ "|"
          ++ (if requires_reboot then "1" else "0")).
Proof. apply b64decode_b64encode. Qed.

(** ** Disk targets that are not there *)

Lemma init_disk_missing text rw mount_point disk :
  find_line disk text = None -> init_disk text rw (mount_point, disk) = Ok rw.
Proof. intros H. unfold init_disk. rewrite H. reflexivity. Qed.

Lemma setup_iops_missing cfg senv w st0 mount_point disk :
  setup cfg senv = Ok (w, st0) ->
  In (mount_point, disk) v_disks ->
  find_line disk (boot_diskstats senv) = None ->
  iops_read w !! mount_point = None.
Proof.
  unfold setup. intros H Hin Hl. ok_inv H. injection H as <- <-.
  cbn [iops_read].
  match goal with E : init_disks _ _ _ = Ok _ |- _ =>
    cbn [init_disks v_disks] in E; ok_inv E; injection E as <- <-
  end.
  match goal with
  | E1 : init_disk _ _ ("/", _) = Ok _, E2 : init_disk _ _ ("/volume1", _) = Ok _ |- _ =>
      rename E1 into Hd1; rename E2 into Hd2
  end.
  destruct Hin as [Heq|[Heq|[]]]; injection Heq as <- <-.
  - rewrite (init_disk_missing _ _ _ _ Hl) in Hd1. injection Hd1 as <- <-.
    destruct (init_disk_other _ _ _ _ _ "/" Hd2) as [H1 _]; [discriminate|].
    cbn in H1. rewrite H1. apply lookup_empty.
  - rewrite (init_disk_missing _ _ _ _ Hl) in Hd2. injection Hd2 as <- <-.
    destruct (init_disk_other _ _ _ _ _ "/volume1" Hd1) as [H1 _];
      [discriminate|].
    cbn in H1. rewrite H1. apply lookup_empty.
Qed.

(** X20. A disk target with no line in /proc/diskstats at window close is
    left out of the IOPS field without an error, so a host that has neither
    sda1 nor sda3 reports an empty field; a target that has a line at close
    but had none before the loop ends the run with [KeyError]. *)
Theorem iops_targets_not_there cfg senv w st0 st text :
  setup cfg senv = Ok (w, st0) ->
  (forall mount_point disk,
     find_line disk text = None ->
     iops_entry text w st (mount_point, disk) = Ok None) /\
  (find_line "sda1" text = None -> find_line "sda3" text = None ->
   iops_str text w st = Ok []) /\
  (forall mount_point disk line r1,
     In (mount_point, disk) v_disks ->
     find_line disk (boot_diskstats senv) = None ->
     find_line disk text = Some line ->
     field (Py.split line) 5 = Ok r1 ->
     iops_entry text w st (mount_point, disk) = Raise KeyError).
Proof.
  intros Hs. split; [|split].
  - intros mp disk Hl. unfold iops_entry. rewrite Hl. reflexivity.
  - intros H1 H3. unfold iops_str, iops_entries, v_disks, iops_entry.
    rewrite H1, H3. reflexivity.
  - intros mp disk line r1 Hin Hboot Hl Hr. unfold iops_entry.
    rewrite Hl, Hr. cbn. unfold Py.getitem.
    rewrite (setup_iops_missing _ _ _ _ _ _ Hs Hin Hboot). reflexivity.
Qed.

Lemma iops_targets_not_there_witness :
  exists w st0,
    setup shipped_settings host_boot = Ok (w, st0) /\
    iops_str nvme_diskstats w st0 = Ok [].
Proof.
  destruct host_run_five as (w & st0 & st & log & Hs & _).
  exists w, st0. split; [exact Hs|].
  apply (proj1 (proj2 (iops_targets_not_there _ _ _ _ st0 nvme_diskstats Hs)));
    vm_compute; reflexivity.
Defined.

Lemma swap_usage_is_percentage_witness :
  exists u, swap_usage "2097148" "1048574" = Ok u /\
            (0 <= u)%Qc /\ (u <= Py.Z2Qc 100)%Qc.
Proof.
  apply (proj2 (proj2 (swap_usage_is_percentage "2097148" "1048574"))
           2097148 1048574); [reflexivity | reflexivity | lia | lia].
Defined.

(** ** What the port count counts *)

Lemma prefix_line a : forall l rest,
  lacks newline a -> lacks newline l ->
  String.prefix (a ++ String newline "") (l ++ String newline rest)
  = String.eqb a l.
Proof.
  induction a as [|x a IH]; intros l rest Ha Hl.
  - destruct l as [|c l].
    + change (String.prefix (String newline "") (String newline rest) = true).
      cbn [String.prefix]. destruct (Ascii.ascii_dec newline newline); [|contradiction].
      destruct rest; reflexivity.
    + destruct Hl as [Hc _].
      change (String.prefix (String newline "") (String c (l ++ String newline rest))
              = false).
      cbn [String.prefix]. destruct (Ascii.ascii_dec newline c) as [E|_]; [|reflexivity].
      symmetry in E. contradiction.
  - destruct Ha as [Hx Ha]. destruct l as [|c l].
    + change (String.prefix (String x (a ++ String newline "")) (String newline rest)
              = false).
      cbn [String.prefix]. destruct (Ascii.ascii_dec x newline) as [E|_]; [contradiction | reflexivity].
    + destruct Hl as [Hc Hl].
      change (String.prefix (String x (a ++ String newline ""))
                (String c (l ++ String newline rest))
              = String.eqb (String x a) (String c l)).
      cbn [String.prefix String.eqb].
      destruct (Ascii.ascii_dec x c) as [->|Hne].
      * rewrite Ascii.eqb_refl. apply IH; assumption.
      * destruct (Ascii.eqb_spec x c); [contradiction | reflexivity].
Qed.

Lemma count_go_skip needle : forall s k t,
  String.length s = k ->
  Py.count_go needle k (s ++ t) = Py.count_go needle 0 t.
Proof.
  induction s as [|c s IH]; intros k t Hk.
  - cbn in Hk. subst k. reflexivity.
  - cbn in Hk. subst k.
    change (Py.count_go needle (S (String.length s)) (String c (s ++ t))
            = Py.count_go needle 0 t).
    cbn [Py.count_go]. apply IH. reflexivity.
Qed.

Lemma length_append_char (a : string) (c : ascii) :
  String.length (a ++ String c "") = S (String.length a).
Proof.
  induction a as [|x a IH]; [reflexivity|].
  change (S (String.length (a ++ String c "")) = S (S (String.length a))).
  rewrite IH. reflexivity.
Qed.

(** One line followed by a newline adds one to the count when it ends with
    the pattern. *)
Lemma count_line a : forall l rest,
  a <> "" -> lacks newline a -> lacks newline l ->
  Py.count_go (a ++ String newline "") 0 (l ++ String newline rest)
  = (if ends_with a l then 1 else 0)
    + Py.count_go (a ++ String newline "") 0 rest.
Proof.
  intros l rest Hne Ha. induction l as [|c l IH]; intros Hl.
  - change (Py.count_go (a ++ String newline "") 0 (String newline rest)
            = (if ends_with a "" then 1 else 0)
              + Py.count_go (a ++ String newline "") 0 rest).
    cbn [Py.count_go].
    change (String newline rest) with ("" ++ String newline rest).
    rewrite (prefix_line a "" rest Ha I).
    destruct a as [|x a]; [contradiction|]. reflexivity.
  - change (Py.count_go (a ++ String newline "") 0
              (String c (l ++ String newline rest))
            = (if ends_with a (String c l) then 1 else 0)
              + Py.count_go (a ++ String newline "") 0 rest).
    cbn [Py.count_go ends_with].
    change (String c (l ++ String newline rest))
      with (String c l ++ String newline rest).
    rewrite (prefix_line a (String c l) rest Ha Hl).
    destruct (String.eqb_spec a (String c l)) as [->|Hdiff].
    + cbn [orb]. rewrite length_append_char. cbn [Nat.pred String.length].
      change (l ++ String newline rest) with (l ++ (String newline "" ++ rest)).
      assert (E : l ++ (String newline "" ++ rest)
                  = (l ++ String newline "") ++ rest).
      { clear. induction l as [|x l IH]; [reflexivity|].
        change (String x (l ++ (String newline "" ++ rest))
                = String x ((l ++ String newline "") ++ rest)).
        rewrite IH. reflexivity. }
      rewrite E, (count_go_skip _ (l ++ String newline "") _ rest);
        [reflexivity | apply length_append_char].
    + cbn [orb]. destruct Hl as [_ Hl]. apply IH. exact Hl.
Qed.

(** A last line without newline counts for nothing. *)
Lemma count_last_line a : forall l,
  lacks newline l -> Py.count_go (a ++ String newline "") 0 l = 0.
Proof.
  induction l as [|c l IH]; intros Hl.
  - cbn. destruct a; reflexivity.
  - destruct Hl as [Hc Hl]. cbn [Py.count_go].
    assert (E : String.prefix (a ++ String newline "") (String c l) = false).
    { clear IH. revert c l Hc Hl. induction a as [|x a IHa]; intros c l Hc Hl.
      - change (String.prefix (String newline "") (String c l) = false).
        cbn [String.prefix]. destruct (Ascii.ascii_dec newline c) as [E|_];
          [|reflexivity].
        symmetry in E. contradiction.
      - change (String.prefix (String x (a ++ String newline "")) (String c l)
                = false).
        cbn [String.prefix]. destruct (Ascii.ascii_dec x c); [|reflexivity].
        destruct l as [|d l].
        + destruct a; reflexivity.
        + destruct Hl as [Hd Hl]. apply IHa; assumption. }
    rewrite E. apply IH. exact Hl.
Qed.

(** X21. The per-port count is the number of netstat lines ending in
    [:<port>], the last line left out: a line counts only through the
    newline that follows it, and [run_command] strips the final one. *)
Theorem port_count_counts_lines_but_last
    (lines : list string) (last c_port : string) :
  Forall (lacks newline) lines -> lacks newline last -> lacks newline c_port ->
  port_count (lines_then lines last) c_port
  = count_ending (":" ++ c_port) lines.
Proof.
  intros Hlines Hlast Hp. unfold port_count, Py.count.
  assert (Ha : lacks newline (":" ++ c_port)).
  { change (lacks newline (String ":" c_port)). split; [discriminate | exact Hp]. }
  change (":" ++ c_port ++ String "010" "")
    with ((":" ++ c_port) ++ String newline "").
  induction Hlines as [|l ls Hl _ IH]; cbn [lines_then count_ending].
  - apply count_last_line. exact Hlast.
  - change (String "010" (lines_then ls last))
      with (String newline (lines_then ls last)).
    rewrite count_line; [|discriminate | exact Ha | exact Hl].
    rewrite IH. reflexivity.
Qed.

Lemma port_count_counts_lines_but_last_witness :
  port_count (lines_then ["10.0.0.5:443"; "10.0.0.5:22"] "10.0.0.6:443") "443" = 1.
Proof.
  rewrite port_count_counts_lines_but_last.
  - reflexivity.
  - repeat constructor; discriminate.
  - cbn. repeat split; discriminate.
  - cbn. repeat split; discriminate.
Defined.

(** ** Reading the minute *)

(** X22. Every minute from 00 to 59, as [strftime('%M')] prints it, is read
    back as its value: leading zeros are dropped and [00] gives 0. *)
Theorem minute_read_back (m : Z) :
  0 <= m <= 59 -> minute_of (strftime_M m) = Ok m.
Proof.
  intros Hm.
  assert (E : exists k : nat, (k < 60)%nat /\ m = Z.of_nat k).
  { exists (Z.to_nat m). split; lia. }
  destruct E as (k & Hk & ->). clear Hm.
  do 60 (destruct k as [|k]; [reflexivity|]).
  lia.
Qed.

Lemma minute_read_back_witness :
  minute_of (strftime_M 0) = Ok 0 /\ minute_of (strftime_M 9) = Ok 9.
Proof. split; apply minute_read_back; lia. Defined.

(** ** A runtime shorter than the interval *)

(** X23. If [run_times] is not positive the loop body never runs: no sample
    is taken, [X] stays unbound and computing the averages after the loop
    raises [NameError]. *)
Theorem no_pass_leaves_X_unbound cfg senv envs rt w st0 :
  setup cfg senv = Ok (w, st0) ->
  rt <= 0 ->
  collect_data cfg w envs rt st0 = Ok (st0, []) /\
  cpu_avg st0 = Raise NameError /\
  iow_avg st0 = Raise NameError /\
  ram_avg st0 = Raise NameError.
Proof.
  intros Hs Hrt. unfold collect_data.
  replace (Z.to_nat rt) with O by lia. cbn [collect_loop].
  unfold cpu_avg, iow_avg, ram_avg, loop_variable.
  rewrite (fr_X _ (setup_pristine _ _ _ _ Hs)). auto.
Qed.

Lemma no_pass_leaves_X_unbound_witness :
  exists w st0,
    setup shipped_settings host_boot = Ok (w, st0) /\
    collect_data shipped_settings w (host_tick 5) (2 `div` 3) st0 = Ok (st0, []) /\
    cpu_avg st0 = Raise NameError.
Proof.
  destruct host_run_five as (w & st0 & st & log & Hs & _).
  exists w, st0. split; [exact Hs|].
  destruct (no_pass_leaves_X_unbound shipped_settings host_boot (host_tick 5)
              (2 `div` 3) w st0 Hs) as (H1 & H2 & _); [discriminate|].
  auto.
Defined.
